(** * Visual report renderer: a shallow embedding of
      [components/report_to_pdf_node.py]

    The Python module draws a report on a ReportLab canvas.  The canvas is an
    append-only log of drawing calls, so every renderer is embedded as a
    function that returns the calls it makes (a [list op]) together with the
    vertical cursor it hands back.  A raised exception is the [None] of an
    [option].

    Conventions of the embedding.
    - Lengths are ReportLab points held in Python floats.  They are measured
      here in units of 1/254 pt, in which 1 pt = 254, 1 cm = 72/2.54 pt = 7200
      and the half point used for hairlines is 127; every length of the module
      is then an integer.  Float rounding of lengths is not modelled.
    - A finite Python float carried by the data is the rational it denotes
      ([Q]); NaN and the infinities are not modelled.
    - What the module takes from the Python library or from ReportLab
      ([float] on a string, [str] of a float, [str.title], [textwrap.wrap],
      [str] of a dict, the height a [Table] wraps to) is a field of [PyEnv],
      over which every definition and theorem is generic. *)

From Stdlib Require Import ZArith QArith List String Ascii Bool Lia.
From Stdlib Require Import DecimalString.
Import ListNotations.

Open Scope string_scope.
Open Scope list_scope.
Open Scope Z_scope.

(** ** Lengths *)

Definition pt : Z := 254.
Definition half_pt : Z := 127.
Definition cm : Z := 7200.

(** [reportlab.lib.pagesizes.A4 = (210*mm, 297*mm)] with [mm = cm/10]. *)
Definition page_width : Z := 21 * cm.
Definition page_height : Z := 297 * (cm / 10).

(** The cursor every page break resets to: [y = 27 * cm]. *)
Definition page_top : Z := 27 * cm.

Ltac units :=
  unfold page_top, page_width, page_height, cm, half_pt, pt in *.

(** ** Python values *)

(** The values a row, a metric or a cell can hold.  [PObj shown] is any other
    object (a list, a nested dict, ...): [float] raises [TypeError] on it and
    [str] gives [shown]. *)
Inductive pyval : Type :=
| PNone
| PBool (b : bool)
| PInt (n : Z)
| PFloat (q : Q)
| PStr (s : string)
| PObj (shown : string).

(** A [dict] keeps insertion order; [keys()] and [items()] follow it. *)
Definition pydict : Type := list (string * pyval).

(** An element of a row list or of a metrics list: a [dict] or not. *)
Inductive pyitem : Type :=
| IDict (d : pydict)
| INotDict.

(** What [query_data] can be: [None], a list, a sized non-list (a dict, a
    str, a tuple: true when its length is positive) or an object without
    [len] (a number). *)
Inductive pydata : Type :=
| QNone
| QList (rows : list pyitem)
| QSized (n : nat)
| QScalar (truth : bool).

Record PyEnv : Type := {
  (** [float(s)] for a [str]; [None] is [ValueError]. *)
  float_of_str : string -> option Q;
  (** [str(f)] for a [float]. *)
  str_of_float : Q -> string;
  (** [s.title()]. *)
  str_title : string -> string;
  (** [textwrap.wrap(text, width=w)]. *)
  textwrap_wrap : string -> Z -> list string;
  (** [str(d)] for an insight given as a [Dict[str, str]]. *)
  str_of_dict : list (string * string) -> string;
  (** The height [Table(table_data, colWidths).wrapOn(c, w, 20*cm)] reports,
      from the table's cell texts and the available width. *)
  table_wrap_height : list (list string) -> Z -> Z
}.

Fixpoint dict_get (d : pydict) (k : string) : option pyval :=
  match d with
  | [] => None
  | (k', v) :: d' => if String.eqb k' k then Some v else dict_get d' k
  end.

(** [d.get(k, default)]. *)
Definition get_or (d : pydict) (k : string) (default : pyval) : pyval :=
  match dict_get d k with
  | Some v => v
  | None => default
  end.

Definition keys (d : pydict) : list string := map fst d.

(** [isinstance(v, (int, float))]: [bool] is a subclass of [int]. *)
Definition is_number (v : pyval) : bool :=
  match v with
  | PBool _ | PInt _ | PFloat _ => true
  | _ => false
  end.

(** [isinstance(v, float)]. *)
Definition is_float (v : pyval) : bool :=
  match v with
  | PFloat _ => true
  | _ => false
  end.

(** ** Decimal text *)

Definition comma : ascii := ","%char.

Definition digits_of_N (n : N) : list ascii :=
  list_ascii_of_string (NilZero.string_of_uint (N.to_uint n)).

(** Digits least significant first, a comma after every third one that has a
    digit after it. *)
Fixpoint group_rev (l : list ascii) : list ascii :=
  match l with
  | a :: b :: c :: rest =>
      match rest with
      | [] => [a; b; c]
      | _ :: _ => a :: b :: c :: comma :: group_rev rest
      end
  | _ => l
  end.

(** The [,] option of the format mini-language on a digit string. *)
Definition group_thousands (ds : list ascii) : list ascii :=
  rev (group_rev (rev ds)).

Definition sign_text (neg : bool) : string := if neg then "-" else "".

(** [f"{n:,}"] for an [int]. *)
Definition format_int_commas (n : Z) : string :=
  (sign_text (n <? 0)%Z
   ++ string_of_list_ascii
        (group_thousands (digits_of_N (Z.to_N (Z.abs n)))))%string.

(** [num / den] rounded to the nearest integer, ties to even. *)
Definition round_half_even (num den : N) : N :=
  let q := N.div num den in
  let r := N.modulo num den in
  match N.compare (2 * r) den with
  | Lt => q
  | Gt => N.succ q
  | Eq => if N.even q then q else N.succ q
  end.

(** [k] decimal digits of [n], zero-padded on the left. *)
Fixpoint pad_digits (k : nat) (n : N) : list ascii :=
  match k with
  | O => []
  | S k' => pad_digits k' (N.div n 10) ++ digits_of_N (N.modulo n 10)
  end.

(** [f"{q:,.<d>f}"] for a finite [float]: the value is rounded to [d]
    decimals (ties to even), the integer part is grouped, and the sign of
    the value is kept even when the digits round to zero. *)
Definition format_float_commas (d : nat) (q : Q) : string :=
  let scale := N.pow 10 (N.of_nat d) in
  let n := round_half_even (Z.to_N (Z.abs (Qnum q)) * scale) (Npos (Qden q)) in
  (sign_text (Qnum q <? 0)%Z
   ++ string_of_list_ascii (group_thousands (digits_of_N (N.div n scale)))
   ++ match d with
      | O => ""
      | S _ => "." ++ string_of_list_ascii (pad_digits d (N.modulo n scale))
      end)%string.

(** [str(n)] for an [int]. *)
Definition str_of_int (n : Z) : string :=
  (sign_text (n <? 0)%Z
   ++ string_of_list_ascii (digits_of_N (Z.to_N (Z.abs n))))%string.

Section Conversions.

Variable E : PyEnv.

(** [str(v)]. *)
Definition py_str (v : pyval) : string :=
  match v with
  | PNone => "None"
  | PBool true => "True"
  | PBool false => "False"
  | PInt n => str_of_int n
  | PFloat q => str_of_float E q
  | PStr s => s
  | PObj shown => shown
  end.

(** An [int] converts when it rounds to a finite double: [OverflowError]
    from [2^1024 - 2^970] on. *)
Definition int_fits_float (n : Z) : bool :=
  Z.abs n <? 2 ^ 1024 - 2 ^ 970.

(** [float(v)]; [None] is a raised exception. *)
Definition py_float (v : pyval) : option Q :=
  match v with
  | PNone => None
  | PBool b => Some (if b then 1%Q else 0%Q)
  | PInt n => if int_fits_float n then Some (inject_Z n) else None
  | PFloat q => Some q
  | PStr s => float_of_str E s
  | PObj _ => None
  end.

(** [try: values.append(float(v))  except: values.append(0)]. *)
Definition coerce_value (v : pyval) : Q :=
  match py_float v with
  | Some q => q
  | None => 0%Q
  end.

End Conversions.

(** ** The canvas *)

(** A [Drawing] holding one chart, as handed to [renderPDF.draw]. *)
Inductive chart : Type :=
| BarChart (width height : Z) (title : string)
    (labels : list string) (values : list Q) (value_max : Q) (label_angle : Z)
| PieChart (width height : Z) (title : string)
    (values : list Q) (labels : list string) (fills : list string).

(** One call on the canvas.  Colours are named by their hex text (or by the
    name of the [colors] constant), font sizes are in points. *)
Inductive op : Type :=
| SetFillColor (color : string)
| SetStrokeColor (color : string)
| SetFont (face : string) (size : Z)
| SetLineWidth (w : Z)
| Rect (x y w h : Z) (fill stroke : bool)
| RoundRect (x y w h r : Z) (fill stroke : bool)
| DrawString (x y : Z) (text : string)
| Line (x1 y1 x2 y2 : Z)
| Circle (x y r : Z) (fill stroke : bool)
| ShowPage
| DrawChart (d : chart) (x y : Z)
| DrawTable (table_data : list (list string)) (available_width : Z)
    (col_count : nat) (x y : Z)
| Save.

Definition is_bar (o : op) : bool :=
  match o with
  | DrawChart (BarChart _ _ _ _ _ _ _) _ _ => true
  | _ => false
  end.

Definition is_pie (o : op) : bool :=
  match o with
  | DrawChart (PieChart _ _ _ _ _ _) _ _ => true
  | _ => false
  end.

Definition is_show_page (o : op) : bool :=
  match o with
  | ShowPage => true
  | _ => false
  end.

Definition count (p : op -> bool) (ops : list op) : nat :=
  List.length (filter p ops).

(** ** Chart renderers *)

(** A field name Python takes as true: a non-empty [str]. *)
Definition truthy_name (f : option string) : bool :=
  match f with
  | Some s => negb (String.eqb s "")
  | None => false
  end.

Definition name_of (f : option string) : string :=
  match f with
  | Some s => s
  | None => ""
  end.

(** [not data]. *)
Definition py_not (data : pydata) : bool :=
  match data with
  | QNone => true
  | QList rows => match rows with [] => true | _ :: _ => false end
  | QSized n => Nat.eqb n 0
  | QScalar truth => negb truth
  end.

(** [if not key_field and isinstance(data[0], dict): ...] *)
Definition detect_key_field (key_field : option string) (first : pyitem)
  : option string :=
  match first with
  | IDict d => if truthy_name key_field then key_field else hd_error (keys d)
  | INotDict => key_field
  end.

(** [if not value_field and isinstance(data[0], dict): ...] *)
Definition detect_value_field (value_field : option string) (first : pyitem)
  : option string :=
  match first with
  | IDict d =>
      if truthy_name value_field then value_field
      else match keys d with
           | _ :: k1 :: _ => Some k1
           | [k0] => Some k0
           | [] => None
           end
  | INotDict => value_field
  end.

Definition Qsum (vs : list Q) : Q := fold_left Qplus vs 0%Q.

(** [max(values)] of a non-empty list. *)
Definition Qmaximum (vs : list Q) : Q :=
  match vs with
  | [] => 0%Q
  | v :: vs' => fold_left (fun m w => if Qle_bool w m then m else w) vs' v
  end.

Definition color_palette : list string :=
  ["#3498DB"; "#2ECC71"; "#F39C12"; "#E74C3C";
   "#9B59B6"; "#1ABC9C"; "#34495E"; "#F1C40F"].

Section Charts.

Variable E : PyEnv.

(** The loop of [_create_bar_chart] over [data[:10]]: rows that are not
    dicts are skipped, labels are cut to 10 characters. *)
Fixpoint bar_series (key_field value_field : string) (items : list pyitem)
  : list string * list Q :=
  match items with
  | [] => ([], [])
  | IDict d :: rest =>
      let '(labels, values) := bar_series key_field value_field rest in
      (substring 0 10 (py_str E (get_or d key_field (PStr ""))) :: labels,
       coerce_value E (get_or d value_field (PInt 0)) :: values)
  | INotDict :: rest => bar_series key_field value_field rest
  end.

(** The loop of [_create_pie_chart] over [data[:8]]. *)
Fixpoint pie_series (key_field value_field : string) (items : list pyitem)
  : list string * list Q :=
  match items with
  | [] => ([], [])
  | IDict d :: rest =>
      let '(labels, values) := pie_series key_field value_field rest in
      (py_str E (get_or d key_field (PStr "")) :: labels,
       coerce_value E (get_or d value_field (PInt 0)) :: values)
  | INotDict :: rest => pie_series key_field value_field rest
  end.

Definition _create_bar_chart (data : pydata) (x y width height : Z)
  (title : string) (key_field value_field : option string) : list op * Z :=
  match data with
  | QList ((first :: _) as rows) =>
      let key_field := detect_key_field key_field first in
      let value_field := detect_value_field value_field first in
      if negb (truthy_name key_field) || negb (truthy_name value_field)
      then ([], y)
      else
        let '(labels, values) :=
          bar_series (name_of key_field) (name_of value_field)
            (firstn 10 rows) in
        match values with
        | [] => ([], y)
        | _ :: _ =>
            ([DrawChart
                (BarChart width height title labels values
                   (Qmaximum values * (11 # 10))%Q
                   (if (5 <? List.length labels)%nat then 45 else 0))
                x (y - height)],
             y - height - 20 * pt)
        end
  | _ => ([], y)
  end.

(** [f"{l}\n({v:,.0f})"] *)
Definition pie_label (l : string) (v : Q) : string :=
  (l ++ String "010"%char ("(" ++ format_float_commas 0 v ++ ")"))%string.

Fixpoint zip_with {A B C : Type} (f : A -> B -> C) (l : list A) (m : list B)
  : list C :=
  match l, m with
  | a :: l', b :: m' => f a b :: zip_with f l' m'
  | _, _ => []
  end.

Definition _create_pie_chart (data : pydata) (x y width height : Z)
  (title : string) (key_field value_field : option string) : list op * Z :=
  match data with
  | QList ((first :: _) as rows) =>
      let key_field := detect_key_field key_field first in
      let value_field := detect_value_field value_field first in
      if negb (truthy_name key_field) || negb (truthy_name value_field)
      then ([], y)
      else
        let '(labels, values) :=
          pie_series (name_of key_field) (name_of value_field)
            (firstn 8 rows) in
        match values with
        | [] => ([], y)
        | _ :: _ =>
            if Qeq_bool (Qsum values) 0
            then ([], y)
            else
              ([DrawChart
                  (PieChart width height title values
                     (zip_with pie_label labels values)
                     (firstn (List.length values) color_palette))
                  x (y - height)],
               y - height - 20 * pt)
        end
  | _ => ([], y)
  end.

End Charts.

(** ** Section renderers *)

(** [s.replace('_', ' ')] *)
Fixpoint replace_underscores (s : string) : string :=
  match s with
  | EmptyString => EmptyString
  | String c s' =>
      String (if Ascii.eqb c "_"%char then " "%char else c)
        (replace_underscores s')
  end.

Definition gradient_colors : list string := ["#2C3E50"; "#34495E"; "#3D5A6C"].

Fixpoint header_bands (i : Z) (colors : list string) (page_w page_h : Z)
  : list op :=
  match colors with
  | [] => []
  | color :: rest =>
      [SetFillColor color;
       Rect 0 (page_h - 3 * cm + i * (3 * cm / 10))
            page_w (3 * cm - i * (3 * cm / 10)) true false]
      ++ header_bands (i + 1) rest page_w page_h
  end.

(** [_draw_header]; [today] is [datetime.now().strftime('%B %d, %Y')], read
    once per call. *)
Definition _draw_header (today : string) (title : string) (page_w page_h : Z)
  : list op * Z :=
  let header_height := 3 * cm in
  (header_bands 0 gradient_colors page_w page_h
   ++ [SetFillColor "white";
       SetFont "Helvetica-Bold" 22;
       DrawString (2 * cm) (page_h - 18 * cm / 10) title;
       SetFont "Helvetica" 10;
       DrawString (2 * cm) (page_h - 23 * cm / 10)
         ("Generated: " ++ today)%string;
       SetStrokeColor "#3498DB";
       SetLineWidth (2 * pt);
       Line 0 (page_h - header_height) page_w (page_h - header_height)],
   page_h - header_height - cm / 2).

Section Renderers.

Variable E : PyEnv.

(** The cell text of [_draw_styled_table]:
    [isinstance(value, (int, float))] first, then [isinstance(value, float)]. *)
Definition format_cell (value : pyval) : string :=
  if is_number value then
    match value with
    | PFloat q => format_float_commas 2 q
    | PInt n => format_int_commas n
    | PBool b => format_int_commas (if b then 1 else 0)
    | _ => py_str E value
    end
  else py_str E value.

(** One table row; [item.get] raises [AttributeError] on a row that is not a
    dict. *)
Definition table_row (columns : list string) (item : pyitem)
  : option (list string) :=
  match item with
  | IDict d =>
      Some (map (fun col => format_cell (get_or d col (PStr ""))) columns)
  | INotDict => None
  end.

Fixpoint table_rows (columns : list string) (items : list pyitem)
  : option (list (list string)) :=
  match items with
  | [] => Some []
  | item :: rest =>
      match table_row columns item with
      | None => None
      | Some row =>
          match table_rows columns rest with
          | None => None
          | Some rows => Some (row :: rows)
          end
      end
  end.

Definition table_title_ops (x y : Z) (title : string) : list op :=
  [SetFont "Helvetica-Bold" 12;
   SetFillColor "#2C3E50";
   DrawString x y title;
   SetFillColor "black"].

Definition truncation_note (max_rows total : nat) : string :=
  ("* Showing " ++ str_of_int (Z.of_nat max_rows) ++ " of "
   ++ str_of_int (Z.of_nat total) ++ " total records")%string.

Definition _draw_styled_table (data : pydata) (x y page_w : Z)
  (title : string) (max_rows : nat) : option (list op * Z) :=
  match data with
  | QList ((first :: _) as rows) =>
      let title_ops :=
        if String.eqb title "" then [] else table_title_ops x y title in
      let y := if String.eqb title "" then y else y - 20 * pt in
      match first with
      | IDict d0 =>
          let columns := keys d0 in
          let headers :=
            map (fun col => str_title E (replace_underscores col)) columns in
          match table_rows columns (firstn max_rows rows) with
          | None => None
          | Some body =>
              let table_data := headers :: body in
              let available_width := page_w - 2 * x in
              let col_count := List.length columns in
              (* available_width / col_count *)
              if Nat.eqb col_count 0 then None
              else
                let h := table_wrap_height E table_data available_width in
                let break := y - h <? 2 * cm in
                let y := if break then page_top else y in
                let y' := y - h - 10 * pt in
                let truncated := (max_rows <? List.length rows)%nat in
                Some
                  (title_ops
                   ++ (if break then [ShowPage] else [])
                   ++ [DrawTable table_data available_width col_count x (y - h)]
                   ++ (if truncated
                       then [SetFont "Helvetica-Oblique" 8;
                             SetFillColor "#7F8C8D";
                             DrawString x y'
                               (truncation_note max_rows (List.length rows));
                             SetFillColor "black"]
                       else []),
                   if truncated then y' - 15 * pt else y')
          end
      | INotDict => Some (title_ops, y)
      end
  | _ => Some ([], y)
  end.

(** *** Metric cards *)

Definition card_width : Z := 7 * cm.
Definition card_height : Z := 2 * cm.
Definition cards_per_row : nat := 2.
Definition spacing : Z := cm / 2.

Definition card_background (card_x card_y : Z) : list op :=
  [SetFillColor "#F8F9FA";
   RoundRect card_x (card_y - card_height) card_width card_height (5 * pt)
     true true;
   SetStrokeColor "#BDC3C7";
   SetLineWidth half_pt;
   RoundRect card_x (card_y - card_height) card_width card_height (5 * pt)
     false true].

(** The text of a card: the first two entries of the metric. *)
Definition card_content (metric : pyitem) (card_x card_y : Z) : list op :=
  match metric with
  | IDict d =>
      match firstn 2 d with
      | [] => []
      | (key, value) :: more =>
          [SetFont "Helvetica" 10;
           SetFillColor "#7F8C8D";
           DrawString (card_x + 10 * pt) (card_y - 20 * pt)
             (str_title E (replace_underscores key));
           SetFont "Helvetica-Bold" 16;
           SetFillColor "#2C3E50";
           DrawString (card_x + 10 * pt) (card_y - 40 * pt) (py_str E value)]
          ++ match more with
             | [] => []
             | (key2, value2) :: _ =>
                 [SetFont "Helvetica" 9;
                  SetFillColor "#95A5A6";
                  DrawString (card_x + 10 * pt) (card_y - 55 * pt)
                    (str_title E (replace_underscores key2) ++ ": "
                     ++ py_str E value2)%string]
             end
      end
  | INotDict => []
  end.

(** [row = i // cards_per_row] and [col = i % cards_per_row]. *)
Definition card_row (i : nat) : Z := Z.of_nat (i / cards_per_row).
Definition card_col (i : nat) : Z := Z.of_nat (i mod cards_per_row).

(** Where card [i] goes, given the current [start_y]: whether a page break
    is taken first, the [start_y] in force afterwards, and the card's top. *)
Definition card_place (i : nat) (start_y : Z) : bool * Z * Z :=
  let card_y := start_y - card_row i * (card_height + spacing) in
  if card_y - card_height <? 3 * cm
  then (true, page_top, page_top - card_row i * (card_height + spacing))
  else (false, start_y, card_y).

(** The loop of [_draw_metric_cards] from index [i] on; it hands back the
    final [start_y]. *)
Fixpoint cards_loop (x : Z) (i : nat) (metrics : list pyitem) (start_y : Z)
  : list op * Z :=
  match metrics with
  | [] => ([], start_y)
  | metric :: rest =>
      let '(break, start_y', card_y) := card_place i start_y in
      let card_x := x + card_col i * (card_width + spacing) in
      let '(ops, final_start) := cards_loop x (S i) rest start_y' in
      ((if break then [ShowPage] else [])
       ++ card_background card_x card_y
       ++ card_content metric card_x card_y
       ++ [SetFillColor "black"]
       ++ ops,
       final_start)
  end.

(** [(min(len(metrics), 10) + cards_per_row - 1) // cards_per_row] *)
Definition total_rows (n : nat) : Z :=
  Z.of_nat ((Nat.min n 10 + cards_per_row - 1) / cards_per_row).

Definition _draw_metric_cards (metrics : list pyitem) (x y page_w : Z)
  : list op * Z :=
  match metrics with
  | [] => ([], y)
  | _ :: _ =>
      let '(ops, start_y) := cards_loop x 0 (firstn 10 metrics) (y - 25 * pt) in
      ([SetFont "Helvetica-Bold" 14;
        SetFillColor "#2C3E50";
        DrawString x y "Key Metrics";
        SetFillColor "black"]
       ++ ops,
       start_y - total_rows (List.length metrics) * (card_height + spacing)
       - 20 * pt)
  end.

End Renderers.

(** ** The report *)

(** An insight is a [str] or a [Dict[str, str]]. *)
Inductive insight : Type :=
| InsText (s : string)
| InsDict (d : list (string * string)).

Record ReportModel : Type := {
  title : string;
  executive_summary : string;
  timeframe : string;
  dataset_used : string;
  key_metrics : list pydict;
  insights : list insight;
  findings : list string;
  recommendations : list string;
  limitations : list string;
  next_steps : list string
}.

Fixpoint str_dict_get (d : list (string * string)) (k : string)
  : option string :=
  match d with
  | [] => None
  | (k', v) :: d' => if String.eqb k' k then Some v else str_dict_get d' k
  end.

(** [for line in wrapped: c.drawString(tx, y - dy, line); y -= 14] *)
Fixpoint draw_wrapped (tx dy : Z) (lines : list string) (y : Z) : list op * Z :=
  match lines with
  | [] => ([], y)
  | line :: rest =>
      let '(ops, y') := draw_wrapped tx dy rest (y - 14 * pt) in
      (DrawString tx (y - dy) line :: ops, y')
  end.

(** The title a list section draws again after a page break. *)
Definition continued_title (x : Z) (color text : string) : list op :=
  [ShowPage;
   SetFont "Helvetica-Bold" 14;
   SetFillColor color;
   DrawString x page_top text;
   SetFillColor "black"].

Section Lists.

Variable E : PyEnv.

Definition insight_text (item : insight) : string :=
  match item with
  | InsDict d =>
      match str_dict_get d "insight" with
      | Some s => s
      | None => str_of_dict E d
      end
  | InsText s => s
  end.

(** The badge and the wrapped text of insight number [i] at cursor [y]. *)
Definition insight_item (x : Z) (i : nat) (item : insight) (y : Z)
  : list op * Z :=
  let '(ops, y') :=
    draw_wrapped (x + 25 * pt) (8 * pt)
      (textwrap_wrap E (insight_text item) 90) y in
  ([SetFillColor "#3498DB";
    Circle (x + 10 * pt) (y - 5 * pt) (8 * pt) true false;
    SetFillColor "white";
    SetFont "Helvetica-Bold" 10;
    DrawString (x + 7 * pt) (y - 8 * pt) (str_of_int (Z.of_nat i));
    SetFillColor "#2C3E50";
    SetFont "Helvetica" 10]
   ++ ops,
   y' - 8 * pt).

(** [for i, insight in enumerate(insights[:8], 1)] from number [i] on. *)
Fixpoint insights_loop (x : Z) (i : nat) (items : list insight) (y : Z)
  : list op * Z :=
  match items with
  | [] => ([], y)
  | item :: rest =>
      let break := y <? 5 * cm in
      let y1 := if break then page_top - 20 * pt else y in
      let '(item_ops, y2) := insight_item x i item y1 in
      let '(ops, y3) := insights_loop x (S i) rest y2 in
      ((if break
        then continued_title x "#2C3E50" "Key Insights (continued)"
        else [])
       ++ item_ops ++ ops,
       y3)
  end.

Definition _draw_insights_section (items : list insight) (x y page_w : Z)
  : list op * Z :=
  match items with
  | [] => ([], y)
  | _ :: _ =>
      let '(ops, y') := insights_loop x 1 (firstn 8 items) (y - 20 * pt) in
      ([SetFont "Helvetica-Bold" 14;
        SetFillColor "#2C3E50";
        DrawString x y "Key Insights";
        SetFillColor "black"]
       ++ ops ++ [SetFillColor "black"],
       y')
  end.

(** The bullet and the wrapped text of one finding. *)
Definition finding_item (x : Z) (finding : string) (y : Z) : list op * Z :=
  let '(ops, y') :=
    draw_wrapped (x + 15 * pt) (5 * pt) (textwrap_wrap E finding 85) y in
  ([SetFont "Helvetica" 10;
    SetFillColor "#3498DB";
    Circle (x + 5 * pt) (y - 4 * pt) (2 * pt) true false;
    SetFillColor "black"]
   ++ ops,
   y' - 5 * pt).

(** [for finding in report.findings[:10]] *)
Fixpoint findings_loop (x : Z) (items : list string) (y : Z) : list op * Z :=
  match items with
  | [] => ([], y)
  | finding :: rest =>
      let break := y <? 4 * cm in
      let y1 := if break then page_top - 20 * pt else y in
      let '(item_ops, y2) := finding_item x finding y1 in
      let '(ops, y3) := findings_loop x rest y2 in
      ((if break
        then continued_title x "#2C3E50" "Detailed Findings (continued)"
        else [])
       ++ item_ops ++ ops,
       y3)
  end.

(** The check mark and the wrapped text of one recommendation. *)
Definition recommendation_item (x : Z) (rec : string) (y : Z) : list op * Z :=
  let '(ops, y') :=
    draw_wrapped (x + 20 * pt) (5 * pt) (textwrap_wrap E rec 85) y in
  ([SetStrokeColor "#27AE60";
    SetLineWidth (2 * pt);
    Line (x + 3 * pt) (y - 3 * pt) (x + 6 * pt) (y - 6 * pt);
    Line (x + 6 * pt) (y - 6 * pt) (x + 12 * pt) (y + 2 * pt);
    SetStrokeColor "black";
    SetLineWidth (1 * pt);
    SetFont "Helvetica" 10;
    SetFillColor "#2C3E50"]
   ++ ops,
   y' - 5 * pt).

(** [for i, rec in enumerate(report.recommendations[:8], 1)] *)
Fixpoint recommendations_loop (x : Z) (items : list string) (y : Z)
  : list op * Z :=
  match items with
  | [] => ([], y)
  | rec :: rest =>
      let break := y <? 4 * cm in
      let y1 := if break then page_top - 20 * pt else y in
      let '(item_ops, y2) := recommendation_item x rec y1 in
      let '(ops, y3) := recommendations_loop x rest y2 in
      ((if break
        then continued_title x "#27AE60" "Recommendations (continued)"
        else [])
       ++ item_ops ++ ops,
       y3)
  end.

(** One column of the closing block: [first_x] is where the first line of an
    item starts (with its [mark]), [next_x] where its other lines start. *)
Fixpoint column_tail (next_x : Z) (lines : list string) (temp_y : Z)
  : list op * Z :=
  match lines with
  | [] => ([], temp_y)
  | line :: rest =>
      let '(ops, y') := column_tail next_x rest (temp_y - 12 * pt) in
      (DrawString next_x temp_y line :: ops, y')
  end.

Fixpoint column_loop (first_x next_x : Z) (mark : string) (width : Z)
  (items : list string) (temp_y : Z) : list op * Z :=
  match items with
  | [] => ([], temp_y)
  | item :: rest =>
      match textwrap_wrap E item width with
      | [] => column_loop first_x next_x mark width rest temp_y
      | line0 :: more =>
          let '(tail_ops, y1) := column_tail next_x more (temp_y - 12 * pt) in
          let '(ops, y2) :=
            column_loop first_x next_x mark width rest (y1 - 3 * pt) in
          (DrawString first_x temp_y (mark ++ line0)%string
           :: tail_ops ++ ops,
           y2)
      end
  end.

End Lists.

(** ** The composer: [_write_visual_pdf]

    The function is one straight line of guarded blocks over a shared cursor
    [y]; each block is a stage here, from the cursor it finds to the calls it
    makes and the cursor it leaves. *)

(** [if y < threshold: c.showPage(); y = 27 * cm  else: y -= 15] *)
Definition section_entry (threshold y : Z) : list op * Z :=
  if y <? threshold then ([ShowPage], page_top) else ([], y - 15 * pt).

Definition section_title (x y : Z) (color text : string) : list op :=
  [SetFont "Helvetica-Bold" 14;
   SetFillColor color;
   DrawString x y text;
   SetFillColor "black"].

(** [chart_type in [...]] *)
Definition in_names (s : string) (names : list string) : bool :=
  existsb (String.eqb s) names.

(** The first key of row 0 whose value is an [int] or a [float]. *)
Definition find_numeric_field (d : pydict) : option string :=
  find (fun key => is_number (get_or d key PNone)) (keys d).

Section Composer.

Variable E : PyEnv.

Definition stage_summary (report : ReportModel) (x y : Z) : list op * Z :=
  if String.eqb (executive_summary report) "" then ([], y)
  else
    let '(lines, _) :=
      draw_wrapped x 0
        (firstn 3 (textwrap_wrap E (executive_summary report) 80))
        (y - 20 * pt) in
    ([SetFillColor "#EBF5FB";
      RoundRect (x - 10 * pt) (y - 60 * pt) (page_width - 2 * x + 20 * pt)
        (50 * pt) (5 * pt) true true;
      SetStrokeColor "#3498DB";
      SetLineWidth (1 * pt);
      RoundRect (x - 10 * pt) (y - 60 * pt) (page_width - 2 * x + 20 * pt)
        (50 * pt) (5 * pt) false true;
      SetFillColor "#2C3E50";
      SetFont "Helvetica" 11]
     ++ lines ++ [SetFillColor "black"],
     y - 70 * pt).

Definition stage_charts (query_data : pydata) (chart_type : string) (x y : Z)
  : list op * Z :=
  if String.eqb chart_type "None" then ([], y)
  else
    match query_data with
    | QList ((IDict d0 :: _) as rows) =>
        match find_numeric_field d0 with
        | Some numeric_field =>
            if String.eqb numeric_field "" then ([], y)
            else
              let '(bar_ops, y1) :=
                if in_names chart_type ["Auto"; "Bar"; "Both"]
                   && (List.length rows <=? 15)%nat
                then _create_bar_chart E query_data x y (page_width - 2 * x)
                       (200 * pt) "Data Distribution" None (Some numeric_field)
                else ([], y) in
              let '(pie_ops, y2) :=
                if in_names chart_type ["Auto"; "Pie"; "Both"]
                   && (3 <=? List.length rows)%nat
                then _create_pie_chart E (QList (firstn 8 rows)) x y1
                       (page_width - 2 * x) (200 * pt) "Top Items Distribution"
                       None (Some numeric_field)
                else ([], y1) in
              (bar_ops ++ pie_ops, y2)
        | None => ([], y)
        end
    | _ => ([], y)
    end.

Definition stage_metrics (report : ReportModel) (x y : Z) : list op * Z :=
  match key_metrics report with
  | [] => ([], y)
  | _ :: _ =>
      let '(entry_ops, y1) := section_entry (10 * cm) y in
      let '(ops, y2) :=
        _draw_metric_cards E (map IDict (key_metrics report)) x y1 page_width in
      (entry_ops ++ ops, y2)
  end.

Definition stage_table (query_data : pydata) (x y : Z) : option (list op * Z) :=
  match query_data with
  | QList (_ :: _) =>
      let '(entry_ops, y1) := section_entry (10 * cm) y in
      match _draw_styled_table E query_data x y1 page_width
              "Detailed Results" 15 with
      | Some (ops, y2) => Some (entry_ops ++ ops, y2)
      | None => None
      end
  | _ => Some ([], y)
  end.

Definition stage_insights (report : ReportModel) (x y : Z) : list op * Z :=
  match insights report with
  | [] => ([], y)
  | _ :: _ =>
      let '(entry_ops, y1) := section_entry (10 * cm) y in
      let '(ops, y2) :=
        _draw_insights_section E (insights report) x y1 page_width in
      (entry_ops ++ ops, y2)
  end.

Definition stage_findings (report : ReportModel) (x y : Z) : list op * Z :=
  match findings report with
  | [] => ([], y)
  | _ :: _ =>
      let '(entry_ops, y1) := section_entry (8 * cm) y in
      let '(ops, y2) :=
        findings_loop E x (firstn 10 (findings report)) (y1 - 20 * pt) in
      (entry_ops ++ section_title x y1 "#2C3E50" "Detailed Findings" ++ ops, y2)
  end.

Definition stage_recommendations (report : ReportModel) (x y : Z)
  : list op * Z :=
  match recommendations report with
  | [] => ([], y)
  | _ :: _ =>
      let '(entry_ops, y1) := section_entry (8 * cm) y in
      let '(ops, y2) :=
        recommendations_loop E x (firstn 8 (recommendations report))
          (y1 - 20 * pt) in
      (entry_ops ++ section_title x y1 "#27AE60" "Recommendations" ++ ops
       ++ [SetFillColor "black"],
       y2)
  end.

(** One column of the closing block, with the [lowest_y] it leaves. *)
Definition column (items : list string) (head_x first_x next_x : Z)
  (color heading mark : string) (y lowest_y : Z) : list op * Z :=
  match items with
  | [] => ([], lowest_y)
  | _ :: _ =>
      let '(ops, temp_y) :=
        column_loop E first_x next_x mark 40 (firstn 5 items) (y - 18 * pt) in
      ([SetFont "Helvetica-Bold" 12;
        SetFillColor color;
        DrawString head_x y heading;
        SetFillColor "black";
        SetFont "Helvetica" 9]
       ++ ops,
       Z.min lowest_y temp_y)
  end.

(** The closing block once it is entered: both columns start at the same
    cursor, and the lower of the two ends is kept. *)
Definition columns_block (report : ReportModel) (x y : Z) : list op * Z :=
  let '(entry_ops, y1) := section_entry (10 * cm) y in
  let col_width := (page_width - 2 * x) / 2 - 20 * pt in
  let '(left_ops, lowest1) :=
    column (limitations report) x (x + 5 * pt) (x + 12 * pt)
      "#E67E22" "Limitations" "• " y1 y1 in
  let '(right_ops, lowest2) :=
    column (next_steps report) (x + col_width + 40 * pt)
      (x + col_width + 45 * pt) (x + col_width + 52 * pt)
      "#8E44AD" "Next Steps" "→ " y1 lowest1 in
  (entry_ops ++ left_ops ++ right_ops, lowest2 - 10 * pt).

(** [if report.limitations or report.next_steps:] *)
Definition stage_columns (report : ReportModel) (x y : Z) : list op * Z :=
  match limitations report, next_steps report with
  | [], [] => ([], y)
  | _, _ => columns_block report x y
  end.

Definition footer (report : ReportModel) (x : Z) : list op :=
  [SetFont "Helvetica-Oblique" 8;
   SetFillColor "#95A5A6";
   DrawString x (15 * cm / 10) ("Data Source: " ++ dataset_used report)%string;
   DrawString (page_width - 6 * cm) (15 * cm / 10) "Page 1";
   SetStrokeColor "#BDC3C7";
   SetLineWidth half_pt;
   Line x (2 * cm) (page_width - x) (2 * cm)].

(** The calls between the header and the footer, from the cursor the header
    leaves; [None] when the table raises. *)
Definition body (report : ReportModel) (query_data : pydata)
  (chart_type : string) (x y : Z) : option (list op * Z) :=
  let '(o1, y1) := stage_summary report x y in
  let '(o2, y2) := stage_charts query_data chart_type x y1 in
  let '(o3, y3) := stage_metrics report x y2 in
  match stage_table query_data x y3 with
  | None => None
  | Some (o4, y4) =>
      let '(o5, y5) := stage_insights report x y4 in
      let '(o6, y6) := stage_findings report x y5 in
      let '(o7, y7) := stage_recommendations report x y6 in
      let '(o8, y8) := stage_columns report x y7 in
      Some (o1 ++ o2 ++ o3 ++ o4 ++ o5 ++ o6 ++ o7 ++ o8, y8)
  end.

(** [_write_visual_pdf]: every call made on the canvas, [c.save()] last;
    [None] when an exception leaves the function. *)
Definition _write_visual_pdf (today : string) (report : ReportModel)
  (query_data : pydata) (chart_type : string) : option (list op) :=
  let x := 2 * cm in
  let '(header_ops, y) :=
    _draw_header today (title report) page_width page_height in
  match body report query_data chart_type x y with
  | None => None
  | Some (ops, _) => Some (header_ops ++ ops ++ footer report x ++ [Save])
  end.

(** ** The summary [build_pdf] returns *)

Record info : Type := {
  metrics_count : nat;
  has_charts : bool;
  total_insights : nat;
  total_findings : nat;
  data_rows : option nat
}.

(** [len(query_data)]; [None] is [TypeError]. *)
Definition py_len (data : pydata) : option nat :=
  match data with
  | QNone => None
  | QList rows => Some (List.length rows)
  | QSized n => Some n
  | QScalar _ => None
  end.

(** [build_pdf] from the parsed report and the extracted rows on: [Some] of
    the summary when the PDF was written and the summary was built, [None]
    when the call ends in the rendering-error [Data] or in an exception. *)
Definition build_pdf (today : string) (report : ReportModel)
  (query_data : pydata) (chart_type : string) : option info :=
  match _write_visual_pdf today report query_data chart_type with
  | None => None
  | Some _ =>
      (* query_data is not None and len(query_data) > 0 *)
      let charts :=
        match query_data with
        | QNone => Some false
        | _ => option_map (fun n => (0 <? n)%nat) (py_len query_data)
        end in
      match charts with
      | None => None
      | Some flag =>
          Some {| metrics_count := List.length (key_metrics report);
                  has_charts := flag;
                  total_insights := List.length (insights report);
                  total_findings := List.length (findings report);
                  data_rows := if py_not query_data then None
                               else py_len query_data |}
      end
  end.

End Composer.

(** ** The output file name of [build_pdf] *)

(** [str.isspace] on an ASCII character: tab to carriage return, the four
    separators [\x1c] to [\x1f], and the blank. *)
Definition is_space (c : ascii) : bool :=
  let n := nat_of_ascii c in
  ((9 <=? n)%nat && (n <=? 13)%nat) || ((28 <=? n)%nat && (n <=? 32)%nat).

(** [s.lstrip()] on the characters of [s]. *)
Fixpoint drop_spaces (l : list ascii) : list ascii :=
  match l with
  | [] => []
  | c :: l' => if is_space c then drop_spaces l' else l
  end.

(** [s.strip()] *)
Definition strip_chars (l : list ascii) : list ascii :=
  rev (drop_spaces (rev (drop_spaces l))).

Definition py_strip (s : string) : string :=
  string_of_list_ascii (strip_chars (list_ascii_of_string s)).

(** [s.lower()] on ASCII text. *)
Definition lower_char (c : ascii) : ascii :=
  let n := nat_of_ascii c in
  if (65 <=? n)%nat && (n <=? 90)%nat then ascii_of_nat (n + 32) else c.

Definition py_lower (s : string) : string :=
  string_of_list_ascii (map lower_char (list_ascii_of_string s)).

Fixpoint starts_with (prefix l : list ascii) : bool :=
  match prefix, l with
  | [], _ => true
  | p :: prefix', c :: l' => Ascii.eqb p c && starts_with prefix' l'
  | _ :: _, [] => false
  end.

(** [s.endswith(suffix)] *)
Definition py_endswith (s suffix : string) : bool :=
  starts_with (rev (list_ascii_of_string suffix)) (rev (list_ascii_of_string s)).

(** [x or "report.pdf"] for a [str] or [None]. *)
Definition or_default (s : option string) : string :=
  match s with
  | Some t => if String.eqb t "" then "report.pdf" else t
  | None => "report.pdf"
  end.

(** The name [build_pdf] writes to:
    [file_name = (self.file_name or "report.pdf").strip() or "report.pdf"],
    then [".pdf"] is appended unless the lowered name ends with it. *)
Definition output_file_name (file_name : option string) : string :=
  let name := or_default (Some (py_strip (or_default file_name))) in
  if py_endswith (py_lower name) ".pdf" then name else (name ++ ".pdf")%string.

(** ** [build_info] *)

Module ReportInfo.

(** The dict [build_info] returns in its [Data]. *)
Record t : Type := {
  title : string;
  has_summary : bool;
  metrics_count : nat;
  findings_count : nat;
  insights_count : nat;
  recommendations_count : nat;
  has_query_data : bool;
  data_rows : nat
}.

End ReportInfo.

(** [query_data is not None] *)
Definition is_not_none (data : pydata) : bool :=
  match data with
  | QNone => false
  | _ => true
  end.

(** [build_info] from the parsed report and the extracted rows on; [None]
    is the error [Data] of its [except]:
    [len(query_data) if query_data else 0] raises on a true object that has
    no length. *)
Definition build_info (report : ReportModel) (query_data : pydata)
  : option ReportInfo.t :=
  match (if py_not query_data then Some 0%nat else py_len query_data) with
  | None => None
  | Some n =>
      Some {| ReportInfo.title := title report;
              ReportInfo.has_summary :=
                negb (String.eqb (executive_summary report) "");
              ReportInfo.metrics_count := List.length (key_metrics report);
              ReportInfo.findings_count := List.length (findings report);
              ReportInfo.insights_count := List.length (insights report);
              ReportInfo.recommendations_count :=
                List.length (recommendations report);
              ReportInfo.has_query_data := is_not_none query_data;
              ReportInfo.data_rows := n |}
  end.

(** ** [_get_query_data] *)

(** A value [_get_query_data] tells apart: a dict (with what its ['results']
    key holds, if it has one), a list, a str, anything else. *)
Inductive payload : Type :=
| PayDict (results : option pydata)
| PayList (rows : list pyitem)
| PayStr (s : string)
| PayOther.

(** What [self.query_results] can be: something false to Python, an object
    with a [data] attribute (a [Data]), or a bare value. *)
Inductive query_input : Type :=
| InFalse
| InData (data : payload)
| InBare (v : payload).

Section QueryData.

(** [json.loads]; [None] is [JSONDecodeError]. *)
Variable json_loads : string -> option payload.

(** [if isinstance(parsed, dict) and 'results' in parsed: ...
     elif isinstance(parsed, list): ...] and [None] otherwise. *)
Definition rows_of_parsed (parsed : payload) : pydata :=
  match parsed with
  | PayDict (Some results) => results
  | PayList rows => QList rows
  | _ => QNone
  end.

(** The JSON branch: a decoding error is caught and logged, [None] comes
    back. *)
Definition rows_of_json (s : string) : pydata :=
  match json_loads s with
  | Some parsed => rows_of_parsed parsed
  | None => QNone
  end.

(** [_get_query_data]; Python's [None] is [QNone].  A bare value is first
    tested for truth, a [Data] object is true.  A bare dict has no [data]
    attribute and is neither a list nor a str. *)
Definition _get_query_data (query_results : query_input) : pydata :=
  match query_results with
  | InFalse => QNone
  | InData data =>
      match data with
      | PayDict (Some results) => results
      | PayDict None => QNone
      | PayList rows => QList rows
      | PayStr s => rows_of_json s
      | PayOther => QNone
      end
  | InBare v =>
      match v with
      | PayList [] => QNone
      | PayList rows => QList rows
      | PayStr s => if String.eqb s "" then QNone else rows_of_json s
      | _ => QNone
      end
  end.

End QueryData.

(** ** [create_database] of [setup_database.py]: the batched inserts

    The customers and the purchases are generated row by row and inserted
    in batches:
    [for i in range(n): data.append(row); if i % 10000 == 0 and i > 0:
     cursor.executemany(sql, data); data = []], then
    [if data: cursor.executemany(sql, data)].
    The rows come from [random] and [faker]; here they are given, in the
    order the loop generates them. *)

(** The [executemany] calls of the loop from index [i] on, each with the
    rows it inserts; [data] holds the rows generated and not yet
    inserted. *)
Fixpoint insert_batches {A : Type} (i : Z) (rows : list A) (data : list A)
  : list (list A) :=
  match rows with
  | [] =>
      match data with
      | [] => []
      | _ :: _ => [data]
      end
  | row :: rest =>
      let data := data ++ [row] in
      if (i mod 10000 =? 0) && (0 <? i)
      then data :: insert_batches (i + 1) rest []
      else insert_batches (i + 1) rest data
  end.

(** [for i in range(n): ...] over the rows of one table. *)
Definition insert_all {A : Type} (rows : list A) : list (list A) :=
  insert_batches 0 rows [].

(** ** [_parse_template_format]

    Each field is looked for with [re.search] under [MULTILINE | DOTALL]
    and a pattern of one shape,
    [^<Label>:\s*(.+?)(?=\n[A-Z]|\Z)].  The matcher below follows the
    backtracking of that pattern piece by piece, on the characters of the
    text. *)

Definition newline : ascii := "010"%char.

(** [[A-Z]] *)
Definition is_capital (c : ascii) : bool :=
  let n := nat_of_ascii c in (65 <=? n)%nat && (n <=? 90)%nat.

(** The lookahead [(?=\n[A-Z]|\Z)] at the text [l] that is left. *)
Definition value_ends (l : list ascii) : bool :=
  match l with
  | [] => true
  | c :: rest =>
      Ascii.eqb c newline
      && match rest with
         | d :: _ => is_capital d
         | [] => false
         end
  end.

(** [(.+?)(?=\n[A-Z]|\Z)]: the shortest run of one character or more, of
    any kind, after which the lookahead holds; [None] when there is no
    character to take. *)
Fixpoint lazy_group (l : list ascii) : option (list ascii) :=
  match l with
  | [] => None
  | c :: rest =>
      if value_ends rest then Some [c]
      else option_map (cons c) (lazy_group rest)
  end.

(** [\s*(.+?)(?=\n[A-Z]|\Z)]: the blanks are taken greedily, and given
    back one by one while the group finds nothing to match. *)
Fixpoint blanks_then_group (l : list ascii) : option (list ascii) :=
  match l with
  | [] => lazy_group []
  | c :: rest =>
      if is_space c then
        match blanks_then_group rest with
        | Some group => Some group
        | None => lazy_group l
        end
      else lazy_group l
  end.

(** [re.search(pattern, text)] from the text [l] on: the match is tried at
    every position from left to right; [line_start] says whether [^]
    matches at this one.  The result is [match.group(1)]. *)
Fixpoint search_from (label : list ascii) (line_start : bool)
  (l : list ascii) : option (list ascii) :=
  let here :=
    if line_start && starts_with label l
    then blanks_then_group (skipn (List.length label) l)
    else None in
  match here with
  | Some group => Some group
  | None =>
      match l with
      | [] => None
      | c :: rest => search_from label (Ascii.eqb c newline) rest
      end
  end.

(** The fields and the text each pattern starts with, in the order of the
    [patterns] dict. *)
Definition patterns : list (string * string) :=
  [("title", "Title:");
   ("executive_summary", "Executive Summary:");
   ("timeframe", "Timeframe:");
   ("dataset_used", "Dataset used:");
   ("key_metrics", "Key Metrics:");
   ("insights", "Insights:");
   ("findings", "Findings:");
   ("recommendations", "Recommendations:");
   ("limitations", "Limitations:");
   ("next_steps", "Next Steps:")].

Section TemplateFormat.

(** The values [ast.literal_eval] gives, the function itself ([None] is any
    exception it raises) and the empty list. *)
Variable literal : Type.
Variable literal_eval : string -> option literal.
Variable empty_list : literal.

(** What a key of the result holds: the text, or what the text evaluates
    to. *)
Inductive field_value : Type :=
| FText (s : string)
| FLiteral (v : literal).

(** The body of [for field, pattern in patterns.items()] for one pattern;
    [None] when the pattern matches nowhere. *)
Definition parse_field (text label : string) : option field_value :=
  match search_from (list_ascii_of_string label) true
          (list_ascii_of_string text) with
  | None => None
  | Some group =>
      let value := strip_chars group in
      Some (if starts_with ["["%char] value
            then match literal_eval (string_of_list_ascii value) with
                 | Some v => FLiteral v
                 | None => FLiteral empty_list
                 end
            else FText (string_of_list_ascii value))
  end.

(** [_parse_template_format]: the result dict, its keys in the order they
    are set. *)
Definition _parse_template_format (text : string)
  : list (string * field_value) :=
  flat_map
    (fun p => match parse_field text (snd p) with
              | Some v => [(fst p, v)]
              | None => []
              end)
    patterns.

End TemplateFormat.

(** * Properties *)

(** ** An environment for the worked examples *)

Definition is_upper (c : ascii) : bool :=
  (65 <=? nat_of_ascii c)%nat && (nat_of_ascii c <=? 90)%nat.

Definition is_lower (c : ascii) : bool :=
  (97 <=? nat_of_ascii c)%nat && (nat_of_ascii c <=? 122)%nat.

Definition to_upper (c : ascii) : ascii :=
  if is_lower c then ascii_of_nat (nat_of_ascii c - 32) else c.

Definition to_lower (c : ascii) : ascii :=
  if is_upper c then ascii_of_nat (nat_of_ascii c + 32) else c.

(** [s.title()] on ASCII: a letter after a letter is lowered, any other
    letter is raised. *)
Fixpoint ascii_title (after_letter : bool) (s : string) : string :=
  match s with
  | EmptyString => EmptyString
  | String c s' =>
      String (if after_letter then to_lower c else to_upper c)
        (ascii_title (is_upper c || is_lower c) s')
  end.

(** [str(f)] for a float with one decimal digit. *)
Definition one_decimal (q : Q) : string :=
  let n := round_half_even (Z.to_N (Z.abs (Qnum q)) * 10) (Npos (Qden q)) in
  (sign_text (Qnum q <? 0)%Z
   ++ string_of_list_ascii (digits_of_N (N.div n 10))
   ++ "." ++ string_of_list_ascii (digits_of_N (N.modulo n 10)))%string.

(** The items of [str(d)] for a dict of strings without quotes. *)
Fixpoint plain_dict_items (d : list (string * string)) : string :=
  match d with
  | [] => ""
  | [(k, v)] => ("'" ++ k ++ "': '" ++ v ++ "'")%string
  | (k, v) :: d' =>
      ("'" ++ k ++ "': '" ++ v ++ "', " ++ plain_dict_items d')%string
  end.

(** The environment of the worked examples.  It agrees with Python on the
    inputs the examples use: [title] on ASCII text, [wrap] on a text of one
    short line, [str] of a float with one decimal, [str] of a dict of plain
    strings.  No string parses as a number, and a table is taken to wrap to
    20 pt a row. *)
Definition sample_env : PyEnv :=
  {| float_of_str := fun _ => None;
     str_of_float := one_decimal;
     str_title := ascii_title false;
     textwrap_wrap := fun s _ => if String.eqb s "" then [] else [s];
     str_of_dict := fun d => ("{" ++ plain_dict_items d ++ "}")%string;
     table_wrap_height :=
       fun rows _ => 20 * pt * Z.of_nat (List.length rows) |}.

(** ** Decimal text *)




(** ** Reading a canvas log *)

Definition is_chart (o : op) : bool :=
  match o with
  | DrawChart _ _ _ => true
  | _ => false
  end.

(** A log in which no chart is drawn. *)
Definition chartless (ops : list op) : bool :=
  forallb (fun o => negb (is_chart o)) ops.

(** The rows of a row list that are dicts, in order. *)
Fixpoint dict_rows (items : list pyitem) : list pydict :=
  match items with
  | [] => []
  | IDict d :: rest => d :: dict_rows rest
  | INotDict :: rest => dict_rows rest
  end.







(** ** The layout of the metric cards *)

(** The placements [card_place] gives to the [n] cards from index [i] on,
    each with the page-break flag, the [start_y] in force after it and the
    top of the card. *)
Fixpoint card_places (i n : nat) (start_y : Z) : list (bool * Z * Z) :=
  match n with
  | O => []
  | S n' =>
      let '(break, start_y', card_y) := card_place i start_y in
      (break, start_y', card_y) :: card_places (S i) n' start_y'
  end.

Definition place_break (p : bool * Z * Z) : bool := fst (fst p).
Definition place_top (p : bool * Z * Z) : Z := snd p.

(** The calls made for card [i] once it is placed. *)
Definition card_ops (E : PyEnv) (x : Z) (i : nat) (metric : pyitem)
  (p : bool * Z * Z) : list op :=
  let card_x := x + card_col i * (card_width + spacing) in
  (if place_break p then [ShowPage] else [])
  ++ card_background card_x (place_top p)
  ++ card_content E metric card_x (place_top p)
  ++ [SetFillColor "black"].

(** The calls of the cards from index [i] on, one block a card. *)
Fixpoint cards_ops (E : PyEnv) (x : Z) (i : nat) (metrics : list pyitem)
  (places : list (bool * Z * Z)) : list op :=
  match metrics, places with
  | metric :: metrics', p :: places' =>
      card_ops E x i metric p ++ cards_ops E x (S i) metrics' places'
  | _, _ => []
  end.

(** The [start_y] a card loop ends with. *)
Definition final_anchor (places : list (bool * Z * Z)) (start_y : Z) : Z :=
  if existsb place_break places then page_top else start_y.

(** A card that does not overflow under [sy]. *)
Definition settled (i : nat) (sy : Z) : Prop :=
  3 * cm <= sy - card_row i * (card_height + spacing) - card_height.

(** The distance between the tops of two rows of cards. *)
Definition row_pitch : Z := card_height + spacing.

(** Card [j] placed without a page break under [start_y]. *)
Definition plain_place (start_y : Z) (j : nat) : bool * Z * Z :=
  (false, start_y, start_y - card_row j * row_pitch).

(** Card [j] placed after a page break. *)
Definition break_place (j : nat) : bool * Z * Z :=
  (true, page_top, page_top - card_row j * row_pitch).

(** The [start_y] left by a sequence of placements. *)
Definition anchor_after (places : list (bool * Z * Z)) (start_y : Z) : Z :=
  fold_left (fun _ p => snd (fst p)) places start_y.

(** ** Lists that run over a page *)

(** [paged threshold banner item items y ops y'] reads a log [ops] as the
    items of a list drawn one after the other from cursor [y] to cursor
    [y']: every item exactly once and in order, each at the cursor the item
    before it left, except that an item found below [threshold] is preceded
    by [banner] and drawn 20 pt under the top of the new page. *)
Inductive paged {A : Type} (threshold : Z) (banner : list op)
  (item : A -> Z -> list op * Z) : list A -> Z -> list op -> Z -> Prop :=
| paged_done (y : Z) :
    paged threshold banner item [] y [] y
| paged_fits (a : A) (rest : list A) (y : Z) (ops : list op) (y' : Z) :
    threshold <= y ->
    paged threshold banner item rest (snd (item a y)) ops y' ->
    paged threshold banner item (a :: rest) y (fst (item a y) ++ ops) y'
| paged_breaks (a : A) (rest : list A) (y : Z) (ops : list op) (y' : Z) :
    y < threshold ->
    paged threshold banner item rest
      (snd (item a (page_top - 20 * pt))) ops y' ->
    paged threshold banner item (a :: rest) y
      (banner ++ fst (item a (page_top - 20 * pt)) ++ ops) y'.

(** Every [showPage] of the log is followed at once by the calls [after]. *)
Fixpoint titled_breaks (after : list op) (ops : list op) : Prop :=
  match ops with
  | [] => True
  | o :: rest =>
      (is_show_page o = true -> firstn (List.length after) rest = after)
      /\ titled_breaks after rest
  end.

Definition is_text (o : op) : bool :=
  match o with
  | DrawString _ _ _ => true
  | _ => false
  end.

Definition is_circle (o : op) : bool :=
  match o with
  | Circle _ _ _ _ _ => true
  | _ => false
  end.

Definition is_line (o : op) : bool :=
  match o with
  | Line _ _ _ _ => true
  | _ => false
  end.

(** An insight with its number. *)
Definition numbered_insight (E : PyEnv) (x : Z) (p : nat * insight) (y : Z)
  : list op * Z :=
  insight_item E x (fst p) (snd p) y.

(** The title drawn again at the top of a new page. *)
Definition title_again (x : Z) (color text : string) : list op :=
  [SetFont "Helvetica-Bold" 14;
   SetFillColor color;
   DrawString x page_top text;
   SetFillColor "black"].

(** ** The whole render *)

(** The one call that carries the date of the run. *)
Definition timestamp_op (today : string) : op :=
  DrawString (2 * cm) (page_height - 23 * cm / 10)
    ("Generated: " ++ today)%string.

(** The query data is there and is not empty:
    [query_data is not None and len(query_data) > 0]. *)
Definition present_nonempty (data : pydata) : bool :=
  match py_len data with
  | Some n => (0 <? n)%nat
  | None => false
  end.

(** Row 0 offers no numeric field to chart. *)
Definition no_numeric_field (data : pydata) : bool :=
  match data with
  | QList (IDict d0 :: _) =>
      match find_numeric_field d0 with
      | Some _ => false
      | None => true
      end
  | _ => true
  end.

(** A report with a title and a data-source label and nothing else. *)
Definition bare_report (t source : string) : ReportModel :=
  {| title := t;
     executive_summary := "";
     timeframe := "";
     dataset_used := source;
     key_metrics := [];
     insights := [];
     findings := [];
     recommendations := [];
     limitations := [];
     next_steps := [] |}.

(** ** More vocabulary *)

Definition is_dict (item : pyitem) : bool :=
  match item with
  | IDict _ => true
  | INotDict => false
  end.

(** The input on which [_draw_styled_table] raises: row 0 is a dict, and a
    row among the first [max_rows] is not one ([item.get] fails) or row 0
    has no key (the column width divides by zero). *)
Definition table_raises (data : pydata) (max_rows : nat) : bool :=
  match data with
  | QList ((IDict d0 :: _) as rows) =>
      negb (forallb is_dict (firstn max_rows rows))
      || Nat.eqb (List.length (keys d0)) 0
  | _ => false
  end.

Definition is_table (o : op) : bool :=
  match o with
  | DrawTable _ _ _ _ _ => true
  | _ => false
  end.

Definition is_save (o : op) : bool :=
  match o with
  | Save => true
  | _ => false
  end.

(** A call that sets a colour, a font or a width, draws a shape or a text,
    or turns the page: anything but a chart, a table or [save]. *)
Definition is_basic (o : op) : bool :=
  match o with
  | DrawChart _ _ _ | DrawTable _ _ _ _ _ | Save => false
  | _ => true
  end.

Definition basic (ops : list op) : bool := forallb is_basic ops.

(** The rows of a list that [query_data] holds, none when it is no list. *)
Definition rows_of (data : pydata) : list pyitem :=
  match data with
  | QList rows => rows
  | _ => []
  end.

(** The space a column item takes: 12 pt a line and a 3 pt gap, nothing
    when the text wraps to no line. *)
Definition column_item_height (E : PyEnv) (width : Z) (item : string) : Z :=
  match textwrap_wrap E item width with
  | [] => 0
  | lines => 12 * pt * Z.of_nat (List.length lines) + 3 * pt
  end.

Definition sum_Z (l : list Z) : Z := fold_right Z.add 0 l.

(** Twenty rows of one shape, for the worked examples. *)
Definition sales_row : pydict :=
  [("region", PStr "north"); ("total_sales", PFloat (12345 # 10))].

Definition twenty_rows : list pyitem := repeat (IDict sales_row) 20.

(** The data is a list whose row 0 is a dict: the input on which
    [_draw_styled_table] builds a table. *)
Definition first_row_dict (data : pydata) : bool :=
  match data with
  | QList (IDict _ :: _) => true
  | _ => false
  end.

(** A report with something in every section but the last, for the worked
    examples. *)
Definition quarterly_report : ReportModel :=
  {| title := "Quarterly Sales";
     executive_summary := "Sales rose in every region.";
     timeframe := "Q3";
     dataset_used := "orders";
     key_metrics := [[("total_sales", PInt 1200); ("orders", PInt 48)]];
     insights := [InsText "North leads."];
     findings := ["North grew fastest."; "South is flat."];
     recommendations := ["Hire in the north."];
     limitations := ["One quarter only."];
     next_steps := [] |}.

(** How far a column of the closing block reaches under the cursor it
    starts from: the heading's 18 pt and its first five items; nothing for
    an empty list, which draws no column. *)
Definition column_drop (E : PyEnv) (items : list string) : Z :=
  match items with
  | [] => 0
  | _ :: _ =>
      18 * pt + sum_Z (map (column_item_height E 40) (firstn 5 items))
  end.

(** The placements that turn the page. *)
Definition breaks_of (places : list (bool * Z * Z)) : nat :=
  List.length (filter place_break places).

(** A text that starts with no blank. *)
Definition clean (l : list ascii) : Prop :=
  match l with
  | [] => True
  | c :: _ => is_space c = false
  end.

(** A decoded JSON value that holds the rows: the list itself, or a dict
    with the list under ['results']. *)
Definition holds (rows : list pyitem) (parsed : payload) : Prop :=
  parsed = PayList rows \/ parsed = PayDict (Some (QList rows)).

(** The ways [query_results] can hand over the row list [rows]: as the
    list, bare or in a [Data]; in a [Data] as a dict with the list under
    ['results']; as JSON text that decodes to one of the two, bare (then
    not empty) or in a [Data]. *)
Inductive delivers (json_loads : string -> option payload)
  (rows : list pyitem) : query_input -> Prop :=
| by_list_bare : delivers json_loads rows (InBare (PayList rows))
| by_list : delivers json_loads rows (InData (PayList rows))
| by_results : delivers json_loads rows (InData (PayDict (Some (QList rows))))
| by_text_bare (s : string) (parsed : payload) :
    s <> "" -> json_loads s = Some parsed -> holds rows parsed ->
    delivers json_loads rows (InBare (PayStr s))
| by_text (s : string) (parsed : payload) :
    json_loads s = Some parsed -> holds rows parsed ->
    delivers json_loads rows (InData (PayStr s)).

(** The number of rows waiting in [data] when the insert loop reaches
    index [i]. *)
Definition waiting (i : Z) : Z :=
  if i <=? 10000 then i else (i - 1) mod 10000.

(** Batches that are not empty, the first of at most [first] rows and the
    others of at most 10000. *)
Definition batch_sizes_ok {A : Type} (first : Z) (batches : list (list A))
  : Prop :=
  match batches with
  | [] => True
  | b :: bs =>
      1 <= Z.of_nat (List.length b) <= first
      /\ Forall (fun c => 1 <= Z.of_nat (List.length c) <= 10000) bs
  end.

(** ** The template text *)

(** A newline directly followed by a capital letter, somewhere in the
    text. *)
Fixpoint capital_line_inside (l : list ascii) : bool :=
  match l with
  | [] => false
  | c :: rest =>
      (Ascii.eqb c newline
       && match rest with
          | d :: _ => is_capital d
          | [] => false
          end)
      || capital_line_inside rest
  end.

Definition no_newline (l : list ascii) : bool :=
  forallb (fun c => negb (Ascii.eqb c newline)) l.

(** A value written on one line: not empty, with no blank at either end,
    and not starting with a bracket. *)
Definition plain_value (v : string) : Prop :=
  let l := list_ascii_of_string v in
  l <> []
  /\ no_newline l = true
  /\ clean l
  /\ clean (rev l)
  /\ starts_with ["["%char] l = false.

(** One line of a template: the label with its colon, a blank, the value. *)
Definition template_line (f : string * string) : string :=
  (fst f ++ " " ++ snd f ++ String newline "")%string.

(** A template: one line for each pair of a label and a value. *)
Fixpoint template (fields : list (string * string)) : string :=
  match fields with
  | [] => ""
  | f :: rest => (template_line f ++ template rest)%string
  end.

(** The labels of the patterns. *)
Definition labels : list string := map snd patterns.

(** What the parser is to find in a template: for each pattern, in the
    order of the patterns, the value of the first line with its label. *)
Definition fields_found {literal : Type} (fields : list (string * string))
  : list (string * field_value literal) :=
  flat_map
    (fun p => match str_dict_get fields (snd p) with
              | Some v => [(fst p, FText literal v)]
              | None => []
              end)
    patterns.










Lemma chars_app (s t : string) :
  list_ascii_of_string (s ++ t)
  = list_ascii_of_string s ++ list_ascii_of_string t.
Proof.
  induction s as [|c s IH]; cbn; [reflexivity | now rewrite IH].
Qed.








Lemma chars_of_list (l : list ascii) :
  list_ascii_of_string (string_of_list_ascii l) = l.
Proof. apply list_ascii_of_string_of_list_ascii. Qed.






(** ** Chart renderers *)

Lemma bar_series_values (E : PyEnv) (kf vf : string) (items : list pyitem) :
  snd (bar_series E kf vf items)
  = map (fun d => coerce_value E (get_or d vf (PInt 0))) (dict_rows items).
Proof.
  induction items as [|[d|] rest IH]; cbn [bar_series dict_rows map];
    [reflexivity | | exact IH].
  destruct (bar_series E kf vf rest) as [labels values]; cbn in *.
  now rewrite IH.
Qed.

Lemma pie_series_values (E : PyEnv) (kf vf : string) (items : list pyitem) :
  snd (pie_series E kf vf items)
  = map (fun d => coerce_value E (get_or d vf (PInt 0))) (dict_rows items).
Proof.
  induction items as [|[d|] rest IH]; cbn [pie_series dict_rows map];
    [reflexivity | | exact IH].
  destruct (pie_series E kf vf rest) as [labels values]; cbn in *.
  now rewrite IH.
Qed.

Lemma coerce_value_failure (E : PyEnv) (v : pyval) :
  py_float E v = None -> coerce_value E v = 0%Q.
Proof. unfold coerce_value. now intros ->. Qed.

(** What the bar renderer draws, it draws from the loop's values. *)
Lemma bar_chart_from_series (E : PyEnv) (data : pydata) (x y w h : Z)
  (t : string) (kf vf : option string) (o : op) :
  In o (fst (_create_bar_chart E data x y w h t kf vf)) ->
  exists rows k v labels vmax angle,
    data = QList rows
    /\ o = DrawChart
             (BarChart w h t labels
                (snd (bar_series E k v (firstn 10 rows))) vmax angle)
             x (y - h).
Proof.
  unfold _create_bar_chart.
  destruct data as [|[|first rows]| |]; try (now intros []).
  destruct (negb _ || negb _); [now intros []|].
  set (k := name_of (detect_key_field kf first)).
  set (v := name_of (detect_value_field vf first)).
  destruct (bar_series E k v (firstn 10 (first :: rows)))
    as [labels values] eqn:Hs.
  destruct values as [|v0 values]; [now intros []|].
  intros [<- | []].
  exists (first :: rows), k, v. rewrite Hs. cbn [snd].
  now eexists _, _, _.
Qed.

(** What the pie renderer draws, it draws from the loop's values. *)
Lemma pie_chart_from_series (E : PyEnv) (data : pydata) (x y w h : Z)
  (t : string) (kf vf : option string) (o : op) :
  In o (fst (_create_pie_chart E data x y w h t kf vf)) ->
  exists rows k v labels fills,
    data = QList rows
    /\ o = DrawChart
             (PieChart w h t (snd (pie_series E k v (firstn 8 rows)))
                labels fills)
             x (y - h).
Proof.
  unfold _create_pie_chart.
  destruct data as [|[|first rows]| |]; try (now intros []).
  destruct (negb _ || negb _); [now intros []|].
  set (k := name_of (detect_key_field kf first)).
  set (v := name_of (detect_value_field vf first)).
  destruct (pie_series E k v (firstn 8 (first :: rows)))
    as [labels values] eqn:Hs.
  destruct values as [|v0 values]; [now intros []|].
  destruct (Qeq_bool _ _); [now intros []|].
  intros [<- | []].
  exists (first :: rows), k, v. rewrite Hs. cbn [snd].
  now eexists _, _.
Qed.

(** C3.  A row whose value-field entry does not convert is charted as 0 by
    both renderers, and the conversion never fails.  Each loop yields one
    value for every dict row it visits (the first 10 rows for the bar chart,
    the first 8 for the pie chart), the value at the place of a row whose
    entry [float] rejects is 0, and the chart a renderer draws holds the
    values of its loop. *)
Theorem chart_value_coercion (E : PyEnv) (kf vf : string)
  (rows : list pyitem) (i : nat) (d : pydict)
  (Hfail : py_float E (get_or d vf (PInt 0)) = None) :
  (nth_error (dict_rows (firstn 10 rows)) i = Some d ->
   nth_error (snd (bar_series E kf vf (firstn 10 rows))) i = Some 0%Q)
  /\ (nth_error (dict_rows (firstn 8 rows)) i = Some d ->
      nth_error (snd (pie_series E kf vf (firstn 8 rows))) i = Some 0%Q)
  /\ List.length (snd (bar_series E kf vf (firstn 10 rows)))
     = List.length (dict_rows (firstn 10 rows))
  /\ List.length (snd (pie_series E kf vf (firstn 8 rows)))
     = List.length (dict_rows (firstn 8 rows))
  /\ (forall data x y w h t key_field value_field o,
         In o (fst (_create_bar_chart E data x y w h t key_field value_field)) ->
         exists rows' k v labels vmax angle,
           data = QList rows'
           /\ o = DrawChart
                    (BarChart w h t labels
                       (snd (bar_series E k v (firstn 10 rows'))) vmax angle)
                    x (y - h))
  /\ (forall data x y w h t key_field value_field o,
         In o (fst (_create_pie_chart E data x y w h t key_field value_field)) ->
         exists rows' k v labels fills,
           data = QList rows'
           /\ o = DrawChart
                    (PieChart w h t (snd (pie_series E k v (firstn 8 rows')))
                       labels fills)
                    x (y - h)).
Proof.
  rewrite bar_series_values, pie_series_values, !length_map.
  split; [| split; [| split; [| split; [| split]]]]; try reflexivity.
  - intros Hrow. rewrite nth_error_map, Hrow; cbn.
    now rewrite coerce_value_failure.
  - intros Hrow. rewrite nth_error_map, Hrow; cbn.
    now rewrite coerce_value_failure.
  - intros data x y w h t key_field value_field o.
    apply bar_chart_from_series.
  - intros data x y w h t key_field value_field o.
    apply pie_chart_from_series.
Qed.

(** A row [{"name": "east", "sales": "n/a"}] between two numeric rows. *)
Lemma chart_value_coercion_witness :
  let rows := [IDict [("name", PStr "north"); ("sales", PInt 12)];
               IDict [("name", PStr "east"); ("sales", PStr "n/a")];
               IDict [("name", PStr "west"); ("sales", PFloat (7 # 2))]] in
  snd (bar_series sample_env "name" "sales" (firstn 10 rows))
  = [inject_Z 12; 0%Q; (7 # 2)%Q]
  /\ nth_error (snd (pie_series sample_env "name" "sales" (firstn 8 rows))) 1
     = Some 0%Q.
Proof.
  split; [reflexivity|].
  exact (proj1 (proj2
           (chart_value_coercion sample_env "name" "sales"
              [IDict [("name", PStr "north"); ("sales", PInt 12)];
               IDict [("name", PStr "east"); ("sales", PStr "n/a")];
               IDict [("name", PStr "west"); ("sales", PFloat (7 # 2))]]
              1 [("name", PStr "east"); ("sales", PStr "n/a")] eq_refl))
           eq_refl).
Defined.







(** ** Only the chart stage draws charts *)

Lemma chartless_app (a b : list op) :
  chartless (a ++ b) = chartless a && chartless b.
Proof. apply forallb_app. Qed.

Lemma chartless_count (p : op -> bool) (ops : list op) :
  (forall o, p o = true -> is_chart o = true) ->
  chartless ops = true -> count p ops = 0%nat.
Proof.
  intros Hp. unfold chartless, count.
  induction ops as [|o ops IH]; cbn; [reflexivity|].
  intros H. apply andb_prop in H as [Ho Hops].
  destruct (p o) eqn:Hpo; [| now apply IH].
  apply Hp in Hpo. now rewrite Hpo in Ho.
Qed.



Lemma count_app (p : op -> bool) (a b : list op) :
  count p (a ++ b) = (count p a + count p b)%nat.
Proof. unfold count. now rewrite filter_app, length_app. Qed.

(** Splits a goal [chartless (a ++ b ++ ...) = true] into its parts and
    closes the parts that are literal lists. *)
Ltac chartless_parts :=
  repeat (rewrite chartless_app; apply andb_true_intro; split);
  try reflexivity.

Lemma draw_wrapped_chartless (tx dy : Z) (lines : list string) (y : Z) :
  chartless (fst (draw_wrapped tx dy lines y)) = true.
Proof.
  revert y; induction lines as [|line rest IH]; intros y; [reflexivity|].
  cbn [draw_wrapped]. specialize (IH (y - 14 * pt)).
  destruct (draw_wrapped tx dy rest (y - 14 * pt)). exact IH.
Qed.

Lemma header_chartless (today t : string) (w h : Z) :
  chartless (fst (_draw_header today t w h)) = true.
Proof. reflexivity. Qed.

Lemma section_entry_chartless (threshold y : Z) :
  chartless (fst (section_entry threshold y)) = true.
Proof. unfold section_entry. now destruct (y <? threshold). Qed.

Section Chartless.

Variable E : PyEnv.

Lemma summary_chartless (r : ReportModel) (x y : Z) :
  chartless (fst (stage_summary E r x y)) = true.
Proof.
  unfold stage_summary.
  destruct (String.eqb (executive_summary r) ""); [reflexivity|].
  pose proof (draw_wrapped_chartless x 0
                (firstn 3 (textwrap_wrap E (executive_summary r) 80))
                (y - 20 * pt)) as H.
  destruct (draw_wrapped _ _ _ _) as [lines y']. cbn [fst] in *.
  change (chartless (lines ++ [SetFillColor "black"]) = true).
  now chartless_parts.
Qed.

Lemma card_content_chartless (m : pyitem) (cx cy : Z) :
  chartless (card_content E m cx cy) = true.
Proof.
  destruct m as [[|[k v] [|[k2 v2] d]]|]; reflexivity.
Qed.

Lemma cards_loop_chartless (x : Z) (ms : list pyitem) :
  forall i sy, chartless (fst (cards_loop E x i ms sy)) = true.
Proof.
  induction ms as [|m rest IH]; intros i sy; [reflexivity|].
  cbn [cards_loop]. destruct (card_place i sy) as [[brk sy'] cy].
  specialize (IH (S i) sy'). destruct (cards_loop E x (S i) rest sy').
  cbn [fst] in *. chartless_parts.
  - now destruct brk.
  - apply card_content_chartless.
  - exact IH.
Qed.

Lemma metric_cards_chartless (ms : list pyitem) (x y w : Z) :
  chartless (fst (_draw_metric_cards E ms x y w)) = true.
Proof.
  unfold _draw_metric_cards. destruct ms as [|m rest]; [reflexivity|].
  pose proof (cards_loop_chartless x (firstn 10 (m :: rest)) 0 (y - 25 * pt)) as H.
  destruct (cards_loop _ _ _ _ _). exact H.
Qed.

Lemma metrics_chartless (r : ReportModel) (x y : Z) :
  chartless (fst (stage_metrics E r x y)) = true.
Proof.
  unfold stage_metrics. destruct (key_metrics r) as [|m ms]; [reflexivity|].
  pose proof (section_entry_chartless (10 * cm) y) as He.
  destruct (section_entry (10 * cm) y) as [eo y1].
  pose proof (metric_cards_chartless (map IDict (m :: ms)) x y1 page_width) as Hc.
  destruct (_draw_metric_cards _ _ _ _ _). cbn [fst] in *.
  now chartless_parts.
Qed.

Lemma styled_table_chartless (data : pydata) (x y w : Z) (t : string)
  (n : nat) (ops : list op) (y' : Z) :
  _draw_styled_table E data x y w t n = Some (ops, y') ->
  chartless ops = true.
Proof.
  unfold _draw_styled_table.
  destruct data as [|[|first rows]| |]; try (now intros [= <- <-]).
  destruct first as [d0|].
  - destruct (table_rows _ _); [| discriminate].
    destruct (Nat.eqb _ 0); [discriminate|].
    intros [= <- <-]. chartless_parts.
    + now destruct (String.eqb t "").
    + now destruct (_ <? _).
    + now destruct (_ <? _)%nat.
  - intros [= <- <-]. now destruct (String.eqb t "").
Qed.

Lemma table_chartless (qd : pydata) (x y : Z) (ops : list op) (y' : Z) :
  stage_table E qd x y = Some (ops, y') -> chartless ops = true.
Proof.
  unfold stage_table.
  destruct qd as [|[|first rows]| |]; try (now intros [= <- <-]).
  pose proof (section_entry_chartless (10 * cm) y) as He.
  destruct (section_entry (10 * cm) y) as [eo y1].
  destruct (_draw_styled_table _ _ _ _ _ _ _) as [[tops ty]|] eqn:Ht;
    [| discriminate].
  intros [= <- <-]. apply styled_table_chartless in Ht.
  cbn [fst] in *. now chartless_parts.
Qed.

Lemma insight_item_chartless (x : Z) (i : nat) (item : insight) (y : Z) :
  chartless (fst (insight_item E x i item y)) = true.
Proof.
  unfold insight_item.
  pose proof (draw_wrapped_chartless (x + 25 * pt) (8 * pt)
                (textwrap_wrap E (insight_text E item) 90) y) as H.
  destruct (draw_wrapped _ _ _ _). exact H.
Qed.

Lemma insights_loop_chartless (x : Z) (items : list insight) :
  forall i y, chartless (fst (insights_loop E x i items y)) = true.
Proof.
  induction items as [|item rest IH]; intros i y; [reflexivity|].
  cbn [insights_loop].
  set (y1 := if y <? 5 * cm then page_top - 20 * pt else y).
  pose proof (insight_item_chartless x i item y1) as Hi.
  destruct (insight_item E x i item y1) as [io y2].
  specialize (IH (S i) y2). destruct (insights_loop E x (S i) rest y2).
  cbn [fst] in *. chartless_parts; try assumption.
  now destruct (y <? 5 * cm).
Qed.

Lemma insights_chartless (r : ReportModel) (x y : Z) :
  chartless (fst (stage_insights E r x y)) = true.
Proof.
  unfold stage_insights, _draw_insights_section.
  destruct (insights r) as [|item rest]; [reflexivity|].
  pose proof (section_entry_chartless (10 * cm) y) as He.
  destruct (section_entry (10 * cm) y) as [eo y1].
  pose proof (insights_loop_chartless x (firstn 8 (item :: rest)) 1
                (y1 - 20 * pt)) as Hl.
  destruct (insights_loop _ _ _ _ _). cbn [fst] in *.
  now chartless_parts.
Qed.

Lemma finding_item_chartless (x : Z) (f : string) (y : Z) :
  chartless (fst (finding_item E x f y)) = true.
Proof.
  unfold finding_item.
  pose proof (draw_wrapped_chartless (x + 15 * pt) (5 * pt)
                (textwrap_wrap E f 85) y) as H.
  destruct (draw_wrapped _ _ _ _). exact H.
Qed.

Lemma findings_loop_chartless (x : Z) (items : list string) :
  forall y, chartless (fst (findings_loop E x items y)) = true.
Proof.
  induction items as [|item rest IH]; intros y; [reflexivity|].
  cbn [findings_loop].
  set (y1 := if y <? 4 * cm then page_top - 20 * pt else y).
  pose proof (finding_item_chartless x item y1) as Hi.
  destruct (finding_item E x item y1) as [io y2].
  specialize (IH y2). destruct (findings_loop E x rest y2).
  cbn [fst] in *. chartless_parts; try assumption.
  now destruct (y <? 4 * cm).
Qed.

Lemma findings_chartless (r : ReportModel) (x y : Z) :
  chartless (fst (stage_findings E r x y)) = true.
Proof.
  unfold stage_findings.
  destruct (findings r) as [|item rest]; [reflexivity|].
  pose proof (section_entry_chartless (8 * cm) y) as He.
  destruct (section_entry (8 * cm) y) as [eo y1].
  pose proof (findings_loop_chartless x (firstn 10 (item :: rest))
                (y1 - 20 * pt)) as Hl.
  destruct (findings_loop _ _ _ _). cbn [fst] in *.
  now chartless_parts.
Qed.

Lemma recommendation_item_chartless (x : Z) (f : string) (y : Z) :
  chartless (fst (recommendation_item E x f y)) = true.
Proof.
  unfold recommendation_item.
  pose proof (draw_wrapped_chartless (x + 20 * pt) (5 * pt)
                (textwrap_wrap E f 85) y) as H.
  destruct (draw_wrapped _ _ _ _). exact H.
Qed.

Lemma recommendations_loop_chartless (x : Z) (items : list string) :
  forall y, chartless (fst (recommendations_loop E x items y)) = true.
Proof.
  induction items as [|item rest IH]; intros y; [reflexivity|].
  cbn [recommendations_loop].
  set (y1 := if y <? 4 * cm then page_top - 20 * pt else y).
  pose proof (recommendation_item_chartless x item y1) as Hi.
  destruct (recommendation_item E x item y1) as [io y2].
  specialize (IH y2). destruct (recommendations_loop E x rest y2).
  cbn [fst] in *. chartless_parts; try assumption.
  now destruct (y <? 4 * cm).
Qed.

Lemma recommendations_chartless (r : ReportModel) (x y : Z) :
  chartless (fst (stage_recommendations E r x y)) = true.
Proof.
  unfold stage_recommendations.
  destruct (recommendations r) as [|item rest]; [reflexivity|].
  pose proof (section_entry_chartless (8 * cm) y) as He.
  destruct (section_entry (8 * cm) y) as [eo y1].
  pose proof (recommendations_loop_chartless x (firstn 8 (item :: rest))
                (y1 - 20 * pt)) as Hl.
  destruct (recommendations_loop _ _ _ _). cbn [fst] in *.
  now chartless_parts.
Qed.

Lemma column_tail_chartless (nx : Z) (lines : list string) :
  forall y, chartless (fst (column_tail nx lines y)) = true.
Proof.
  induction lines as [|line rest IH]; intros y; [reflexivity|].
  cbn [column_tail]. specialize (IH (y - 12 * pt)).
  destruct (column_tail nx rest (y - 12 * pt)). exact IH.
Qed.

Lemma column_loop_chartless (fx nx : Z) (mark : string) (w : Z)
  (items : list string) :
  forall y, chartless (fst (column_loop E fx nx mark w items y)) = true.
Proof.
  induction items as [|item rest IH]; intros y; [reflexivity|].
  cbn [column_loop]. destruct (textwrap_wrap E item w) as [|line0 more];
    [apply IH|].
  pose proof (column_tail_chartless nx more (y - 12 * pt)) as Ht.
  destruct (column_tail nx more (y - 12 * pt)) as [tops y1].
  specialize (IH (y1 - 3 * pt)). destruct (column_loop E fx nx mark w rest _).
  cbn [fst] in *.
  change (chartless ([DrawString fx y (mark ++ line0)] ++ tops ++ l) = true).
  now chartless_parts.
Qed.

Lemma column_chartless (items : list string) (hx fx nx : Z)
  (color heading mark : string) (y lowest : Z) :
  chartless (fst (column E items hx fx nx color heading mark y lowest)) = true.
Proof.
  unfold column. destruct items as [|item rest]; [reflexivity|].
  pose proof (column_loop_chartless fx nx mark 40 (firstn 5 (item :: rest))
                (y - 18 * pt)) as H.
  destruct (column_loop _ _ _ _ _ _ _). exact H.
Qed.

Lemma columns_block_chartless (r : ReportModel) (x y : Z) :
  chartless (fst (columns_block E r x y)) = true.
Proof.
  unfold columns_block.
  pose proof (section_entry_chartless (10 * cm) y) as He.
  destruct (section_entry (10 * cm) y) as [eo y1].
  pose proof (column_chartless (limitations r) x (x + 5 * pt) (x + 12 * pt)
                "#E67E22" "Limitations" "• " y1 y1) as Hl.
  destruct (column E (limitations r) _ _ _ _ _ _ _ _) as [lo l1].
  cbv zeta.
  match goal with
  | |- context [column E (next_steps r) ?hx ?fx ?nx ?c ?h ?m ?a ?b] =>
      pose proof (column_chartless (next_steps r) hx fx nx c h m a b) as Hr;
      destruct (column E (next_steps r) hx fx nx c h m a b) as [ro l2]
  end.
  cbn [fst] in *. now chartless_parts.
Qed.

Lemma columns_chartless (r : ReportModel) (x y : Z) :
  chartless (fst (stage_columns E r x y)) = true.
Proof.
  unfold stage_columns.
  destruct (limitations r), (next_steps r); try reflexivity;
    apply columns_block_chartless.
Qed.

Lemma footer_chartless (r : ReportModel) (x : Z) :
  chartless (footer r x) = true.
Proof. reflexivity. Qed.

End Chartless.

(** ** Chart gating in the composer *)


Lemma eqb_empty_false (s : string) : s <> "" -> String.eqb s "" = false.
Proof. intros H. now destruct (String.eqb_spec s ""). Qed.

Section Gating.

Variable E : PyEnv.
Variables (d0 : pydict) (rest : list pyitem) (k0 nf : string).
Hypothesis Hkey : hd_error (keys d0) = Some k0.
Hypothesis Hk0 : k0 <> "".
Hypothesis Hnf : nf <> "".




End Gating.

(** Whatever [_write_visual_pdf] draws of a kind of chart, the chart stage
    drew. *)
Lemma render_chart_count (E : PyEnv) (p : op -> bool) (today : string)
  (report : ReportModel) (qd : pydata) (ct : string) (all : list op) :
  (forall o, p o = true -> is_chart o = true) ->
  _write_visual_pdf E today report qd ct = Some all ->
  exists y, count p all = count p (fst (stage_charts E qd ct (2 * cm) y)).
Proof.
  intros Hp. unfold _write_visual_pdf, body.
  pose proof (header_chartless today (title report) page_width page_height) as H0.
  destruct (_draw_header today (title report) page_width page_height) as [o0 y0].
  pose proof (summary_chartless E report (2 * cm) y0) as H1.
  destruct (stage_summary E report (2 * cm) y0) as [o1 y1].
  destruct (stage_charts E qd ct (2 * cm) y1) as [o2 y2] eqn:Hc.
  pose proof (metrics_chartless E report (2 * cm) y2) as H3.
  destruct (stage_metrics E report (2 * cm) y2) as [o3 y3].
  destruct (stage_table E qd (2 * cm) y3) as [[o4 y4]|] eqn:H4; [| discriminate].
  apply table_chartless in H4.
  pose proof (insights_chartless E report (2 * cm) y4) as H5.
  destruct (stage_insights E report (2 * cm) y4) as [o5 y5].
  pose proof (findings_chartless E report (2 * cm) y5) as H6.
  destruct (stage_findings E report (2 * cm) y5) as [o6 y6].
  pose proof (recommendations_chartless E report (2 * cm) y6) as H7.
  destruct (stage_recommendations E report (2 * cm) y6) as [o7 y7].
  pose proof (columns_chartless E report (2 * cm) y7) as H8.
  destruct (stage_columns E report (2 * cm) y7) as [o8 y8].
  pose proof (footer_chartless report (2 * cm)) as H9.
  set (ft := footer report (2 * cm)) in *. clearbody ft.
  cbn [fst] in *. intros [= <-]. exists y1. rewrite Hc. cbn [fst].
  rewrite !count_app.
  rewrite (chartless_count p o0), (chartless_count p o1), (chartless_count p o3),
    (chartless_count p o4), (chartless_count p o5), (chartless_count p o6),
    (chartless_count p o7), (chartless_count p o8),
    (chartless_count p ft), (chartless_count p [Save])
    by (assumption || reflexivity).
  lia.
Qed.

Lemma charts_policy_none (E : PyEnv) (data : pydata) (x y : Z) :
  stage_charts E data "None" x y = ([], y).
Proof. reflexivity. Qed.

Lemma count_one_chart (p : op -> bool) (d : chart) (x y : Z) :
  count p [DrawChart d x y] = if p (DrawChart d x y) then 1%nat else 0%nat.
Proof. unfold count; cbn. now destruct (p _). Qed.







(** ** Metric cards *)

(** Lengths as numbers, for [lia]. *)
Ltac lengths :=
  unfold settled, card_height, card_width, spacing in *; units;
  change (7200 / 2) with 3600 in *.

Lemma card_place_cases (i : nat) (sy : Z) :
  card_place i sy
  = if sy - card_row i * (card_height + spacing) - card_height <? 3 * cm
    then (true, page_top, page_top - card_row i * (card_height + spacing))
    else (false, sy, sy - card_row i * (card_height + spacing)).
Proof. reflexivity. Qed.

(** The loop is its placements, rendered card by card. *)
Lemma cards_loop_places (E : PyEnv) (x : Z) (metrics : list pyitem) :
  forall i sy,
    fst (cards_loop E x i metrics sy)
    = cards_ops E x i metrics (card_places i (List.length metrics) sy).
Proof.
  induction metrics as [|m rest IH]; intros i sy; [reflexivity|].
  cbn [cards_loop List.length card_places].
  destruct (card_place i sy) as [[brk sy'] cy].
  specialize (IH (S i) sy').
  destruct (cards_loop E x (S i) rest sy') as [ops fin]. cbn [fst] in *.
  cbn [cards_ops]. unfold card_ops, place_break, place_top. cbn [fst snd].
  rewrite <- IH. now rewrite <- !app_assoc.
Qed.

Lemma card_places_length (n : nat) :
  forall i sy, List.length (card_places i n sy) = n.
Proof.
  induction n as [|n IH]; intros i sy; [reflexivity|].
  cbn [card_places]. destruct (card_place i sy) as [[brk sy'] cy].
  cbn [List.length]. now rewrite IH.
Qed.

Lemma card_row_bound (i : nat) : (i < 10)%nat -> 0 <= card_row i <= 4.
Proof.
  intros H. unfold card_row, cards_per_row.
  assert (i / 2 < 5)%nat by (apply Nat.Div0.div_lt_upper_bound; lia).
  lia.
Qed.

Lemma card_row_succ_even (i : nat) :
  (i mod 2 = 0)%nat -> card_row (S i) = card_row i.
Proof.
  intros H. unfold card_row, cards_per_row. f_equal.
  pose proof (Nat.div_mod_eq i 2). pose proof (Nat.div_mod_eq (S i) 2).
  assert (S i mod 2 < 2)%nat by (apply Nat.mod_upper_bound; lia).
  lia.
Qed.

Lemma succ_odd_even (i : nat) : (i mod 2 <> 0)%nat -> (S i mod 2 = 0)%nat.
Proof.
  intros H.
  pose proof (Nat.div_mod_eq i 2). pose proof (Nat.div_mod_eq (S i) 2).
  assert (i mod 2 < 2)%nat by (apply Nat.mod_upper_bound; lia).
  assert (S i mod 2 < 2)%nat by (apply Nat.mod_upper_bound; lia).
  lia.
Qed.

Lemma succ_even_odd (i : nat) : (i mod 2 = 0)%nat -> (S i mod 2 <> 0)%nat.
Proof.
  intros H.
  pose proof (Nat.div_mod_eq i 2). pose proof (Nat.div_mod_eq (S i) 2).
  assert (S i mod 2 < 2)%nat by (apply Nat.mod_upper_bound; lia).
  lia.
Qed.

(** Once a card is placed, it is settled under the [start_y] in force. *)
Lemma card_place_settles (i : nat) (sy : Z) :
  (i < 10)%nat ->
  settled i (snd (fst (card_place i sy))).
Proof.
  intros Hi. rewrite card_place_cases. unfold settled.
  pose proof (card_row_bound i Hi).
  destruct (_ <? _) eqn:Hb; cbn [fst snd].
  - lengths. lia.
  - apply Z.ltb_ge in Hb. exact Hb.
Qed.

Lemma card_place_settled (i : nat) (sy : Z) :
  settled i sy ->
  card_place i sy = (false, sy, sy - card_row i * (card_height + spacing)).
Proof.
  unfold settled. intros H. rewrite card_place_cases.
  destruct (_ <? _) eqn:Hb; [apply Z.ltb_lt in Hb; lia | reflexivity].
Qed.

Lemma settled_top (i : nat) : (i < 10)%nat -> settled i page_top.
Proof.
  intros Hi. pose proof (card_row_bound i Hi). lengths. lia.
Qed.

(** From the top of a page no card of the first ten overflows. *)
Lemma card_places_from_top (n : nat) :
  forall i, (i + n <= 10)%nat ->
            card_places i n page_top = map (plain_place page_top) (seq i n).
Proof.
  induction n as [|n IH]; intros i Hi; [reflexivity|].
  cbn [card_places seq map].
  rewrite card_place_settled by (apply settled_top; lia).
  now rewrite IH by lia.
Qed.

(** The placements of a card loop: no page break at all, or exactly one,
    taken before the first card of a row, with every later card placed from
    the top of the new page. *)
Lemma card_places_shape (n : nat) :
  forall i sy,
    (i + n <= 10)%nat ->
    ((i mod 2 <> 0)%nat -> settled i sy) ->
    card_places i n sy = map (plain_place sy) (seq i n)
    \/ exists k,
        (k < n)%nat /\ ((i + k) mod 2 = 0)%nat
        /\ card_places i n sy
           = map (plain_place sy) (seq i k)
             ++ break_place (i + k)
             :: map (plain_place page_top) (seq (S (i + k)) (n - k - 1)).
Proof.
  induction n as [|n IH]; intros i sy Hi Hodd; [now left|].
  cbn [card_places]. rewrite card_place_cases.
  destruct (_ <? _) eqn:Hb.
  - right. exists 0%nat. rewrite Nat.add_0_r.
    assert (Heven : (i mod 2 = 0)%nat).
    { destruct (Nat.eq_dec (i mod 2) 0) as [He | Hne]; [exact He|].
      apply Hodd in Hne. unfold settled in Hne. apply Z.ltb_lt in Hb. lia. }
    split; [lia | split; [exact Heven|]].
    rewrite card_places_from_top by lia.
    cbn [seq map app]. now replace (S n - 0 - 1)%nat with n by lia.
  - apply Z.ltb_ge in Hb.
    assert (Hnext : (S i mod 2 <> 0)%nat -> settled (S i) sy).
    { intros Hs. unfold settled.
      rewrite card_row_succ_even; [exact Hb|].
      destruct (Nat.eq_dec (i mod 2) 0) as [He | Hne]; [exact He|].
      apply succ_odd_even in Hne. contradiction. }
    destruct (IH (S i) sy ltac:(lia) Hnext) as [Hall | (k & Hk & Hev & Hsplit)].
    + left. now rewrite Hall.
    + right. exists (S k).
      replace (i + S k)%nat with (S i + k)%nat by lia.
      split; [lia | split; [exact Hev|]].
      rewrite Hsplit. cbn [seq map app].
      now replace (S n - S k - 1)%nat with (n - k - 1)%nat by lia.
Qed.

Lemma anchor_after_plain (sy : Z) (js : list nat) :
  anchor_after (map (plain_place sy) js) sy = sy.
Proof.
  unfold anchor_after. induction js as [|j js IH]; [reflexivity|].
  cbn [map fold_left plain_place fst snd]. exact IH.
Qed.

Lemma anchor_after_plain_from (sy sy0 : Z) (js : list nat) :
  js <> [] -> anchor_after (map (plain_place sy) js) sy0 = sy.
Proof.
  destruct js as [|j js]; [contradiction|]. intros _.
  unfold anchor_after. cbn [map fold_left plain_place fst snd].
  apply anchor_after_plain.
Qed.

Lemma existsb_plain (sy : Z) (js : list nat) :
  existsb place_break (map (plain_place sy) js) = false.
Proof. induction js as [|j js IH]; [reflexivity | exact IH]. Qed.

(** The loop ends with the [start_y] of its last placement. *)
Lemma cards_loop_anchor (E : PyEnv) (x : Z) (metrics : list pyitem) :
  forall i sy,
    snd (cards_loop E x i metrics sy)
    = anchor_after (card_places i (List.length metrics) sy) sy.
Proof.
  induction metrics as [|m rest IH]; intros i sy; [reflexivity|].
  cbn [cards_loop List.length card_places].
  destruct (card_place i sy) as [[brk sy'] cy].
  specialize (IH (S i) sy').
  destruct (cards_loop E x (S i) rest sy') as [ops fin]. cbn [snd] in *.
  rewrite IH. unfold anchor_after. cbn [fold_left fst snd].
  generalize (card_places (S i) (List.length rest) sy'). intros places.
  destruct places as [|p places]; reflexivity.
Qed.

Lemma anchor_after_shape (places : list (bool * Z * Z)) (sy : Z) (i n : nat) :
  (places = map (plain_place sy) (seq i n)
   \/ exists k,
       (k < n)%nat /\ ((i + k) mod 2 = 0)%nat
       /\ places
          = map (plain_place sy) (seq i k)
            ++ break_place (i + k)
            :: map (plain_place page_top) (seq (S (i + k)) (n - k - 1))) ->
  anchor_after places sy = final_anchor places sy.
Proof.
  unfold final_anchor. intros [-> | (k & _ & _ & ->)].
  - now rewrite anchor_after_plain, existsb_plain.
  - rewrite existsb_app. cbn [existsb break_place place_break fst].
    rewrite orb_true_r. unfold anchor_after.
    rewrite fold_left_app. cbn [fold_left break_place fst snd].
    apply anchor_after_plain.
Qed.




Lemma metric_start_settled (sy : Z) : (0 mod 2 <> 0)%nat -> settled 0 sy.
Proof. intros H. now contradiction H. Qed.




Lemma total_rows_ceiling (n : nat) :
  Z.of_nat (Nat.min n 10) <= 2 * total_rows n <= Z.of_nat (Nat.min n 10) + 1.
Proof.
  unfold total_rows, cards_per_row.
  pose proof (Nat.div_mod_eq (Nat.min n 10 + 2 - 1) 2).
  assert ((Nat.min n 10 + 2 - 1) mod 2 < 2)%nat
    by (apply Nat.mod_upper_bound; lia).
  lia.
Qed.

(** C5 (amended).  The cursor [_draw_metric_cards] hands back.  For a
    non-empty metrics list of length [n] the cards of the first ten are
    placed two to a row, and the cursor returned is the [start_y] in force
    at the end of the loop, less [ceil(min(n, 10) / 2)] row pitches (card
    height plus spacing), less 20 pt.  That [start_y] is the cursor at entry
    less 25 pt when no page break was taken, and the top of the new page
    once one was.  7 metrics make 4 rows.  An empty list leaves the cursor
    as it was and draws nothing. *)
Theorem metric_cards_final_cursor (E : PyEnv) (m : pyitem)
  (rest : list pyitem) (x y w : Z) :
  let metrics := m :: rest in
  let n := List.length metrics in
  let places := card_places 0 (Nat.min 10 n) (y - 25 * pt) in
  snd (_draw_metric_cards E metrics x y w)
  = final_anchor places (y - 25 * pt)
    - total_rows n * (card_height + spacing) - 20 * pt
  /\ List.length places = Nat.min 10 n
  /\ Z.of_nat (Nat.min n 10) <= 2 * total_rows n <= Z.of_nat (Nat.min n 10) + 1
  /\ total_rows 7 = 4
  /\ (forall x' y' w', _draw_metric_cards E [] x' y' w' = ([], y')).
Proof.
  intros metrics n places.
  split; [| split; [apply card_places_length
                   | split; [apply total_rows_ceiling | now split]]].
  unfold _draw_metric_cards, metrics. fold metrics.
  pose proof (cards_loop_anchor E x (firstn 10 metrics) 0 (y - 25 * pt)) as H.
  destruct (cards_loop E x 0 (firstn 10 metrics) (y - 25 * pt)) as [ops fin].
  cbn [snd] in *. rewrite H, length_firstn. fold n. fold places.
  rewrite (anchor_after_shape places (y - 25 * pt) 0 (Nat.min 10 n));
    [reflexivity|].
  apply card_places_shape; [lia | apply metric_start_settled].
Qed.

(** Against C5 as stated.  For the empty list the cursor comes back
    unchanged: it is not a row start less zero rows less the 20 pt gap.
    And the row start the formula counts from is the one in force at the
    end of the loop: with a page break (three cards entered with
    [start_y = 7 cm]) the cursor is counted from the top of the new page,
    which lies above the [start_y] at entry. *)
Lemma metric_cards_final_cursor_counterexample :
  let m := IDict [("revenue", PInt 50000)] in
  (snd (_draw_metric_cards sample_env [] (2 * cm) (20 * cm) page_width)
   = 20 * cm
   /\ 20 * cm - 25 * pt - total_rows 0 * (card_height + spacing) - 20 * pt
      < 20 * cm)
  /\ (snd (_draw_metric_cards sample_env [m; m; m] (2 * cm)
             (7 * cm + 25 * pt) page_width)
      = page_top - total_rows 3 * (card_height + spacing) - 20 * pt
      /\ 7 * cm - total_rows 3 * (card_height + spacing) - 20 * pt
         < page_top - total_rows 3 * (card_height + spacing) - 20 * pt).
Proof. vm_compute. repeat split. Qed.

(** The break is reached from the composer.  A report without a summary,
    three numeric rows and the policy Both: under the header the two charts
    leave the cursor at 10.68 cm, the metrics block is entered with the
    15 pt spacer, and the fifth card (row 2) overflows.  It is drawn on the
    new page two row pitches below the top. *)
Lemma metric_break_reached_by_composer :
  let rows := QList [IDict [("region", PStr "north"); ("sales", PInt 12)];
                     IDict [("region", PStr "east"); ("sales", PInt 7)];
                     IDict [("region", PStr "west"); ("sales", PInt 9)]] in
  let y1 := snd (_draw_header "May 01, 2026" "Q1 Sales" page_width page_height) in
  let y2 := snd (stage_charts sample_env rows "Both" (2 * cm) y1) in
  let y3 := snd (section_entry (10 * cm) y2) in
  (10 * cm <=? y2) = true
  /\ y3 = y2 - 15 * pt
  /\ card_places 0 5 (y3 - 25 * pt)
     = [plain_place (y3 - 25 * pt) 0; plain_place (y3 - 25 * pt) 1;
        plain_place (y3 - 25 * pt) 2; plain_place (y3 - 25 * pt) 3;
        (true, page_top, page_top - 2 * row_pitch)].
Proof. vm_compute. repeat split. Qed.

(** ** Lists that run over a page *)

Lemma draw_wrapped_text (tx dy : Z) (lines : list string) :
  forall y, forallb is_text (fst (draw_wrapped tx dy lines y)) = true.
Proof.
  induction lines as [|line rest IH]; intros y; [reflexivity|].
  cbn [draw_wrapped]. specialize (IH (y - 14 * pt)).
  destruct (draw_wrapped tx dy rest (y - 14 * pt)). exact IH.
Qed.

Lemma count_text_only (p : op -> bool) (ops : list op) :
  (forall o, is_text o = true -> p o = false) ->
  forallb is_text ops = true -> count p ops = 0%nat.
Proof.
  intros Hp. unfold count.
  induction ops as [|o ops IH]; cbn; [reflexivity|].
  intros H. apply andb_prop in H as [Ho Hops].
  rewrite (Hp o Ho). now apply IH.
Qed.

Lemma count_cons (p : op -> bool) (o : op) (ops : list op) :
  count p (o :: ops) = ((if p o then 1 else 0) + count p ops)%nat.
Proof. unfold count; cbn. now destruct (p o). Qed.

Section Paged.

Context {A : Type}.
Variables (threshold : Z) (banner : list op) (item : A -> Z -> list op * Z).

(** A marker drawn [c] times by every item and never by the banner is drawn
    [c] times for each item of the list. *)
Lemma paged_count (p : op -> bool) (c : nat) (items : list A) (y : Z)
  (ops : list op) (y' : Z) :
  (forall a z, count p (fst (item a z)) = c) ->
  count p banner = 0%nat ->
  paged threshold banner item items y ops y' ->
  count p ops = (c * List.length items)%nat.
Proof.
  intros Hitem Hbanner H.
  induction H as [y | a rest y ops y' _ _ IH | a rest y ops y' _ _ IH].
  - cbn. lia.
  - rewrite count_app, Hitem, IH. cbn [List.length]. lia.
  - rewrite !count_app, Hbanner, Hitem, IH. cbn [List.length]. lia.
Qed.

Lemma titled_breaks_app (after l m : list op) :
  count is_show_page l = 0%nat ->
  titled_breaks after m -> titled_breaks after (l ++ m).
Proof.
  intros Hl Hm. induction l as [|o l IH]; [exact Hm|].
  rewrite count_cons in Hl. cbn [app titled_breaks].
  destruct (is_show_page o) eqn:Ho; [lia|].
  split; [discriminate | apply IH; lia].
Qed.

(** When the banner is [showPage] followed by a title, and nothing else
    turns the page, every page break of the list is followed by the title. *)
Lemma paged_titled (after : list op) (items : list A) (y : Z)
  (ops : list op) (y' : Z) :
  banner = ShowPage :: after ->
  count is_show_page after = 0%nat ->
  (forall a z, count is_show_page (fst (item a z)) = 0%nat) ->
  paged threshold banner item items y ops y' ->
  titled_breaks after ops.
Proof.
  intros Hb Hafter Hitem H.
  induction H as [y | a rest y ops y' _ _ IH | a rest y ops y' _ _ IH].
  - exact I.
  - apply titled_breaks_app; [apply Hitem | exact IH].
  - rewrite Hb. cbn [app titled_breaks]. split.
    + intros _. rewrite firstn_app, Nat.sub_diag, firstn_all.
      cbn [firstn]. apply app_nil_r.
    + apply titled_breaks_app; [exact Hafter|].
      apply titled_breaks_app; [apply Hitem | exact IH].
Qed.

End Paged.

Lemma text_not_show_page (o : op) : is_text o = true -> is_show_page o = false.
Proof. now destruct o. Qed.

Lemma text_not_circle (o : op) : is_text o = true -> is_circle o = false.
Proof. now destruct o. Qed.

Lemma text_not_line (o : op) : is_text o = true -> is_line o = false.
Proof. now destruct o. Qed.

Section ListItems.

Variable E : PyEnv.
Variable x : Z.

(** What one item draws of a marker [p] that no text is: the markers of its
    fixed part. *)
Lemma insight_item_count (p : op -> bool) (i : nat) (item : insight) (y : Z) :
  (forall o, is_text o = true -> p o = false) ->
  count p (fst (insight_item E x i item y))
  = ((if p (Circle (x + 10 * pt) (y - 5 * pt) (8 * pt) true false)
      then 1 else 0)
     + count p [SetFillColor "#3498DB"; SetFillColor "white";
                SetFont "Helvetica-Bold" 10; SetFillColor "#2C3E50";
                SetFont "Helvetica" 10])%nat.
Proof.
  intros Hp. unfold insight_item.
  pose proof (draw_wrapped_text (x + 25 * pt) (8 * pt)
                (textwrap_wrap E (insight_text E item) 90) y) as Ht.
  destruct (draw_wrapped _ _ _ _) as [ops y']. cbn [fst] in *.
  rewrite count_app, (count_text_only p ops Hp Ht).
  rewrite !count_cons. rewrite (Hp (DrawString _ _ _) eq_refl).
  change (count p []) with 0%nat. lia.
Qed.

Lemma finding_item_count (p : op -> bool) (f : string) (y : Z) :
  (forall o, is_text o = true -> p o = false) ->
  count p (fst (finding_item E x f y))
  = ((if p (Circle (x + 5 * pt) (y - 4 * pt) (2 * pt) true false)
      then 1 else 0)
     + count p [SetFont "Helvetica" 10; SetFillColor "#3498DB";
                SetFillColor "black"])%nat.
Proof.
  intros Hp. unfold finding_item.
  pose proof (draw_wrapped_text (x + 15 * pt) (5 * pt)
                (textwrap_wrap E f 85) y) as Ht.
  destruct (draw_wrapped _ _ _ _) as [ops y']. cbn [fst] in *.
  rewrite count_app, (count_text_only p ops Hp Ht).
  rewrite !count_cons. change (count p []) with 0%nat. lia.
Qed.

Lemma recommendation_item_count (p : op -> bool) (r : string) (y : Z) :
  (forall o, is_text o = true -> p o = false) ->
  count p (fst (recommendation_item E x r y))
  = ((if p (Line (x + 3 * pt) (y - 3 * pt) (x + 6 * pt) (y - 6 * pt))
      then 1 else 0)
     + (if p (Line (x + 6 * pt) (y - 6 * pt) (x + 12 * pt) (y + 2 * pt))
        then 1 else 0)
     + count p [SetStrokeColor "#27AE60"; SetLineWidth (2 * pt);
                SetStrokeColor "black"; SetLineWidth (1 * pt);
                SetFont "Helvetica" 10; SetFillColor "#2C3E50"])%nat.
Proof.
  intros Hp. unfold recommendation_item.
  pose proof (draw_wrapped_text (x + 20 * pt) (5 * pt)
                (textwrap_wrap E r 85) y) as Ht.
  destruct (draw_wrapped _ _ _ _) as [ops y']. cbn [fst] in *.
  rewrite count_app, (count_text_only p ops Hp Ht).
  rewrite !count_cons. change (count p []) with 0%nat. lia.
Qed.

Lemma insights_loop_paged (items : list insight) :
  forall i y,
    paged (5 * cm) (continued_title x "#2C3E50" "Key Insights (continued)")
      (numbered_insight E x)
      (combine (seq i (List.length items)) items) y
      (fst (insights_loop E x i items y))
      (snd (insights_loop E x i items y)).
Proof.
  induction items as [|item rest IH]; intros i y; [constructor|].
  cbn [insights_loop List.length seq combine].
  destruct (y <? 5 * cm) eqn:Hb.
  - specialize (IH (S i) (snd (insight_item E x i item (page_top - 20 * pt)))).
    destruct (insight_item E x i item (page_top - 20 * pt)) as [io y2] eqn:Hi.
    cbn [snd] in IH.
    destruct (insights_loop E x (S i) rest y2) as [ops y3]. cbn [fst snd] in *.
    replace io with (fst (numbered_insight E x (i, item) (page_top - 20 * pt)))
      by (unfold numbered_insight; cbn [fst snd]; now rewrite Hi).
    apply paged_breaks; [now apply Z.ltb_lt|].
    unfold numbered_insight at 2; cbn [fst snd]. now rewrite Hi.
  - specialize (IH (S i) (snd (insight_item E x i item y))).
    destruct (insight_item E x i item y) as [io y2] eqn:Hi. cbn [snd] in IH.
    destruct (insights_loop E x (S i) rest y2) as [ops y3]. cbn [fst snd] in *.
    replace io with (fst (numbered_insight E x (i, item) y))
      by (unfold numbered_insight; cbn [fst snd]; now rewrite Hi).
    apply paged_fits; [now apply Z.ltb_ge|].
    unfold numbered_insight at 2; cbn [fst snd]. now rewrite Hi.
Qed.

Lemma findings_loop_paged (items : list string) :
  forall y,
    paged (4 * cm) (continued_title x "#2C3E50" "Detailed Findings (continued)")
      (finding_item E x) items y
      (fst (findings_loop E x items y))
      (snd (findings_loop E x items y)).
Proof.
  induction items as [|item rest IH]; intros y; [constructor|].
  cbn [findings_loop].
  destruct (y <? 4 * cm) eqn:Hb.
  - specialize (IH (snd (finding_item E x item (page_top - 20 * pt)))).
    destruct (finding_item E x item (page_top - 20 * pt)) as [io y2] eqn:Hi.
    cbn [snd] in IH.
    destruct (findings_loop E x rest y2) as [ops y3]. cbn [fst snd] in *.
    replace io with (fst (finding_item E x item (page_top - 20 * pt)))
      by now rewrite Hi.
    apply paged_breaks; [now apply Z.ltb_lt | now rewrite Hi].
  - specialize (IH (snd (finding_item E x item y))).
    destruct (finding_item E x item y) as [io y2] eqn:Hi. cbn [snd] in IH.
    destruct (findings_loop E x rest y2) as [ops y3]. cbn [fst snd] in *.
    replace io with (fst (finding_item E x item y)) by now rewrite Hi.
    apply paged_fits; [now apply Z.ltb_ge | now rewrite Hi].
Qed.

Lemma recommendations_loop_paged (items : list string) :
  forall y,
    paged (4 * cm) (continued_title x "#27AE60" "Recommendations (continued)")
      (recommendation_item E x) items y
      (fst (recommendations_loop E x items y))
      (snd (recommendations_loop E x items y)).
Proof.
  induction items as [|item rest IH]; intros y; [constructor|].
  cbn [recommendations_loop].
  destruct (y <? 4 * cm) eqn:Hb.
  - specialize (IH (snd (recommendation_item E x item (page_top - 20 * pt)))).
    destruct (recommendation_item E x item (page_top - 20 * pt))
      as [io y2] eqn:Hi.
    cbn [snd] in IH.
    destruct (recommendations_loop E x rest y2) as [ops y3]. cbn [fst snd] in *.
    replace io with (fst (recommendation_item E x item (page_top - 20 * pt)))
      by now rewrite Hi.
    apply paged_breaks; [now apply Z.ltb_lt | now rewrite Hi].
  - specialize (IH (snd (recommendation_item E x item y))).
    destruct (recommendation_item E x item y) as [io y2] eqn:Hi.
    cbn [snd] in IH.
    destruct (recommendations_loop E x rest y2) as [ops y3]. cbn [fst snd] in *.
    replace io with (fst (recommendation_item E x item y)) by now rewrite Hi.
    apply paged_fits; [now apply Z.ltb_ge | now rewrite Hi].
Qed.

End ListItems.

(** C7.  Page breaks inside the insights, findings and recommendations
    lists.  The calls of each loop are the items of the capped list, every
    item exactly once and in order; an item the cursor finds below the
    list's threshold (5 cm for insights, 4 cm for the other two) is preceded
    by a page break and the section title with "(continued)" drawn at the
    top of the new page, and is drawn under it.  Every [showPage] of a loop
    is followed at once by that title.  Counting markers: one badge circle
    for every insight, one bullet circle for every finding, the two strokes
    of the check mark for every recommendation. *)
Theorem list_page_breaks (E : PyEnv) (x y : Z) (ins : list insight)
  (fs rs : list string) :
  let ins8 := firstn 8 ins in
  let fs10 := firstn 10 fs in
  let rs8 := firstn 8 rs in
  let i_out := insights_loop E x 1 ins8 y in
  let f_out := findings_loop E x fs10 y in
  let r_out := recommendations_loop E x rs8 y in
  let i_title := title_again x "#2C3E50" "Key Insights (continued)" in
  let f_title := title_again x "#2C3E50" "Detailed Findings (continued)" in
  let r_title := title_again x "#27AE60" "Recommendations (continued)" in
  (paged (5 * cm) (ShowPage :: i_title) (numbered_insight E x)
     (combine (seq 1 (List.length ins8)) ins8) y (fst i_out) (snd i_out)
   /\ titled_breaks i_title (fst i_out)
   /\ count is_circle (fst i_out) = List.length ins8)
  /\ (paged (4 * cm) (ShowPage :: f_title) (finding_item E x)
        fs10 y (fst f_out) (snd f_out)
      /\ titled_breaks f_title (fst f_out)
      /\ count is_circle (fst f_out) = List.length fs10)
  /\ (paged (4 * cm) (ShowPage :: r_title) (recommendation_item E x)
        rs8 y (fst r_out) (snd r_out)
      /\ titled_breaks r_title (fst r_out)
      /\ count is_line (fst r_out) = (2 * List.length rs8)%nat).
Proof.
  intros ins8 fs10 rs8 i_out f_out r_out i_title f_title r_title.
  pose proof (insights_loop_paged E x ins8 1 y) as Hi.
  pose proof (findings_loop_paged E x fs10 y) as Hf.
  pose proof (recommendations_loop_paged E x rs8 y) as Hr.
  fold i_out in Hi. fold f_out in Hf. fold r_out in Hr.
  split; [| split]; (split; [assumption | split]).
  - refine (paged_titled _ _ _ i_title _ _ _ _ eq_refl eq_refl _ Hi).
    intros [i item] z. unfold numbered_insight. cbn [fst snd].
    now rewrite (insight_item_count E x is_show_page i item z text_not_show_page).
  - assert (Hone : forall (a : nat * insight) (z : Z),
               count is_circle (fst (numbered_insight E x a z)) = 1%nat).
    { intros [i item] z. unfold numbered_insight. cbn [fst snd].
      now rewrite (insight_item_count E x is_circle i item z text_not_circle). }
    rewrite (fun Hb => paged_count _ _ _ is_circle 1 _ _ _ _ Hone Hb Hi)
      by reflexivity.
    rewrite length_combine, length_seq. lia.
  - refine (paged_titled _ _ _ f_title _ _ _ _ eq_refl eq_refl _ Hf).
    intros f z.
    now rewrite (finding_item_count E x is_show_page f z text_not_show_page).
  - assert (Hone : forall (a : string) (z : Z),
               count is_circle (fst (finding_item E x a z)) = 1%nat).
    { intros f z.
      now rewrite (finding_item_count E x is_circle f z text_not_circle). }
    rewrite (fun Hb => paged_count _ _ _ is_circle 1 _ _ _ _ Hone Hb Hf)
      by reflexivity.
    lia.
  - refine (paged_titled _ _ _ r_title _ _ _ _ eq_refl eq_refl _ Hr).
    intros r z.
    now rewrite (recommendation_item_count E x is_show_page r z
                   text_not_show_page).
  - assert (Htwo : forall (a : string) (z : Z),
               count is_line (fst (recommendation_item E x a z)) = 2%nat).
    { intros r z.
      now rewrite (recommendation_item_count E x is_line r z text_not_line). }
    rewrite (fun Hb => paged_count _ _ _ is_line 2 _ _ _ _ Htwo Hb Hr)
      by reflexivity.
    lia.
Qed.

(** ** Empty sections *)

(** C8.  Empty optional parts of a report.  When the executive summary is
    the empty string, or one of [key_metrics], [insights], [findings],
    [recommendations] is the empty list, the composer's block for it makes
    no call on the canvas and leaves the cursor where it was; the same
    holds for the closing block when [limitations] and [next_steps] are both
    empty.  When only one of the two is empty, its column makes no call and
    leaves [lowest_y] alone, so the block is the other column's alone.  The
    section renderers themselves do nothing on an empty list.  A report that
    has only a title renders as the header, the footer and [save]. *)
Theorem empty_sections_render_nothing (E : PyEnv) (r : ReportModel)
  (x y : Z) :
  (executive_summary r = "" -> stage_summary E r x y = ([], y))
  /\ (key_metrics r = [] -> stage_metrics E r x y = ([], y))
  /\ (insights r = [] -> stage_insights E r x y = ([], y))
  /\ (findings r = [] -> stage_findings E r x y = ([], y))
  /\ (recommendations r = [] -> stage_recommendations E r x y = ([], y))
  /\ (limitations r = [] -> next_steps r = [] ->
      stage_columns E r x y = ([], y))
  /\ (forall hx fx nx color heading mark top lowest,
         column E [] hx fx nx color heading mark top lowest = ([], lowest))
  /\ (limitations r = [] ->
      columns_block E r x y
      = let '(entry_ops, y1) := section_entry (10 * cm) y in
        let col_width := (page_width - 2 * x) / 2 - 20 * pt in
        let '(right_ops, lowest) :=
          column E (next_steps r) (x + col_width + 40 * pt)
            (x + col_width + 45 * pt) (x + col_width + 52 * pt)
            "#8E44AD" "Next Steps" "→ " y1 y1 in
        (entry_ops ++ right_ops, lowest - 10 * pt))
  /\ (next_steps r = [] ->
      columns_block E r x y
      = let '(entry_ops, y1) := section_entry (10 * cm) y in
        let '(left_ops, lowest) :=
          column E (limitations r) x (x + 5 * pt) (x + 12 * pt)
            "#E67E22" "Limitations" "• " y1 y1 in
        (entry_ops ++ left_ops, lowest - 10 * pt))
  /\ (forall w, _draw_metric_cards E [] x y w = ([], y))
  /\ (forall w, _draw_insights_section E [] x y w = ([], y))
  /\ (forall today t source chart_type,
         _write_visual_pdf E today (bare_report t source) QNone chart_type
         = Some (fst (_draw_header today t page_width page_height)
                 ++ footer (bare_report t source) (2 * cm) ++ [Save])).
Proof.
  repeat match goal with |- _ /\ _ => split end.
  - unfold stage_summary. now intros ->.
  - unfold stage_metrics. now intros ->.
  - unfold stage_insights. now intros ->.
  - unfold stage_findings. now intros ->.
  - unfold stage_recommendations. now intros ->.
  - unfold stage_columns. now intros -> ->.
  - reflexivity.
  - unfold columns_block. intros ->.
    destruct (section_entry (10 * cm) y) as [eo y1]. cbn [column]. cbv zeta.
    now destruct (column E (next_steps r) _ _ _ _ _ _ _ _).
  - unfold columns_block. intros ->.
    destruct (section_entry (10 * cm) y) as [eo y1]. cbv zeta.
    destruct (column E (limitations r) _ _ _ _ _ _ _ _) as [lo l1].
    cbn [column]. now rewrite app_nil_r.
  - reflexivity.
  - reflexivity.
  - intros today t source chart_type. unfold _write_visual_pdf, body.
    cbn [stage_summary stage_metrics stage_table stage_insights stage_findings
         stage_recommendations stage_columns bare_report executive_summary
         key_metrics insights findings recommendations limitations next_steps
         title String.eqb].
    destruct (_draw_header today t page_width page_height) as [ho y0].
    assert (Hc : stage_charts E QNone chart_type (2 * cm) y0 = ([], y0)).
    { unfold stage_charts. now destruct (String.eqb chart_type "None"). }
    rewrite Hc. reflexivity.
Qed.

(** A report with a title only, and a report whose only list is
    [next_steps]. *)
Lemma empty_sections_render_nothing_witness :
  stage_metrics sample_env (bare_report "Q1 Sales" "Data Analysis")
    (2 * cm) (20 * cm)
  = ([], 20 * cm)
  /\ stage_columns sample_env (bare_report "Q1 Sales" "Data Analysis")
       (2 * cm) (20 * cm)
     = ([], 20 * cm).
Proof.
  pose (H := empty_sections_render_nothing sample_env
               (bare_report "Q1 Sales" "Data Analysis") (2 * cm) (20 * cm)).
  split.
  - exact (proj1 (proj2 H) eq_refl).
  - exact (proj1 (proj2 (proj2 (proj2 (proj2 (proj2 H))))) eq_refl eq_refl).
Defined.

(** ** Two runs on the same input *)

Lemma header_timestamp (today t : string) (w h : Z) :
  fst (_draw_header today t w h)
  = (header_bands 0 gradient_colors w h
     ++ [SetFillColor "white";
         SetFont "Helvetica-Bold" 22;
         DrawString (2 * cm) (h - 18 * cm / 10) t;
         SetFont "Helvetica" 10])
    ++ DrawString (2 * cm) (h - 23 * cm / 10) ("Generated: " ++ today)%string
    :: [SetStrokeColor "#3498DB";
        SetLineWidth (2 * pt);
        Line 0 (h - 3 * cm) w (h - 3 * cm)]
  /\ snd (_draw_header today t w h) = h - 3 * cm - cm / 2.
Proof. split; reflexivity. Qed.

(** The render, with the date of the run left open. *)
Lemma render_around_timestamp (E : PyEnv) (report : ReportModel)
  (qd : pydata) (ct : string) :
  (forall today, _write_visual_pdf E today report qd ct = None)
  \/ exists before after,
      List.length before = 10%nat
      /\ forall today,
          _write_visual_pdf E today report qd ct
          = Some (before ++ timestamp_op today :: after).
Proof.
  unfold _write_visual_pdf.
  destruct (body E report qd ct (2 * cm)
              (page_height - 3 * cm - cm / 2)) as [[ops y']|] eqn:Hb.
  - right.
    exists (header_bands 0 gradient_colors page_width page_height
            ++ [SetFillColor "white";
                SetFont "Helvetica-Bold" 22;
                DrawString (2 * cm) (page_height - 18 * cm / 10) (title report);
                SetFont "Helvetica" 10]).
    exists ([SetStrokeColor "#3498DB";
             SetLineWidth (2 * pt);
             Line 0 (page_height - 3 * cm) page_width (page_height - 3 * cm)]
            ++ ops ++ footer report (2 * cm) ++ [Save]).
    split; [reflexivity|]. intros today.
    destruct (header_timestamp today (title report) page_width page_height)
      as [Hops Hy].
    destruct (_draw_header today (title report) page_width page_height)
      as [ho y0]. cbn [fst snd] in Hops, Hy. subst ho y0.
    rewrite Hb. unfold timestamp_op. f_equal; now rewrite <- ?app_assoc.
  - left. intros today.
    destruct (header_timestamp today (title report) page_width page_height)
      as [Hops Hy].
    destruct (_draw_header today (title report) page_width page_height)
      as [ho y0]. cbn [fst snd] in Hops, Hy. subst ho y0.
    now rewrite Hb.
Qed.

(** C9.  Determinism up to the date of the run.  For a fixed report, row
    list and chart policy, the render either fails on every run or succeeds
    on every run, and all successful runs share one list of calls before
    the date line and one list after it: the logs of two runs have the same
    length and can differ only at the eleventh call, the string
    ["Generated: <date>"] of the header. *)
Theorem render_deterministic_modulo_timestamp (E : PyEnv)
  (report : ReportModel) (qd : pydata) (ct : string) :
  ((forall today, _write_visual_pdf E today report qd ct = None)
   \/ exists before after,
       List.length before = 10%nat
       /\ forall today,
           _write_visual_pdf E today report qd ct
           = Some (before ++ timestamp_op today :: after))
  /\ (forall today1 today2,
         match _write_visual_pdf E today1 report qd ct,
               _write_visual_pdf E today2 report qd ct with
         | Some ops1, Some ops2 =>
             List.length ops1 = List.length ops2
             /\ forall k, k <> 10%nat -> nth_error ops1 k = nth_error ops2 k
         | None, None => True
         | _, _ => False
         end).
Proof.
  split; [apply render_around_timestamp|].
  intros today1 today2.
  destruct (render_around_timestamp E report qd ct)
    as [Hnone | (before & after & Hlen & Hsome)].
  - now rewrite !Hnone.
  - rewrite !Hsome. split.
    + rewrite !length_app. reflexivity.
    + intros k Hk.
      destruct (Nat.lt_ge_cases k 10) as [Hlt | Hge].
      * rewrite !nth_error_app1 by lia. reflexivity.
      * rewrite !nth_error_app2 by lia. rewrite Hlen.
        destruct (k - 10)%nat as [|j] eqn:Hj; [lia | reflexivity].
Qed.

(** ** The summary of [build_pdf] *)

Lemma stage_charts_without_field (E : PyEnv) (qd : pydata) (ct : string)
  (x y : Z) :
  no_numeric_field qd = true -> stage_charts E qd ct x y = ([], y).
Proof.
  unfold no_numeric_field, stage_charts.
  destruct (String.eqb ct "None"); [reflexivity|].
  destruct qd as [|[|[d0|] rows]| |]; try reflexivity.
  now destruct (find_numeric_field d0).
Qed.

(** C10.  [has_charts] in the summary of a successful [build_pdf].  It is
    true exactly when the query data is there and not empty.  It does not
    depend on the chart policy: two successful calls that differ only in the
    policy report the same flag.  It does not say that a chart was drawn:
    under the policy ["None"], or when row 0 has no numeric field, the PDF
    holds no chart, while the flag is true for every non-empty row list. *)
Theorem has_charts_is_data_presence (E : PyEnv) (today : string)
  (report : ReportModel) (qd : pydata) (ct : string) (summary : info)
  (Hok : build_pdf E today report qd ct = Some summary) :
  has_charts summary = present_nonempty qd
  /\ (forall today' ct' summary',
         build_pdf E today' report qd ct' = Some summary' ->
         has_charts summary' = has_charts summary)
  /\ (ct = "None" \/ no_numeric_field qd = true ->
      exists ops,
        _write_visual_pdf E today report qd ct = Some ops
        /\ count is_chart ops = 0%nat)
  /\ (forall row rows, qd = QList (row :: rows) -> has_charts summary = true).
Proof.
  assert (Hflag : forall today' ct' summary',
             build_pdf E today' report qd ct' = Some summary' ->
             has_charts summary' = present_nonempty qd).
  { intros today' ct' summary'. unfold build_pdf, present_nonempty.
    destruct (_write_visual_pdf E today' report qd ct'); [| discriminate].
    destruct qd as [|rows|n|truth]; cbn [py_len option_map];
      try discriminate; now intros [= <-]. }
  split; [now apply (Hflag today ct)|].
  split; [| split].
  - intros today' ct' summary' H'.
    now rewrite (Hflag _ _ _ H'), (Hflag _ _ _ Hok).
  - intros Hquiet. unfold build_pdf in Hok.
    destruct (_write_visual_pdf E today report qd ct) as [ops|] eqn:Hr;
      [| discriminate].
    exists ops. split; [reflexivity|].
    destruct (render_chart_count E is_chart _ _ _ _ _ (fun o H => H) Hr)
      as [y ->].
    destruct Hquiet as [-> | Hnone]; [reflexivity|].
    now rewrite stage_charts_without_field.
  - intros row rows ->. now rewrite (Hflag _ _ _ Hok).
Qed.

(** Three rows of text under the policy Auto: the summary says
    [has_charts], the PDF holds no chart. *)
Lemma has_charts_is_data_presence_witness :
  let rows := QList [IDict [("city", PStr "Oslo"); ("code", PStr "NO")];
                     IDict [("city", PStr "Rome"); ("code", PStr "IT")];
                     IDict [("city", PStr "Bern"); ("code", PStr "CH")]] in
  let report := bare_report "Cities" "Data Analysis" in
  let summary := {| metrics_count := 0; has_charts := true;
                    total_insights := 0; total_findings := 0;
                    data_rows := Some 3%nat |} in
  build_pdf sample_env "May 01, 2026" report rows "Auto" = Some summary
  /\ exists ops,
      _write_visual_pdf sample_env "May 01, 2026" report rows "Auto" = Some ops
      /\ count is_chart ops = 0%nat.
Proof.
  intros rows report summary.
  split; [reflexivity|].
  exact (proj1 (proj2 (proj2
           (has_charts_is_data_presence sample_env "May 01, 2026" report rows
              "Auto" summary eq_refl)))
           (or_intror eq_refl)).
Defined.

(** * Further properties *)

(** ** The styled table *)

Lemma table_rows_none (E : PyEnv) (columns : list string)
  (items : list pyitem) :
  table_rows E columns items = None <-> forallb is_dict items = false.
Proof.
  induction items as [|[d|] rest IH]; cbn [table_rows table_row forallb is_dict].
  - split; discriminate.
  - cbn [andb]. rewrite <- IH.
    destruct (table_rows E columns rest); split; congruence.
  - split; reflexivity.
Qed.

Lemma table_rows_some (E : PyEnv) (columns : list string)
  (items : list pyitem) (body : list (list string)) :
  table_rows E columns items = Some body ->
  List.length body = List.length items
  /\ Forall (fun row => List.length row = List.length columns) body.
Proof.
  revert body; induction items as [|[d|] rest IH]; intros body;
    cbn [table_rows table_row].
  - intros [= <-]. split; [reflexivity | constructor].
  - destruct (table_rows E columns rest) as [rows|]; [| discriminate].
    intros [= <-]. destruct (IH rows eq_refl) as [Hlen Hall].
    split; [cbn; now rewrite Hlen|].
    constructor; [now rewrite length_map | exact Hall].
  - discriminate.
Qed.

(** X1.  When [_draw_styled_table] raises.  The call fails exactly when
    row 0 is a dict and either one of the first [max_rows] rows is not a
    dict or row 0 has no key; on every other input (no list, an empty list,
    a first row that is no dict) it returns. *)
Theorem styled_table_raises (E : PyEnv) (data : pydata) (x y w : Z)
  (t : string) (max_rows : nat) :
  _draw_styled_table E data x y w t max_rows = None
  <-> table_raises data max_rows = true.
Proof.
  unfold _draw_styled_table, table_raises.
  destruct data as [|[|[d0|] rest]| |]; try (split; discriminate).
  set (rows := IDict d0 :: rest).
  destruct (table_rows E (keys d0) (firstn max_rows rows)) as [body|] eqn:Hb.
  - assert (Hd : forallb is_dict (firstn max_rows rows) = true).
    { destruct (forallb is_dict (firstn max_rows rows)) eqn:Hf; [reflexivity|].
      apply (table_rows_none E (keys d0)) in Hf. congruence. }
    rewrite Hd. cbn [negb orb].
    destruct (Nat.eqb (List.length (keys d0)) 0); split;
      congruence || discriminate.
  - apply table_rows_none in Hb. rewrite Hb. now split.
Qed.

(** The successful call on a row list whose first row is a dict, taken
    apart. *)
Lemma styled_table_drawn (E : PyEnv) (d0 : pydict) (rest : list pyitem)
  (x y w : Z) (t : string) (n : nat) (ops : list op) (y' : Z) :
  _draw_styled_table E (QList (IDict d0 :: rest)) x y w t n = Some (ops, y') ->
  exists body : list (list string),
    let rows := IDict d0 :: rest in
    let td :=
      map (fun col => str_title E (replace_underscores col)) (keys d0)
      :: body in
    let aw := w - 2 * x in
    let h := table_wrap_height E td aw in
    let y0 := if String.eqb t "" then y else y - 20 * pt in
    let top := if y0 - h <? 2 * cm then page_top else y0 in
    let cut := (n <? List.length rows)%nat in
    table_rows E (keys d0) (firstn n rows) = Some body
    /\ keys d0 <> []
    /\ ops
       = (if String.eqb t "" then [] else table_title_ops x y t)
         ++ (if y0 - h <? 2 * cm then [ShowPage] else [])
         ++ [DrawTable td aw (List.length (keys d0)) x (top - h)]
         ++ (if cut
             then [SetFont "Helvetica-Oblique" 8;
                   SetFillColor "#7F8C8D";
                   DrawString x (top - h - 10 * pt)
                     (truncation_note n (List.length rows));
                   SetFillColor "black"]
             else [])
    /\ y' = top - h - 10 * pt - (if cut then 15 * pt else 0).
Proof.
  unfold _draw_styled_table.
  destruct (table_rows E (keys d0) (firstn n (IDict d0 :: rest)))
    as [body|]; [| discriminate].
  destruct (Nat.eqb (List.length (keys d0)) 0) eqn:Hk; [discriminate|].
  intros H. exists body. cbv zeta.
  split; [reflexivity|]. split.
  - intros Hnil. rewrite Hnil in Hk. discriminate.
  - split; [congruence|].
    destruct (n <? List.length (IDict d0 :: rest))%nat; [congruence|].
    rewrite Z.sub_0_r. congruence.
Qed.

(** X2.  The shape of the table drawn.  A successful call on a row list
    whose first row is a dict draws exactly one table, hands it one header
    row and one row for each of the first [max_rows] rows, every one of
    them with as many cells as row 0 has keys, on the width left between
    the margins, and turns the page at most once.  A key a row lacks gives
    an empty cell. *)
Theorem styled_table_shape (E : PyEnv) (d0 : pydict) (rest : list pyitem)
  (x y w : Z) (t : string) (n : nat) (ops : list op) (y' : Z)
  (Hok : _draw_styled_table E (QList (IDict d0 :: rest)) x y w t n
         = Some (ops, y')) :
  count is_table ops = 1%nat
  /\ (count is_show_page ops <= 1)%nat
  /\ (forall td aw cc tx ty,
         In (DrawTable td aw cc tx ty) ops ->
         cc = List.length (keys d0)
         /\ (0 < cc)%nat
         /\ List.length td = S (Nat.min n (S (List.length rest)))
         /\ Forall (fun row => List.length row = cc) td
         /\ aw = w - 2 * x
         /\ tx = x)
  /\ (forall d col,
         dict_get d col = None -> format_cell E (get_or d col (PStr "")) = "").
Proof.
  destruct (styled_table_drawn E d0 rest x y w t n ops y' Hok)
    as (body & Hbody & Hkeys & Hops & _).
  cbv zeta in Hops.
  destruct (table_rows_some E _ _ _ Hbody) as [Hlen Hall].
  rewrite length_firstn in Hlen. cbn [List.length] in Hlen.
  split; [| split; [| split]].
  - rewrite Hops, !count_app.
    destruct (String.eqb t ""); destruct (_ <? 2 * cm);
      destruct (n <? _)%nat; reflexivity.
  - rewrite Hops, !count_app.
    destruct (String.eqb t ""); destruct (_ <? 2 * cm);
      destruct (n <? _)%nat; cbn; lia.
  - intros td aw cc tx ty Hin. rewrite Hops in Hin.
    assert (Heq : DrawTable td aw cc tx ty
                  = DrawTable
                      (map (fun col => str_title E (replace_underscores col))
                         (keys d0) :: body)
                      (w - 2 * x) (List.length (keys d0)) x
                      ((if (if String.eqb t "" then y else y - 20 * pt)
                            - table_wrap_height E
                                (map (fun col =>
                                        str_title E (replace_underscores col))
                                   (keys d0) :: body) (w - 2 * x)
                            <? 2 * cm
                        then page_top
                        else if String.eqb t "" then y else y - 20 * pt)
                       - table_wrap_height E
                           (map (fun col =>
                                   str_title E (replace_underscores col))
                              (keys d0) :: body) (w - 2 * x))).
    { repeat (apply in_app_or in Hin; destruct Hin as [Hin | Hin]).
      - destruct (String.eqb t ""); [destruct Hin|].
        destruct Hin as [H | [H | [H | [H | []]]]]; discriminate H.
      - destruct (_ <? 2 * cm); [| destruct Hin].
        destruct Hin as [H | []]; discriminate H.
      - destruct Hin as [H | []]. now symmetry.
      - destruct (n <? _)%nat; [| destruct Hin].
        destruct Hin as [H | [H | [H | [H | []]]]]; discriminate H. }
    injection Heq as -> -> -> -> _.
    split; [reflexivity|]. split.
    { destruct (keys d0); [contradiction | cbn; lia]. }
    split; [cbn [List.length]; now rewrite Hlen|].
    split; [| now split].
    constructor; [apply length_map | exact Hall].
  - intros d col Hnone. unfold get_or. now rewrite Hnone.
Qed.

(** Twenty rows under the cap of 15: one table of a header and 15 rows. *)
Lemma styled_table_shape_witness :
  exists ops y',
    _draw_styled_table sample_env (QList twenty_rows) (2 * cm) (20 * cm)
      page_width "Detailed Results" 15 = Some (ops, y')
    /\ count is_table ops = 1%nat.
Proof.
  destruct (_draw_styled_table sample_env (QList twenty_rows) (2 * cm)
              (20 * cm) page_width "Detailed Results" 15)
    as [[ops y']|] eqn:Hok; [| vm_compute in Hok; discriminate Hok].
  exists ops, y'. split; [reflexivity|].
  exact (proj1 (styled_table_shape sample_env sales_row
                  (repeat (IDict sales_row) 19) (2 * cm) (20 * cm) page_width
                  "Detailed Results" 15 ops y' Hok)).
Defined.

(** The one table of a successful call. *)
Lemma styled_table_the_table (E : PyEnv) (d0 : pydict) (rest : list pyitem)
  (x y w : Z) (t : string) (n : nat) (ops : list op) (y' : Z)
  (td : list (list string)) (aw : Z) (cc : nat) (tx ty : Z) :
  _draw_styled_table E (QList (IDict d0 :: rest)) x y w t n = Some (ops, y') ->
  In (DrawTable td aw cc tx ty) ops ->
  let rows := IDict d0 :: rest in
  let h := table_wrap_height E td aw in
  let y0 := if String.eqb t "" then y else y - 20 * pt in
  let top := if y0 - h <? 2 * cm then page_top else y0 in
  let cut := (n <? List.length rows)%nat in
  ty = top - h
  /\ ops
     = (if String.eqb t "" then [] else table_title_ops x y t)
       ++ (if y0 - h <? 2 * cm then [ShowPage] else [])
       ++ [DrawTable td aw cc tx ty]
       ++ (if cut
           then [SetFont "Helvetica-Oblique" 8;
                 SetFillColor "#7F8C8D";
                 DrawString x (ty - 10 * pt)
                   (truncation_note n (List.length rows));
                 SetFillColor "black"]
           else [])
  /\ y' = ty - 10 * pt - (if cut then 15 * pt else 0).
Proof.
  intros Hok Hin.
  destruct (styled_table_drawn E d0 rest x y w t n ops y' Hok)
    as (body & _ & _ & Hops & Hy).
  cbv zeta in Hops, Hy |- *.
  set (td0 := map (fun col => str_title E (replace_underscores col)) (keys d0)
              :: body) in *.
  set (h0 := table_wrap_height E td0 (w - 2 * x)) in *.
  set (y0 := if String.eqb t "" then y else y - 20 * pt) in *.
  assert (Heq : DrawTable td aw cc tx ty
                = DrawTable td0 (w - 2 * x) (List.length (keys d0)) x
                    ((if y0 - h0 <? 2 * cm then page_top else y0) - h0)).
  { rewrite Hops in Hin.
    repeat (apply in_app_or in Hin; destruct Hin as [Hin | Hin]).
    - destruct (String.eqb t ""); [destruct Hin|].
      destruct Hin as [H | [H | [H | [H | []]]]]; discriminate H.
    - destruct (y0 - h0 <? 2 * cm); [| destruct Hin].
      destruct Hin as [H | []]; discriminate H.
    - destruct Hin as [H | []]. now symmetry.
    - destruct (n <? _)%nat; [| destruct Hin].
      destruct Hin as [H | [H | [H | [H | []]]]]; discriminate H. }
  assert (Htd : td = td0) by congruence.
  assert (Haw : aw = w - 2 * x) by congruence.
  assert (Hty : ty = (if y0 - h0 <? 2 * cm then page_top else y0) - h0)
    by congruence.
  subst td aw. fold h0.
  split; [exact Hty|]. rewrite Heq, Hty. split; [exact Hops | exact Hy].
Qed.

(** X3.  Where the table goes and what follows it.  The table of a
    successful call is drawn whole: when it does not fit above the 2 cm
    margin the page is turned first and the table hangs from the top of the
    new page, so its lower edge is never under the margin unless the table
    is higher than 25 cm.  The cursor handed back is 10 pt under the table.
    When the data has more rows than [max_rows], and only then, an italic
    note ["* Showing <max_rows> of <all> total records"] is drawn at that
    cursor and the cursor goes 15 pt further down. *)
Theorem styled_table_placement (E : PyEnv) (d0 : pydict) (rest : list pyitem)
  (x y w : Z) (t : string) (n : nat) (ops : list op) (y' : Z)
  (td : list (list string)) (aw : Z) (cc : nat) (tx ty : Z)
  (Hok : _draw_styled_table E (QList (IDict d0 :: rest)) x y w t n
         = Some (ops, y'))
  (Hin : In (DrawTable td aw cc tx ty) ops) :
  let all := List.length (IDict d0 :: rest) in
  let h := table_wrap_height E td aw in
  let y0 := if String.eqb t "" then y else y - 20 * pt in
  (2 * cm <= ty \/ 25 * cm < h)
  /\ ty = (if y0 - h <? 2 * cm then page_top else y0) - h
  /\ (count is_show_page ops = 1%nat <-> y0 - h < 2 * cm)
  /\ y' = ty - 10 * pt - (if (n <? all)%nat then 15 * pt else 0)
  /\ ((n < all)%nat <-> In (SetFont "Helvetica-Oblique" 8) ops)
  /\ ((n < all)%nat ->
      In (DrawString x (ty - 10 * pt) (truncation_note n all)) ops).
Proof.
  intros all h y0.
  destruct (styled_table_the_table E d0 rest x y w t n ops y' td aw cc tx ty
              Hok Hin) as (Hty & Hops & Hy).
  cbv zeta in Hty, Hops, Hy. fold all in Hops, Hy. fold h y0 in Hty, Hops.
  clearbody all h y0.
  split; [| split; [exact Hty | split; [| split; [exact Hy | split]]]].
  - rewrite Hty. destruct (y0 - h <? 2 * cm) eqn:Hb.
    + destruct (Z.le_gt_cases h (25 * cm)) as [Hh | Hh]; [left | right; lia].
      units. lia.
    + apply Z.ltb_ge in Hb. left. lia.
  - rewrite Hops, !count_app.
    destruct (String.eqb t ""); destruct (y0 - h <? 2 * cm) eqn:Hb;
      destruct (n <? all)%nat; cbn;
      (apply Z.ltb_lt in Hb || apply Z.ltb_ge in Hb); units; split; lia.
  - rewrite Hops. split.
    + intros Hlt. apply Nat.ltb_lt in Hlt. rewrite Hlt.
      rewrite !in_app_iff. right. right. right. now left.
    + intros Hfont. apply Nat.ltb_lt.
      destruct (n <? all)%nat; [reflexivity|].
      repeat (apply in_app_or in Hfont; destruct Hfont as [Hfont | Hfont]).
      * destruct (String.eqb t ""); [destruct Hfont|].
        destruct Hfont as [H | [H | [H | [H | []]]]]; discriminate H.
      * destruct (y0 - h <? 2 * cm); [| destruct Hfont].
        destruct Hfont as [H | []]; discriminate H.
      * destruct Hfont as [H | []]. discriminate H.
      * destruct Hfont.
  - intros Hlt. apply Nat.ltb_lt in Hlt. rewrite Hops, Hlt.
    rewrite !in_app_iff. do 3 right. right. right. now left.
Qed.

(** Twenty rows under the cap of 15, entered at 20 cm: the table fits, and
    the note under it says 15 of 20. *)
Lemma styled_table_placement_witness :
  exists ops y' td ty,
    _draw_styled_table sample_env (QList twenty_rows) (2 * cm) (20 * cm)
      page_width "Detailed Results" 15 = Some (ops, y')
    /\ In (DrawTable td (page_width - 2 * (2 * cm)) 2 (2 * cm) ty) ops
    /\ In (DrawString (2 * cm) (ty - 10 * pt)
             "* Showing 15 of 20 total records") ops.
Proof.
  destruct (_draw_styled_table sample_env (QList twenty_rows) (2 * cm)
              (20 * cm) page_width "Detailed Results" 15)
    as [[ops y']|] eqn:Hok; [| vm_compute in Hok; discriminate Hok].
  destruct (styled_table_drawn sample_env sales_row
              (repeat (IDict sales_row) 19) (2 * cm) (20 * cm) page_width
              "Detailed Results" 15 ops y' Hok) as (body & _ & _ & Hops & _).
  cbv zeta in Hops.
  match type of Hops with
  | context [DrawTable ?td ?aw ?cc ?tx ?ty] =>
      assert (Hin : In (DrawTable td aw cc tx ty) ops)
        by (rewrite Hops, !in_app_iff; right; right; left; now left);
      exists ops, y', td, ty
  end.
  split; [reflexivity|]. split; [exact Hin|].
  refine (proj2 (proj2 (proj2 (proj2 (proj2
            (styled_table_placement sample_env sales_row
               (repeat (IDict sales_row) 19) (2 * cm) (20 * cm) page_width
               "Detailed Results" 15 ops y' _ _ _ _ _ Hok Hin))))) _).
  cbn. lia.
Defined.

(** ** The chart renderers, further *)

Lemma bar_series_lengths (E : PyEnv) (k v : string) (items : list pyitem) :
  List.length (fst (bar_series E k v items)) = List.length (dict_rows items)
  /\ List.length (snd (bar_series E k v items)) = List.length (dict_rows items)
  /\ Forall (fun l => (String.length l <= 10)%nat) (fst (bar_series E k v items)).
Proof.
  induction items as [|[d|] rest IH]; cbn [bar_series dict_rows];
    [repeat split; constructor | | exact IH].
  destruct (bar_series E k v rest) as [labels values].
  cbn [fst snd List.length] in *. destruct IH as (Hl & Hv & Hall).
  split; [now rewrite Hl | split; [now rewrite Hv|]].
  constructor; [| exact Hall].
  generalize (py_str E (get_or d k (PStr ""))). intros s.
  assert (H : forall n s, (String.length (substring 0 n s) <= n)%nat).
  { clear. induction n as [|n IH]; intros [|c s]; cbn; try lia.
    specialize (IH s). lia. }
  apply H.
Qed.


Lemma dict_rows_length (items : list pyitem) :
  (List.length (dict_rows items) <= List.length items)%nat.
Proof.
  induction items as [|[d|] rest IH]; cbn [dict_rows List.length]; lia.
Qed.


(** [max] of a non-empty list is one of its elements and bounds them all. *)
Lemma Qmaximum_fold (vs : list Q) :
  forall v,
    (v <= fold_left (fun m w => if Qle_bool w m then m else w) vs v)%Q
    /\ Forall
         (fun u => (u <= fold_left (fun m w => if Qle_bool w m then m else w)
                           vs v)%Q) vs
    /\ In (fold_left (fun m w => if Qle_bool w m then m else w) vs v)
         (v :: vs).
Proof.
  induction vs as [|w vs IH]; intros v; cbn [fold_left].
  - split; [apply Qle_refl | split; [constructor | now left]].
  - destruct (Qle_bool w v) eqn:Hwv.
    + destruct (IH v) as (Hv & Hall & Hin).
      split; [exact Hv | split].
      * constructor; [| exact Hall].
        apply Qle_bool_iff in Hwv. eapply Qle_trans; eassumption.
      * destruct Hin as [<- | Hin]; [now left | right; now right].
    + destruct (IH w) as (Hw & Hall & Hin).
      assert (Hvw : (v <= w)%Q).
      { apply Qlt_le_weak, Qnot_le_lt. intros Hle.
        apply Qle_bool_iff in Hle. congruence. }
      split; [eapply Qle_trans; eassumption | split].
      * constructor; assumption.
      * right. exact Hin.
Qed.

Lemma Qmaximum_spec (v : Q) (vs : list Q) :
  Forall (fun u => (u <= Qmaximum (v :: vs))%Q) (v :: vs)
  /\ In (Qmaximum (v :: vs)) (v :: vs).
Proof.
  destruct (Qmaximum_fold vs v) as (Hv & Hall & Hin).
  split; [constructor; assumption | exact Hin].
Qed.

(** X4.  What a bar chart holds.  Any bar chart [_create_bar_chart] draws
    has between 1 and 10 bars, as many labels as values, no label longer
    than 10 characters, labels turned by 45 degrees exactly when there are
    more than 5 of them, and a value axis that ends at 1.1 times the largest
    value; it is drawn at [(x, y - height)] with the size and title
    asked for. *)
Theorem bar_chart_caps (E : PyEnv) (data : pydata) (x y w h : Z) (t : string)
  (kf vf : option string) (w' h' : Z) (t' : string) (labels : list string)
  (values : list Q) (vmax : Q) (angle cx cy : Z)
  (Hin : In (DrawChart (BarChart w' h' t' labels values vmax angle) cx cy)
           (fst (_create_bar_chart E data x y w h t kf vf))) :
  (1 <= List.length values <= 10)%nat
  /\ List.length labels = List.length values
  /\ Forall (fun l => (String.length l <= 10)%nat) labels
  /\ angle = (if (5 <? List.length labels)%nat then 45 else 0)
  /\ vmax = (Qmaximum values * (11 # 10))%Q
  /\ Forall (fun v => (v <= Qmaximum values)%Q) values
  /\ In (Qmaximum values) values
  /\ (w', h', t', cx, cy) = (w, h, t, x, y - h).
Proof.
  unfold _create_bar_chart in Hin.
  destruct data as [|[|first rows]| |]; try (now destruct Hin).
  destruct (negb _ || negb _); [now destruct Hin|].
  set (k := name_of (detect_key_field kf first)) in *.
  set (v := name_of (detect_value_field vf first)) in *.
  destruct (bar_series_lengths E k v (firstn 10 (first :: rows)))
    as (Hl & Hv & Hall).
  pose proof (dict_rows_length (firstn 10 (first :: rows))) as Hd.
  rewrite length_firstn in Hd.
  destruct (bar_series E k v (firstn 10 (first :: rows)))
    as [labels0 values0].
  cbn [fst snd] in *.
  destruct values0 as [|v0 values0]; [now destruct Hin|].
  destruct Hin as [Heq | []].
  assert (labels = labels0) by congruence.
  assert (values = v0 :: values0) by congruence.
  assert (vmax = (Qmaximum (v0 :: values0) * (11 # 10))%Q) by congruence.
  assert (angle = (if (5 <? List.length labels0)%nat then 45 else 0))
    by congruence.
  assert ((w', h', t', cx, cy) = (w, h, t, x, y - h)) by congruence.
  subst labels values.
  destruct (Qmaximum_spec v0 values0) as [Hbound Hmem].
  repeat match goal with |- _ /\ _ => split end; try assumption.
  - cbn [List.length]. lia.
  - lia.
  - congruence.
Qed.

(** Twelve numeric rows: the chart keeps the first ten. *)
Lemma bar_chart_caps_witness :
  exists labels values vmax,
    fst (_create_bar_chart sample_env (QList (firstn 12 twenty_rows))
           (2 * cm) (20 * cm) (17 * cm) (200 * pt) "Data Distribution"
           None (Some "total_sales"))
    = [DrawChart
         (BarChart (17 * cm) (200 * pt) "Data Distribution" labels values
            vmax 45)
         (2 * cm) (20 * cm - 200 * pt)]
    /\ List.length values = 10%nat.
Proof.
  eexists _, _, _. split; [reflexivity|].
  refine (Nat.le_antisymm _ _ (proj2 (proj1
            (bar_chart_caps sample_env (QList (firstn 12 twenty_rows))
               (2 * cm) (20 * cm) (17 * cm) (200 * pt) "Data Distribution"
               None (Some "total_sales") _ _ _ _ _ _ _ _ _
               (or_introl eq_refl)))) _).
  cbn. lia.
Defined.



Lemma bar_chart_result (E : PyEnv) (data : pydata) (x y w h : Z) (t : string)
  (kf vf : option string) :
  _create_bar_chart E data x y w h t kf vf = ([], y)
  \/ exists labels values vmax angle,
      _create_bar_chart E data x y w h t kf vf
      = ([DrawChart (BarChart w h t labels values vmax angle) x (y - h)],
         y - h - 20 * pt).
Proof.
  unfold _create_bar_chart.
  destruct data as [|[|first rows]| |]; try (now left).
  destruct (negb _ || negb _); [now left|].
  destruct (bar_series E _ _ _) as [labels values].
  destruct values; [now left | right; now eexists _, _, _, _].
Qed.

Lemma pie_chart_result (E : PyEnv) (data : pydata) (x y w h : Z) (t : string)
  (kf vf : option string) :
  _create_pie_chart E data x y w h t kf vf = ([], y)
  \/ exists values labels fills,
      _create_pie_chart E data x y w h t kf vf
      = ([DrawChart (PieChart w h t values labels fills) x (y - h)],
         y - h - 20 * pt).
Proof.
  unfold _create_pie_chart.
  destruct data as [|[|first rows]| |]; try (now left).
  destruct (negb _ || negb _); [now left|].
  destruct (pie_series E _ _ _) as [labels values].
  destruct values; [now left|].
  destruct (Qeq_bool _ _); [now left | right; now eexists _, _, _].
Qed.

(** X6.  Drawn or not, as the cursor tells.  Each chart renderer either
    makes no call and hands back [y], or draws exactly one chart, with its
    lower edge at [y - height], and hands back [y - height - 20 pt].  So
    for a height that is not negative, the cursor comes back unchanged
    exactly when nothing was drawn. *)
Theorem chart_cursor_tells (E : PyEnv) (data : pydata) (x y w h : Z)
  (t : string) (kf vf : option string) (Hh : 0 <= h) :
  let bar := _create_bar_chart E data x y w h t kf vf in
  let pie := _create_pie_chart E data x y w h t kf vf in
  (bar = ([], y)
   \/ exists d, is_bar (DrawChart d x (y - h)) = true
        /\ bar = ([DrawChart d x (y - h)], y - h - 20 * pt))
  /\ (pie = ([], y)
      \/ exists d, is_pie (DrawChart d x (y - h)) = true
           /\ pie = ([DrawChart d x (y - h)], y - h - 20 * pt))
  /\ (snd bar = y <-> fst bar = [])
  /\ (snd pie = y <-> fst pie = []).
Proof.
  intros bar pie.
  assert (Hgap : y - h - 20 * pt <> y) by (units; lia).
  destruct (bar_chart_result E data x y w h t kf vf)
    as [Hb | (l & v & m & a & Hb)];
    destruct (pie_chart_result E data x y w h t kf vf)
      as [Hp | (pv & pl & pf & Hp)];
    subst bar pie; rewrite Hb, Hp; cbn [fst snd].
  - split; [now left|]. split; [now left|]. split; split; reflexivity.
  - split; [now left|]. split; [right; now eexists|].
    split; split; try reflexivity; intros H; try discriminate H.
    now destruct Hgap.
  - split; [right; now eexists|]. split; [now left|].
    split; split; try reflexivity; intros H; try discriminate H.
    now destruct Hgap.
  - split; [right; now eexists|]. split; [right; now eexists|].
    split; split; intros H; try discriminate H; now destruct Hgap.
Qed.

(** Twenty rows, 200 pt high at 20 cm: the bar chart moves the cursor, the
    pie chart, asked for a field no row has, leaves it. *)
Lemma chart_cursor_tells_witness :
  0 <= 200 * pt
  /\ snd (_create_bar_chart sample_env (QList twenty_rows) (2 * cm) (20 * cm)
            (17 * cm) (200 * pt) "Data Overview" None None) <> 20 * cm
  /\ fst (_create_pie_chart sample_env (QList twenty_rows) (2 * cm) (20 * cm)
            (17 * cm) (200 * pt) "Top Items Distribution" None
            (Some "units")) = [].
Proof.
  assert (Hh : 0 <= 200 * pt) by (vm_compute; discriminate).
  split; [exact Hh|]. split.
  - intros Hy.
    apply (proj1 (proj2 (proj2
             (chart_cursor_tells sample_env (QList twenty_rows) (2 * cm)
                (20 * cm) (17 * cm) (200 * pt) "Data Overview" None None
                Hh)))) in Hy.
    vm_compute in Hy. discriminate Hy.
  - apply (proj2 (proj2 (proj2
             (chart_cursor_tells sample_env (QList twenty_rows) (2 * cm)
                (20 * cm) (17 * cm) (200 * pt) "Top Items Distribution" None
                (Some "units") Hh)))).
    reflexivity.
Defined.
(** ** Calls that are neither a chart, nor a table, nor [save] *)

Lemma basic_app (a b : list op) : basic (a ++ b) = basic a && basic b.
Proof. apply forallb_app. Qed.

Lemma basic_count (p : op -> bool) (ops : list op) :
  (forall o, p o = true -> is_basic o = false) ->
  basic ops = true -> count p ops = 0%nat.
Proof.
  intros Hp. unfold basic, count.
  induction ops as [|o ops IH]; cbn; [reflexivity|].
  intros H. apply andb_prop in H as [Ho Hops].
  destruct (p o) eqn:Hpo; [rewrite (Hp o Hpo) in Ho; discriminate|].
  now apply IH.
Qed.

Lemma table_not_basic (o : op) : is_table o = true -> is_basic o = false.
Proof. now destruct o. Qed.

Lemma save_not_basic (o : op) : is_save o = true -> is_basic o = false.
Proof. now destruct o. Qed.

Lemma chart_not_basic (o : op) : is_chart o = true -> is_basic o = false.
Proof. now destruct o. Qed.

Ltac basic_parts :=
  repeat (rewrite basic_app; apply andb_true_intro; split);
  try reflexivity.

Lemma draw_wrapped_basic (tx dy : Z) (lines : list string) (y : Z) :
  basic (fst (draw_wrapped tx dy lines y)) = true.
Proof.
  revert y; induction lines as [|line rest IH]; intros y; [reflexivity|].
  cbn [draw_wrapped]. specialize (IH (y - 14 * pt)).
  destruct (draw_wrapped tx dy rest (y - 14 * pt)). exact IH.
Qed.

Lemma header_basic (today t : string) (w h : Z) :
  basic (fst (_draw_header today t w h)) = true.
Proof. reflexivity. Qed.

Lemma section_entry_basic (threshold y : Z) :
  basic (fst (section_entry threshold y)) = true.
Proof. unfold section_entry. now destruct (y <? threshold). Qed.

Section Basic.

Variable E : PyEnv.

Lemma summary_basic (r : ReportModel) (x y : Z) :
  basic (fst (stage_summary E r x y)) = true.
Proof.
  unfold stage_summary.
  destruct (String.eqb (executive_summary r) ""); [reflexivity|].
  pose proof (draw_wrapped_basic x 0
                (firstn 3 (textwrap_wrap E (executive_summary r) 80))
                (y - 20 * pt)) as H.
  destruct (draw_wrapped _ _ _ _) as [lines y']. cbn [fst] in *.
  change (basic (lines ++ [SetFillColor "black"]) = true).
  now basic_parts.
Qed.

Lemma card_content_basic (m : pyitem) (cx cy : Z) :
  basic (card_content E m cx cy) = true.
Proof.
  destruct m as [[|[k v] [|[k2 v2] d]]|]; reflexivity.
Qed.

Lemma cards_loop_basic (x : Z) (ms : list pyitem) :
  forall i sy, basic (fst (cards_loop E x i ms sy)) = true.
Proof.
  induction ms as [|m rest IH]; intros i sy; [reflexivity|].
  cbn [cards_loop]. destruct (card_place i sy) as [[brk sy'] cy].
  specialize (IH (S i) sy'). destruct (cards_loop E x (S i) rest sy').
  cbn [fst] in *. basic_parts.
  - now destruct brk.
  - apply card_content_basic.
  - exact IH.
Qed.

Lemma metric_cards_basic (ms : list pyitem) (x y w : Z) :
  basic (fst (_draw_metric_cards E ms x y w)) = true.
Proof.
  unfold _draw_metric_cards. destruct ms as [|m rest]; [reflexivity|].
  pose proof (cards_loop_basic x (firstn 10 (m :: rest)) 0 (y - 25 * pt)) as H.
  destruct (cards_loop _ _ _ _ _). exact H.
Qed.

Lemma metrics_basic (r : ReportModel) (x y : Z) :
  basic (fst (stage_metrics E r x y)) = true.
Proof.
  unfold stage_metrics. destruct (key_metrics r) as [|m ms]; [reflexivity|].
  pose proof (section_entry_basic (10 * cm) y) as He.
  destruct (section_entry (10 * cm) y) as [eo y1].
  pose proof (metric_cards_basic (map IDict (m :: ms)) x y1 page_width) as Hc.
  destruct (_draw_metric_cards _ _ _ _ _). cbn [fst] in *.
  now basic_parts.
Qed.

Lemma insight_item_basic (x : Z) (i : nat) (item : insight) (y : Z) :
  basic (fst (insight_item E x i item y)) = true.
Proof.
  unfold insight_item.
  pose proof (draw_wrapped_basic (x + 25 * pt) (8 * pt)
                (textwrap_wrap E (insight_text E item) 90) y) as H.
  destruct (draw_wrapped _ _ _ _). exact H.
Qed.

Lemma insights_loop_basic (x : Z) (items : list insight) :
  forall i y, basic (fst (insights_loop E x i items y)) = true.
Proof.
  induction items as [|item rest IH]; intros i y; [reflexivity|].
  cbn [insights_loop].
  set (y1 := if y <? 5 * cm then page_top - 20 * pt else y).
  pose proof (insight_item_basic x i item y1) as Hi.
  destruct (insight_item E x i item y1) as [io y2].
  specialize (IH (S i) y2). destruct (insights_loop E x (S i) rest y2).
  cbn [fst] in *. basic_parts; try assumption.
  now destruct (y <? 5 * cm).
Qed.

Lemma insights_basic (r : ReportModel) (x y : Z) :
  basic (fst (stage_insights E r x y)) = true.
Proof.
  unfold stage_insights, _draw_insights_section.
  destruct (insights r) as [|item rest]; [reflexivity|].
  pose proof (section_entry_basic (10 * cm) y) as He.
  destruct (section_entry (10 * cm) y) as [eo y1].
  pose proof (insights_loop_basic x (firstn 8 (item :: rest)) 1
                (y1 - 20 * pt)) as Hl.
  destruct (insights_loop _ _ _ _ _). cbn [fst] in *.
  now basic_parts.
Qed.

Lemma finding_item_basic (x : Z) (f : string) (y : Z) :
  basic (fst (finding_item E x f y)) = true.
Proof.
  unfold finding_item.
  pose proof (draw_wrapped_basic (x + 15 * pt) (5 * pt)
                (textwrap_wrap E f 85) y) as H.
  destruct (draw_wrapped _ _ _ _). exact H.
Qed.

Lemma findings_loop_basic (x : Z) (items : list string) :
  forall y, basic (fst (findings_loop E x items y)) = true.
Proof.
  induction items as [|item rest IH]; intros y; [reflexivity|].
  cbn [findings_loop].
  set (y1 := if y <? 4 * cm then page_top - 20 * pt else y).
  pose proof (finding_item_basic x item y1) as Hi.
  destruct (finding_item E x item y1) as [io y2].
  specialize (IH y2). destruct (findings_loop E x rest y2).
  cbn [fst] in *. basic_parts; try assumption.
  now destruct (y <? 4 * cm).
Qed.

Lemma findings_basic (r : ReportModel) (x y : Z) :
  basic (fst (stage_findings E r x y)) = true.
Proof.
  unfold stage_findings.
  destruct (findings r) as [|item rest]; [reflexivity|].
  pose proof (section_entry_basic (8 * cm) y) as He.
  destruct (section_entry (8 * cm) y) as [eo y1].
  pose proof (findings_loop_basic x (firstn 10 (item :: rest))
                (y1 - 20 * pt)) as Hl.
  destruct (findings_loop _ _ _ _). cbn [fst] in *.
  now basic_parts.
Qed.

Lemma recommendation_item_basic (x : Z) (f : string) (y : Z) :
  basic (fst (recommendation_item E x f y)) = true.
Proof.
  unfold recommendation_item.
  pose proof (draw_wrapped_basic (x + 20 * pt) (5 * pt)
                (textwrap_wrap E f 85) y) as H.
  destruct (draw_wrapped _ _ _ _). exact H.
Qed.

Lemma recommendations_loop_basic (x : Z) (items : list string) :
  forall y, basic (fst (recommendations_loop E x items y)) = true.
Proof.
  induction items as [|item rest IH]; intros y; [reflexivity|].
  cbn [recommendations_loop].
  set (y1 := if y <? 4 * cm then page_top - 20 * pt else y).
  pose proof (recommendation_item_basic x item y1) as Hi.
  destruct (recommendation_item E x item y1) as [io y2].
  specialize (IH y2). destruct (recommendations_loop E x rest y2).
  cbn [fst] in *. basic_parts; try assumption.
  now destruct (y <? 4 * cm).
Qed.

Lemma recommendations_basic (r : ReportModel) (x y : Z) :
  basic (fst (stage_recommendations E r x y)) = true.
Proof.
  unfold stage_recommendations.
  destruct (recommendations r) as [|item rest]; [reflexivity|].
  pose proof (section_entry_basic (8 * cm) y) as He.
  destruct (section_entry (8 * cm) y) as [eo y1].
  pose proof (recommendations_loop_basic x (firstn 8 (item :: rest))
                (y1 - 20 * pt)) as Hl.
  destruct (recommendations_loop _ _ _ _). cbn [fst] in *.
  now basic_parts.
Qed.

Lemma column_tail_basic (nx : Z) (lines : list string) :
  forall y, basic (fst (column_tail nx lines y)) = true.
Proof.
  induction lines as [|line rest IH]; intros y; [reflexivity|].
  cbn [column_tail]. specialize (IH (y - 12 * pt)).
  destruct (column_tail nx rest (y - 12 * pt)). exact IH.
Qed.

Lemma column_loop_basic (fx nx : Z) (mark : string) (w : Z)
  (items : list string) :
  forall y, basic (fst (column_loop E fx nx mark w items y)) = true.
Proof.
  induction items as [|item rest IH]; intros y; [reflexivity|].
  cbn [column_loop]. destruct (textwrap_wrap E item w) as [|line0 more];
    [apply IH|].
  pose proof (column_tail_basic nx more (y - 12 * pt)) as Ht.
  destruct (column_tail nx more (y - 12 * pt)) as [tops y1].
  specialize (IH (y1 - 3 * pt)). destruct (column_loop E fx nx mark w rest _).
  cbn [fst] in *.
  change (basic ([DrawString fx y (mark ++ line0)] ++ tops ++ l) = true).
  now basic_parts.
Qed.

Lemma column_basic (items : list string) (hx fx nx : Z)
  (color heading mark : string) (y lowest : Z) :
  basic (fst (column E items hx fx nx color heading mark y lowest)) = true.
Proof.
  unfold column. destruct items as [|item rest]; [reflexivity|].
  pose proof (column_loop_basic fx nx mark 40 (firstn 5 (item :: rest))
                (y - 18 * pt)) as H.
  destruct (column_loop _ _ _ _ _ _ _). exact H.
Qed.

Lemma columns_block_basic (r : ReportModel) (x y : Z) :
  basic (fst (columns_block E r x y)) = true.
Proof.
  unfold columns_block.
  pose proof (section_entry_basic (10 * cm) y) as He.
  destruct (section_entry (10 * cm) y) as [eo y1].
  pose proof (column_basic (limitations r) x (x + 5 * pt) (x + 12 * pt)
                "#E67E22" "Limitations" "• " y1 y1) as Hl.
  destruct (column E (limitations r) _ _ _ _ _ _ _ _) as [lo l1].
  cbv zeta.
  match goal with
  | |- context [column E (next_steps r) ?hx ?fx ?nx ?c ?h ?m ?a ?b] =>
      pose proof (column_basic (next_steps r) hx fx nx c h m a b) as Hr;
      destruct (column E (next_steps r) hx fx nx c h m a b) as [ro l2]
  end.
  cbn [fst] in *. now basic_parts.
Qed.

Lemma columns_basic (r : ReportModel) (x y : Z) :
  basic (fst (stage_columns E r x y)) = true.
Proof.
  unfold stage_columns.
  destruct (limitations r), (next_steps r); try reflexivity;
    apply columns_block_basic.
Qed.

Lemma footer_basic (r : ReportModel) (x : Z) :
  basic (footer r x) = true.
Proof. reflexivity. Qed.

End Basic.
(** ** The composer as a whole *)

Lemma count_chart_only (p : op -> bool) (d : chart) (x y : Z) :
  (forall o, p o = true -> is_basic o = true \/ is_table o = true
                           \/ is_save o = true) ->
  count p [DrawChart d x y] = 0%nat.
Proof.
  intros Hp. unfold count; cbn.
  destruct (p (DrawChart d x y)) eqn:H; [| reflexivity].
  destruct (Hp _ H) as [H' | [H' | H']]; discriminate H'.
Qed.

(** The chart stage taken apart: at most one bar chart, then at most one
    pie chart, and 220 pt of cursor for each. *)
Lemma chart_stage_shape_aux (E : PyEnv) (qd : pydata) (ct : string)
  (x y : Z) :
  exists bars pies : list op,
    stage_charts E qd ct x y
    = (bars ++ pies, y - 220 * pt * Z.of_nat (List.length (bars ++ pies)))
    /\ (bars = []
        \/ exists labels values vmax angle,
            bars = [DrawChart
                      (BarChart (page_width - 2 * x) (200 * pt)
                         "Data Distribution" labels values vmax angle)
                      x (y - 200 * pt)])
    /\ (pies = []
        \/ exists values labels fills,
            pies = [DrawChart
                      (PieChart (page_width - 2 * x) (200 * pt)
                         "Top Items Distribution" values labels fills)
                      x (y - 220 * pt * Z.of_nat (List.length bars)
                         - 200 * pt)]).
Proof.
  assert (Hnone : exists bars pies : list op,
             (@nil op, y)
             = (bars ++ pies,
                y - 220 * pt * Z.of_nat (List.length (bars ++ pies)))
             /\ (bars = []
                 \/ exists labels values vmax angle,
                     bars = [DrawChart
                               (BarChart (page_width - 2 * x) (200 * pt)
                                  "Data Distribution" labels values vmax angle)
                               x (y - 200 * pt)])
             /\ (pies = []
                 \/ exists values labels fills,
                     pies = [DrawChart
                               (PieChart (page_width - 2 * x) (200 * pt)
                                  "Top Items Distribution" values labels fills)
                               x (y - 220 * pt * Z.of_nat (List.length bars)
                                  - 200 * pt)])).
  { exists [], []. split; [cbn; f_equal; lia|]. split; now left. }
  unfold stage_charts.
  destruct (String.eqb ct "None"); [exact Hnone|].
  destruct qd as [|[|[d0|] rest]| |]; try exact Hnone.
  destruct (find_numeric_field d0) as [nf|]; [| exact Hnone].
  destruct (String.eqb nf ""); [exact Hnone|].
  clear Hnone.
  set (rows := IDict d0 :: rest).
  assert (Hbar : exists bars,
             (if in_names ct ["Auto"; "Bar"; "Both"]
                 && (List.length rows <=? 15)%nat
              then _create_bar_chart E (QList rows) x y (page_width - 2 * x)
                     (200 * pt) "Data Distribution" None (Some nf)
              else ([], y))
             = (bars, y - 220 * pt * Z.of_nat (List.length bars))
             /\ (bars = []
                 \/ exists labels values vmax angle,
                     bars = [DrawChart
                               (BarChart (page_width - 2 * x) (200 * pt)
                                  "Data Distribution" labels values vmax angle)
                               x (y - 200 * pt)])).
  { destruct (_ && _).
    - destruct (bar_chart_result E (QList rows) x y (page_width - 2 * x)
                  (200 * pt) "Data Distribution" None (Some nf))
        as [H | (l & v & m & a & H)]; rewrite H.
      + exists []. split; [cbn; f_equal; lia | now left].
      + eexists. split; [| right; now eexists _, _, _, _].
        cbn [List.length]. f_equal. units. lia.
    - exists []. split; [cbn; f_equal; lia | now left]. }
  destruct Hbar as (bars & -> & Hbars).
  set (y1 := y - 220 * pt * Z.of_nat (List.length bars)).
  assert (Hpie : exists pies,
             (if in_names ct ["Auto"; "Pie"; "Both"]
                 && (3 <=? List.length rows)%nat
              then _create_pie_chart E (QList (firstn 8 rows)) x y1
                     (page_width - 2 * x) (200 * pt) "Top Items Distribution"
                     None (Some nf)
              else ([], y1))
             = (pies, y1 - 220 * pt * Z.of_nat (List.length pies))
             /\ (pies = []
                 \/ exists values labels fills,
                     pies = [DrawChart
                               (PieChart (page_width - 2 * x) (200 * pt)
                                  "Top Items Distribution" values labels fills)
                               x (y1 - 200 * pt)])).
  { destruct (_ && _).
    - destruct (pie_chart_result E (QList (firstn 8 rows)) x y1
                  (page_width - 2 * x) (200 * pt) "Top Items Distribution"
                  None (Some nf))
        as [H | (v & l & f & H)]; rewrite H.
      + exists []. split; [cbn; f_equal; lia | now left].
      + eexists. split; [| right; now eexists _, _, _].
        cbn [List.length]. f_equal. units. lia.
    - exists []. split; [cbn; f_equal; lia | now left]. }
  destruct Hpie as (pies & -> & Hpies).
  exists bars, pies. split; [| split; [exact Hbars | exact Hpies]].
  f_equal. rewrite length_app. subst y1. lia.
Qed.

Lemma stage_charts_plain (E : PyEnv) (p : op -> bool) (qd : pydata)
  (ct : string) (x y : Z) :
  (forall o, p o = true -> is_basic o = true \/ is_table o = true
                           \/ is_save o = true) ->
  count p (fst (stage_charts E qd ct x y)) = 0%nat.
Proof.
  intros Hp.
  destruct (chart_stage_shape_aux E qd ct x y) as (bars & pies & -> & Hb & Hp').
  cbn [fst]. rewrite count_app.
  destruct Hb as [-> | (l & v & m & a & ->)];
    destruct Hp' as [-> | (pv & pl & pf & ->)];
    rewrite ?(count_chart_only p _ _ _ Hp); reflexivity.
Qed.

Lemma cons_eq_inv {A : Type} (a b : A) (l m : list A) :
  a :: l = b :: m -> a = b /\ l = m.
Proof. intros H. split; congruence. Qed.

(** X7.  The chart stage, whatever the data and the policy.  The stage
    draws nothing but charts, at most one bar chart and at most one pie
    chart, the bar chart first.  Each starts at the left margin; the first
    has its lower edge 200 pt under the cursor, a pie chart that follows a
    bar chart is 220 pt further down.  The cursor goes down 220 pt for each
    chart drawn and stays where it was when none is. *)
Theorem chart_stage_layout (E : PyEnv) (qd : pydata) (ct : string)
  (x y : Z) :
  let ops := fst (stage_charts E qd ct x y) in
  let y' := snd (stage_charts E qd ct x y) in
  forallb is_chart ops = true
  /\ (count is_bar ops <= 1)%nat
  /\ (count is_pie ops <= 1)%nat
  /\ List.length ops = (count is_bar ops + count is_pie ops)%nat
  /\ y' = y - 220 * pt * Z.of_nat (List.length ops)
  /\ (forall d cx cy rest, ops = DrawChart d cx cy :: rest ->
      cx = x /\ cy = y - 200 * pt)
  /\ (forall o d cx cy rest, ops = o :: DrawChart d cx cy :: rest ->
      is_bar o = true /\ is_pie (DrawChart d cx cy) = true /\ rest = []
      /\ cx = x /\ cy = y - 420 * pt).
Proof.
  intros ops y'. subst ops y'.
  destruct (chart_stage_shape_aux E qd ct x y) as (bars & pies & -> & Hb & Hp).
  cbn [fst snd]. rewrite !count_app.
  destruct Hb as [-> | (l & v & m & a & ->)];
    destruct Hp as [-> | (pv & pl & pf & ->)]; cbn [app List.length];
    (split; [reflexivity|]);
    (split; [cbn; lia|]); (split; [cbn; lia|]); (split; [reflexivity|]);
    (split; [reflexivity|]); split.
  - intros; discriminate.
  - intros; discriminate.
  - intros d cx cy rest Heq. apply cons_eq_inv in Heq as [Heq _].
    assert (Hx : x = cx) by congruence.
    assert (Hy : y - 220 * pt * Z.of_nat 0 - 200 * pt = cy) by congruence.
    split; [now symmetry | lia].
  - intros o d cx cy rest Heq. apply cons_eq_inv in Heq as [_ Heq].
    discriminate Heq.
  - intros d cx cy rest Heq. apply cons_eq_inv in Heq as [Heq _].
    assert (Hx : x = cx) by congruence.
    assert (Hy : y - 200 * pt = cy) by congruence.
    split; now symmetry.
  - intros o d cx cy rest Heq. apply cons_eq_inv in Heq as [_ Heq].
    discriminate Heq.
  - intros d cx cy rest Heq. apply cons_eq_inv in Heq as [Heq _].
    assert (Hx : x = cx) by congruence.
    assert (Hy : y - 200 * pt = cy) by congruence.
    split; now symmetry.
  - intros o d cx cy rest Heq. apply cons_eq_inv in Heq as [Ho Heq].
    apply cons_eq_inv in Heq as [Heq Hrest].
    assert (Hx : x = cx) by congruence.
    assert (Hy : y - 220 * pt * Z.of_nat 1 - 200 * pt = cy) by congruence.
    assert (Hd : is_pie (DrawChart d cx cy) = true) by (now rewrite <- Heq).
    subst o. split; [reflexivity|]. split; [exact Hd|].
    split; [now symmetry|]. split; [now symmetry | lia].
Qed.

(** *** When the render fails, and what a render that completes holds *)


(** The table stage draws one table when row 0 is a dict, none otherwise,
    and never saves. *)
Lemma stage_table_counts (E : PyEnv) (qd : pydata) (x y : Z) (ops : list op)
  (y' : Z) :
  stage_table E qd x y = Some (ops, y') ->
  count is_save ops = 0%nat
  /\ count is_table ops = (if first_row_dict qd then 1 else 0)%nat.
Proof.
  unfold stage_table.
  destruct qd as [|[|first rest]| |];
    try (intros H; assert (Ho : ops = []) by congruence; now subst ops).
  pose proof (section_entry_basic (10 * cm) y) as He.
  destruct (section_entry (10 * cm) y) as [eo y1]. cbn [fst] in He.
  destruct (_draw_styled_table E (QList (first :: rest)) x y1 page_width
              "Detailed Results" 15) as [[tops ty]|] eqn:Ht; [| discriminate].
  intros H. assert (Ho : ops = eo ++ tops) by congruence. subst ops.
  rewrite !count_app,
    (basic_count is_save eo save_not_basic He),
    (basic_count is_table eo table_not_basic He).
  destruct first as [d0|]; cbn [first_row_dict].
  - destruct (styled_table_drawn E d0 rest x y1 page_width "Detailed Results"
                15 tops ty Ht) as (body & _ & _ & Hops & _).
    cbv zeta in Hops. rewrite Hops, !count_app.
    change (String.eqb "Detailed Results" "") with false. cbv iota.
    destruct (_ <? 2 * cm); destruct (15 <? _)%nat; split; reflexivity.
  - unfold _draw_styled_table in Ht.
    change (String.eqb "Detailed Results" "") with false in Ht. cbv iota in Ht.
    assert (Ho : tops = table_title_ops x y1 "Detailed Results") by congruence.
    subst tops. split; reflexivity.
Qed.

(** A render that completes, taken apart. *)
Lemma render_parts (E : PyEnv) (today : string) (report : ReportModel)
  (qd : pydata) (ct : string) (all : list op) :
  _write_visual_pdf E today report qd ct = Some all ->
  exists y1 y3 before charts between table after,
    all = fst (_draw_header today (title report) page_width page_height)
          ++ (before ++ charts ++ between ++ table ++ after)
          ++ footer report (2 * cm) ++ [Save]
    /\ basic before = true /\ basic between = true /\ basic after = true
    /\ charts = fst (stage_charts E qd ct (2 * cm) y1)
    /\ exists y4, stage_table E qd (2 * cm) y3 = Some (table, y4).
Proof.
  unfold _write_visual_pdf, body.
  destruct (_draw_header today (title report) page_width page_height)
    as [o0 y0].
  pose proof (summary_basic E report (2 * cm) y0) as H1.
  destruct (stage_summary E report (2 * cm) y0) as [o1 y1].
  destruct (stage_charts E qd ct (2 * cm) y1) as [o2 y2] eqn:Hc.
  pose proof (metrics_basic E report (2 * cm) y2) as H3.
  destruct (stage_metrics E report (2 * cm) y2) as [o3 y3].
  destruct (stage_table E qd (2 * cm) y3) as [[o4 y4]|] eqn:H4;
    [| discriminate].
  pose proof (insights_basic E report (2 * cm) y4) as H5.
  destruct (stage_insights E report (2 * cm) y4) as [o5 y5].
  pose proof (findings_basic E report (2 * cm) y5) as H6.
  destruct (stage_findings E report (2 * cm) y5) as [o6 y6].
  pose proof (recommendations_basic E report (2 * cm) y6) as H7.
  destruct (stage_recommendations E report (2 * cm) y6) as [o7 y7].
  pose proof (columns_basic E report (2 * cm) y7) as H8.
  destruct (stage_columns E report (2 * cm) y7) as [o8 y8].
  set (ft := footer report (2 * cm)) in *. clearbody ft.
  cbn [fst] in *. intros H.
  assert (Hall : all = o0 ++ (o1 ++ o2 ++ o3 ++ o4 ++ o5 ++ o6 ++ o7 ++ o8)
                       ++ ft ++ [Save]) by congruence.
  exists y1, y3, o1, o2, o3, o4, (o5 ++ o6 ++ o7 ++ o8).
  split; [exact Hall|]. split; [exact H1|]. split; [exact H3|].
  split; [now basic_parts|]. split; [now rewrite Hc|]. now exists y4.
Qed.





(** X9.  The frame of a render that completes.  The calls start with the
    header and end with the footer and one [save], which is the only one;
    between them there is one table when the data is a list whose row 0 is
    a dict and none otherwise, and at most two charts. *)
Theorem render_frame (E : PyEnv) (today : string) (report : ReportModel)
  (qd : pydata) (ct : string) (all : list op)
  (Hok : _write_visual_pdf E today report qd ct = Some all) :
  (exists middle,
      all = fst (_draw_header today (title report) page_width page_height)
            ++ middle ++ footer report (2 * cm) ++ [Save]
      /\ count is_save middle = 0%nat)
  /\ count is_save all = 1%nat
  /\ count is_table all = (if first_row_dict qd then 1 else 0)%nat
  /\ (count is_chart all <= 2)%nat.
Proof.
  destruct (render_parts E today report qd ct all Hok)
    as (y1 & y3 & o1 & o2 & o3 & o4 & o5 & Hall & H1 & H3 & H5 & Hc
        & y4 & H4).
  destruct (stage_table_counts E qd (2 * cm) y3 o4 y4 H4) as [Hs4 Ht4].
  pose proof (header_basic today (title report) page_width page_height) as H0.
  pose proof (footer_basic report (2 * cm)) as H9.
  set (hd := fst (_draw_header today (title report) page_width page_height))
    in *.
  set (ft := footer report (2 * cm)) in *. clearbody hd ft.
  assert (Hplain : forall p,
             (forall o, p o = true -> is_basic o = false) ->
             count p hd = 0%nat /\ count p o1 = 0%nat /\ count p o3 = 0%nat
             /\ count p o5 = 0%nat /\ count p ft = 0%nat).
  { intros p Hp. now rewrite !(basic_count p _ Hp). }
  assert (Hcs : count is_save o2 = 0%nat).
  { rewrite Hc. apply stage_charts_plain. intros o Ho. now right; right. }
  assert (Hct : count is_table o2 = 0%nat).
  { rewrite Hc. apply stage_charts_plain. intros o Ho. now right; left. }
  destruct (Hplain is_save save_not_basic) as (S0 & S1 & S3 & S5 & S9).
  destruct (Hplain is_table table_not_basic) as (T0 & T1 & T3 & T5 & T9).
  destruct (Hplain is_chart chart_not_basic) as (C0 & C1 & C3 & C5 & C9).
  split; [| split; [| split]].
  - exists (o1 ++ o2 ++ o3 ++ o4 ++ o5). split; [exact Hall|].
    rewrite !count_app. lia.
  - rewrite Hall, !count_app, S0, S1, Hcs, S3, Hs4, S5, S9. reflexivity.
  - rewrite Hall, !count_app, T0, T1, Hct, T3, Ht4, T5, T9.
    change (count is_table [Save]) with 0%nat. lia.
  - assert (C4 : count is_chart o4 = 0%nat).
    { apply chartless_count; [trivial|].
      apply (table_chartless E qd (2 * cm) y3 o4 y4 H4). }
    assert (C2 : (count is_chart o2 <= 2)%nat).
    { rewrite Hc.
      destruct (chart_stage_shape_aux E qd ct (2 * cm) y1)
        as (bars & pies & -> & Hb & Hp).
      cbn [fst]. rewrite count_app.
      destruct Hb as [-> | (l & v & m & a & ->)];
        destruct Hp as [-> | (pv & pl & pf & ->)]; cbn; lia. }
    rewrite Hall, !count_app, C0, C1, C3, C4, C5, C9.
    change (count is_chart [Save]) with 0%nat. lia.
Qed.

(** Twenty rows and the policy ["Both"]: the render completes, with one
    [save] and one table. *)
Lemma render_frame_witness :
  exists all,
    _write_visual_pdf sample_env "November 03, 2026" quarterly_report
      (QList twenty_rows) "Both" = Some all
    /\ count is_save all = 1%nat
    /\ count is_table all = 1%nat.
Proof.
  destruct (_write_visual_pdf sample_env "November 03, 2026" quarterly_report
              (QList twenty_rows) "Both") as [all|] eqn:Hok;
    [| vm_compute in Hok; discriminate Hok].
  exists all. split; [reflexivity|].
  pose proof (render_frame sample_env "November 03, 2026" quarterly_report
                (QList twenty_rows) "Both" all Hok) as (_ & Hs & Ht & _).
  split; [exact Hs | exact Ht].
Defined.
(** ** The sections of the composer *)

(** *** The summary box *)

Lemma draw_wrapped_cursor (tx dy : Z) (lines : list string) :
  forall y,
    snd (draw_wrapped tx dy lines y)
    = y - 14 * pt * Z.of_nat (List.length lines).
Proof.
  induction lines as [|line rest IH]; intros y.
  - cbn. lia.
  - cbn [draw_wrapped]. specialize (IH (y - 14 * pt)).
    destruct (draw_wrapped tx dy rest (y - 14 * pt)) as [ops y'].
    cbn [snd] in *. rewrite IH. cbn [List.length]. lia.
Qed.

Lemma draw_wrapped_length (tx dy : Z) (lines : list string) :
  forall y,
    List.length (fst (draw_wrapped tx dy lines y)) = List.length lines.
Proof.
  induction lines as [|line rest IH]; intros y; [reflexivity|].
  cbn [draw_wrapped]. specialize (IH (y - 14 * pt)).
  destruct (draw_wrapped tx dy rest (y - 14 * pt)) as [ops y'].
  cbn [fst List.length] in *. now rewrite IH.
Qed.

(** Line [k] of the text is drawn [14 k] points under the first. *)
Lemma draw_wrapped_lines (tx dy : Z) (lines : list string) :
  forall y o,
    In o (fst (draw_wrapped tx dy lines y))
    <-> exists k line,
        nth_error lines k = Some line
        /\ o = DrawString tx (y - dy - 14 * pt * Z.of_nat k) line.
Proof.
  induction lines as [|line rest IH]; intros y o.
  - cbn. split; [intros [] | intros (k & l & H & _)]. now destruct k.
  - cbn [draw_wrapped]. specialize (IH (y - 14 * pt) o).
    destruct (draw_wrapped tx dy rest (y - 14 * pt)) as [ops y'].
    cbn [fst] in *. split.
    + intros [<- | Hin].
      * exists 0%nat, line. split; [reflexivity|]. f_equal. lia.
      * apply IH in Hin as (k & l & Hk & ->).
        exists (S k), l. split; [exact Hk|]. f_equal. lia.
    + intros ([|k] & l & Hk & ->).
      * left. cbn in Hk. assert (line = l) by congruence. subst l.
        f_equal. lia.
      * right. apply IH. exists k, l. split; [exact Hk|]. f_equal. lia.
Qed.

Lemma count_all (p : op -> bool) (ops : list op) :
  forallb p ops = true -> count p ops = List.length ops.
Proof.
  unfold count. induction ops as [|o ops IH]; cbn; [reflexivity|].
  intros H. apply andb_prop in H as [-> Hops]. cbn. now rewrite IH.
Qed.

(** X10.  The summary box.  A summary that is not empty moves the cursor
    down 70 pt whatever its length and never turns the page.  Of the lines
    the text wraps to, the first three are drawn, 14 pt apart from 20 pt
    under the cursor, and the others are dropped; so every line drawn has
    its baseline inside the box, which spans from 60 pt to 10 pt under the
    cursor. *)
Theorem summary_box (E : PyEnv) (report : ReportModel) (x y : Z)
  (Hs : executive_summary report <> "") :
  let wrapped := textwrap_wrap E (executive_summary report) 80 in
  let ops := fst (stage_summary E report x y) in
  snd (stage_summary E report x y) = y - 70 * pt
  /\ count is_show_page ops = 0%nat
  /\ count is_text ops = Nat.min 3 (List.length wrapped)
  /\ (forall k line,
         (k < 3)%nat -> nth_error wrapped k = Some line ->
         In (DrawString x (y - 20 * pt - 14 * pt * Z.of_nat k) line) ops)
  /\ (forall tx ty line,
         In (DrawString tx ty line) ops ->
         tx = x /\ y - 60 * pt <= ty <= y - 10 * pt /\ In line wrapped)
  /\ In (RoundRect (x - 10 * pt) (y - 60 * pt) (page_width - 2 * x + 20 * pt)
           (50 * pt) (5 * pt) true true) ops.
Proof.
  intros wrapped ops. subst ops. unfold stage_summary.
  rewrite (eqb_empty_false _ Hs). fold wrapped.
  pose proof (draw_wrapped_text x 0 (firstn 3 wrapped) (y - 20 * pt)) as Htext.
  pose proof (draw_wrapped_length x 0 (firstn 3 wrapped) (y - 20 * pt))
    as Hlen.
  pose proof (draw_wrapped_lines x 0 (firstn 3 wrapped) (y - 20 * pt))
    as Hlines.
  destruct (draw_wrapped x 0 (firstn 3 wrapped) (y - 20 * pt))
    as [lines yl]. cbn [fst snd] in *.
  rewrite length_firstn in Hlen.
  split; [reflexivity|]. split; [| split; [| split; [| split]]].
  - rewrite !count_app.
    rewrite (count_text_only is_show_page lines text_not_show_page Htext).
    reflexivity.
  - rewrite !count_app, (count_all is_text lines Htext), Hlen.
    cbn. lia.
  - intros k line Hk Hnth. apply in_or_app. right. apply in_or_app. left.
    apply Hlines. exists k, line. split.
    + rewrite nth_error_firstn.
      destruct (k <? 3)%nat eqn:Hb; [exact Hnth|].
      apply Nat.ltb_ge in Hb. lia.
    + f_equal. lia.
  - intros tx ty line Hin.
    apply in_app_or in Hin as [Hin | Hin].
    { do 7 (destruct Hin as [Hin | Hin]; [discriminate Hin|]).
      destruct Hin. }
    apply in_app_or in Hin as [Hin | [Hin | []]]; [| discriminate Hin].
    apply Hlines in Hin as (k & l & Hk & Heq).
    assert (Hk3 : (k < 3)%nat).
    { assert (Hsome : nth_error (firstn 3 wrapped) k <> None) by congruence.
      apply nth_error_Some in Hsome. rewrite length_firstn in Hsome. lia. }
    assert (Hl : In l wrapped).
    { apply nth_error_In in Hk. rewrite <- (firstn_skipn 3 wrapped).
      apply in_or_app. now left. }
    assert (Htx : tx = x) by congruence.
    assert (Hty : ty = y - 20 * pt - 0 - 14 * pt * Z.of_nat k) by congruence.
    assert (Hline : line = l) by congruence.
    subst line. split; [exact Htx|]. split; [units; lia | exact Hl].
  - apply in_or_app. left. right. now left.
Qed.

(** The summary of the quarterly report, entered at 26 cm. *)
Lemma summary_box_witness :
  executive_summary quarterly_report <> ""
  /\ snd (stage_summary sample_env quarterly_report (2 * cm) (26 * cm))
     = 26 * cm - 70 * pt.
Proof.
  assert (Hs : executive_summary quarterly_report <> "") by discriminate.
  split; [exact Hs|].
  exact (proj1 (summary_box sample_env quarterly_report (2 * cm) (26 * cm)
                  Hs)).
Defined.

(** *** The two closing columns *)

Lemma column_tail_cursor (nx : Z) (lines : list string) :
  forall y,
    snd (column_tail nx lines y) = y - 12 * pt * Z.of_nat (List.length lines).
Proof.
  induction lines as [|line rest IH]; intros y.
  - cbn. lia.
  - cbn [column_tail]. specialize (IH (y - 12 * pt)).
    destruct (column_tail nx rest (y - 12 * pt)) as [ops y'].
    cbn [snd] in *. rewrite IH. cbn [List.length]. lia.
Qed.

Lemma column_tail_text (nx : Z) (lines : list string) :
  forall y, forallb is_text (fst (column_tail nx lines y)) = true.
Proof.
  induction lines as [|line rest IH]; intros y; [reflexivity|].
  cbn [column_tail]. specialize (IH (y - 12 * pt)).
  destruct (column_tail nx rest (y - 12 * pt)). exact IH.
Qed.

Lemma column_loop_cursor (E : PyEnv) (fx nx : Z) (mark : string) (w : Z)
  (items : list string) :
  forall y,
    snd (column_loop E fx nx mark w items y)
    = y - sum_Z (map (column_item_height E w) items).
Proof.
  induction items as [|item rest IH]; intros y.
  - cbn. lia.
  - cbn [column_loop map sum_Z fold_right]. unfold column_item_height at 1.
    destruct (textwrap_wrap E item w) as [|line0 more].
    + rewrite IH. unfold sum_Z. lia.
    + pose proof (column_tail_cursor nx more (y - 12 * pt)) as Ht.
      destruct (column_tail nx more (y - 12 * pt)) as [tops y1].
      cbn [snd] in Ht. specialize (IH (y1 - 3 * pt)).
      destruct (column_loop E fx nx mark w rest (y1 - 3 * pt)) as [ops y2].
      cbn [snd] in *. rewrite IH, Ht. unfold sum_Z. cbn [List.length]. lia.
Qed.

Lemma column_loop_text (E : PyEnv) (fx nx : Z) (mark : string) (w : Z)
  (items : list string) :
  forall y, forallb is_text (fst (column_loop E fx nx mark w items y)) = true.
Proof.
  induction items as [|item rest IH]; intros y; [reflexivity|].
  cbn [column_loop]. destruct (textwrap_wrap E item w) as [|line0 more];
    [apply IH|].
  pose proof (column_tail_text nx more (y - 12 * pt)) as Ht.
  destruct (column_tail nx more (y - 12 * pt)) as [tops y1].
  specialize (IH (y1 - 3 * pt)).
  destruct (column_loop E fx nx mark w rest (y1 - 3 * pt)) as [ops y2].
  cbn [fst] in *. cbn [forallb is_text andb].
  rewrite forallb_app, Ht, IH. reflexivity.
Qed.

Lemma column_item_height_nonneg (E : PyEnv) (w : Z) (item : string) :
  0 <= column_item_height E w item.
Proof.
  unfold column_item_height. destruct (textwrap_wrap E item w); [lia|].
  units. lia.
Qed.

Lemma sum_heights_nonneg (E : PyEnv) (w : Z) (items : list string) :
  0 <= sum_Z (map (column_item_height E w) items).
Proof.
  induction items as [|item rest IH]; [cbn; lia|].
  cbn [map sum_Z fold_right]. fold (sum_Z (map (column_item_height E w) rest)).
  pose proof (column_item_height_nonneg E w item). lia.
Qed.

Lemma column_drop_nonneg (E : PyEnv) (items : list string) :
  0 <= column_drop E items.
Proof.
  unfold column_drop. destruct items as [|item rest]; [lia|].
  pose proof (sum_heights_nonneg E 40 (firstn 5 (item :: rest))).
  units. lia.
Qed.

(** One column: its end and its page turns. *)
Lemma column_end (E : PyEnv) (items : list string) (hx fx nx : Z)
  (color heading mark : string) (y lowest : Z) :
  lowest <= y ->
  snd (column E items hx fx nx color heading mark y lowest)
  = Z.min lowest (y - column_drop E items)
  /\ count is_show_page
       (fst (column E items hx fx nx color heading mark y lowest)) = 0%nat
  /\ (items <> [] ->
      In (DrawString hx y heading)
        (fst (column E items hx fx nx color heading mark y lowest))).
Proof.
  intros Hlow. unfold column, column_drop.
  destruct items as [|item rest].
  - cbn [fst snd]. split; [lia|]. split; [reflexivity|]. now intros H.
  - pose proof (column_loop_cursor E fx nx mark 40 (firstn 5 (item :: rest))
                  (y - 18 * pt)) as Hc.
    pose proof (column_loop_text E fx nx mark 40 (firstn 5 (item :: rest))
                  (y - 18 * pt)) as Ht.
    destruct (column_loop E fx nx mark 40 (firstn 5 (item :: rest))
                (y - 18 * pt)) as [ops ty].
    cbn [fst snd] in *. split; [rewrite Hc; f_equal; lia|]. split.
    + rewrite count_app,
        (count_text_only is_show_page ops text_not_show_page Ht).
      reflexivity.
    + intros _. apply in_or_app. left. right. right. now left.
Qed.

(** X11.  The closing columns.  When the report has limitations or next
    steps, the two columns start side by side at the cursor the section is
    entered with, each under its heading, and the cursor handed on is 10 pt
    under the longer one: a column takes 18 pt for its heading and, for
    each of its first five items, 12 pt a line of the wrapped text and 3 pt
    more, an item that wraps to no line taking nothing.  The page is turned
    on entering the section or not at all: however long the columns are,
    none is carried over to a new page. *)
Theorem closing_columns (E : PyEnv) (report : ReportModel) (x y : Z)
  (Hany : limitations report <> [] \/ next_steps report <> []) :
  let y1 := snd (section_entry (10 * cm) y) in
  let col_width := (page_width - 2 * x) / 2 - 20 * pt in
  let ops := fst (stage_columns E report x y) in
  snd (stage_columns E report x y)
  = y1 - Z.max (column_drop E (limitations report))
           (column_drop E (next_steps report)) - 10 * pt
  /\ count is_show_page ops = (if (y <? 10 * cm)%Z then 1 else 0)%nat
  /\ (limitations report <> [] -> In (DrawString x y1 "Limitations") ops)
  /\ (next_steps report <> [] ->
      In (DrawString (x + col_width + 40 * pt) y1 "Next Steps") ops).
Proof.
  intros y1 col_width ops.
  assert (Hblock : stage_columns E report x y = columns_block E report x y).
  { unfold stage_columns.
    destruct (limitations report), (next_steps report); try reflexivity.
    now destruct Hany. }
  subst ops. rewrite Hblock. clear Hblock. unfold columns_block.
  fold col_width. subst y1.
  assert (He : count is_show_page (fst (section_entry (10 * cm) y))
               = (if (y <? 10 * cm)%Z then 1 else 0)%nat).
  { unfold section_entry. now destruct (y <? 10 * cm). }
  destruct (section_entry (10 * cm) y) as [eo y1]. cbn [fst snd] in *.
  destruct (column_end E (limitations report) x (x + 5 * pt) (x + 12 * pt)
              "#E67E22" "Limitations" "• " y1 y1 (Z.le_refl y1))
    as (Hl & Hlp & Hlh).
  destruct (column E (limitations report) x (x + 5 * pt) (x + 12 * pt)
              "#E67E22" "Limitations" "• " y1 y1) as [lo low1].
  cbn [fst snd] in *.
  pose proof (column_drop_nonneg E (limitations report)) as Hdl.
  pose proof (column_drop_nonneg E (next_steps report)) as Hdr.
  assert (Hlow : low1 <= y1) by lia.
  destruct (column_end E (next_steps report) (x + col_width + 40 * pt)
              (x + col_width + 45 * pt) (x + col_width + 52 * pt)
              "#8E44AD" "Next Steps" "→ " y1 low1 Hlow)
    as (Hr & Hrp & Hrh).
  destruct (column E (next_steps report) (x + col_width + 40 * pt)
              (x + col_width + 45 * pt) (x + col_width + 52 * pt)
              "#8E44AD" "Next Steps" "→ " y1 low1) as [ro low2].
  cbn [fst snd] in *.
  split; [lia|]. split; [rewrite !count_app; lia|]. split.
  - intros H. apply in_or_app. right. apply in_or_app. left. now apply Hlh.
  - intros H. apply in_or_app. right. apply in_or_app. right. now apply Hrh.
Qed.

(** The quarterly report has one limitation of one line and no next step:
    the block ends 43 pt under the cursor it is entered with. *)
Lemma closing_columns_witness :
  (limitations quarterly_report <> [] \/ next_steps quarterly_report <> [])
  /\ snd (stage_columns sample_env quarterly_report (2 * cm) (12 * cm))
     = 12 * cm - 15 * pt - 33 * pt - 10 * pt.
Proof.
  assert (Hany : limitations quarterly_report <> []
                 \/ next_steps quarterly_report <> [])
    by (left; discriminate).
  split; [exact Hany|].
  rewrite (proj1 (closing_columns sample_env quarterly_report (2 * cm)
                    (12 * cm) Hany)).
  reflexivity.
Defined.

(** *** The first item of a list section *)

(** The cursor a section is entered with is never under its threshold by
    more than 15 pt. *)
Lemma section_entry_floor (threshold y : Z) :
  threshold <= page_top ->
  threshold - 15 * pt <= snd (section_entry threshold y).
Proof.
  intros Ht. unfold section_entry.
  destruct (y <? threshold) eqn:Hb; cbn [snd].
  - units. lia.
  - apply Z.ltb_ge in Hb. units. lia.
Qed.

(** X12.  No heading left alone.  In the composer a list section is
    entered with the cursor at 10 cm or higher (insights) or 8 cm or higher
    (findings, recommendations), or else from the top of a new page; so its
    first item is always drawn right under the heading, 20 pt below it,
    and a page break with a ["(continued)"] title can only come before a
    later item. *)
Theorem first_item_under_heading (E : PyEnv) (report : ReportModel)
  (x y : Z) :
  (forall i rest,
      insights report = i :: rest ->
      let y1 := snd (section_entry (10 * cm) y) in
      exists more,
        fst (stage_insights E report x y)
        = fst (section_entry (10 * cm) y)
          ++ section_title x y1 "#2C3E50" "Key Insights"
          ++ fst (insight_item E x 1 i (y1 - 20 * pt)) ++ more)
  /\ (forall f rest,
         findings report = f :: rest ->
         let y1 := snd (section_entry (8 * cm) y) in
         exists more,
           fst (stage_findings E report x y)
           = fst (section_entry (8 * cm) y)
             ++ section_title x y1 "#2C3E50" "Detailed Findings"
             ++ fst (finding_item E x f (y1 - 20 * pt)) ++ more)
  /\ (forall r rest,
         recommendations report = r :: rest ->
         let y1 := snd (section_entry (8 * cm) y) in
         exists more,
           fst (stage_recommendations E report x y)
           = fst (section_entry (8 * cm) y)
             ++ section_title x y1 "#27AE60" "Recommendations"
             ++ fst (recommendation_item E x r (y1 - 20 * pt)) ++ more).
Proof.
  split; [| split].
  - intros i rest Hi y1. subst y1.
    unfold stage_insights, _draw_insights_section. rewrite Hi.
    pose proof (section_entry_floor (10 * cm) y ltac:(units; lia)) as Hf.
    destruct (section_entry (10 * cm) y) as [eo y1]. cbn [fst snd] in *.
    rewrite firstn_cons. cbn [insights_loop].
    assert (Hb : (y1 - 20 * pt <? 5 * cm) = false)
      by (apply Z.ltb_ge; units; lia).
    rewrite Hb.
    destruct (insight_item E x 1 i (y1 - 20 * pt)) as [io y2].
    destruct (insights_loop E x 2 (firstn 7 rest) y2) as [lo y3].
    cbn [fst app]. exists (lo ++ [SetFillColor "black"]).
    unfold section_title. cbn [app]. now rewrite <- !app_assoc.
  - intros f rest Hf' y1. subst y1.
    unfold stage_findings. rewrite Hf'.
    pose proof (section_entry_floor (8 * cm) y ltac:(units; lia)) as Hf.
    destruct (section_entry (8 * cm) y) as [eo y1]. cbn [fst snd] in *.
    rewrite firstn_cons. cbn [findings_loop].
    assert (Hb : (y1 - 20 * pt <? 4 * cm) = false)
      by (apply Z.ltb_ge; units; lia).
    rewrite Hb.
    destruct (finding_item E x f (y1 - 20 * pt)) as [io y2].
    destruct (findings_loop E x (firstn 9 rest) y2) as [lo y3].
    cbn [fst app]. now exists lo.
  - intros r rest Hr y1. subst y1.
    unfold stage_recommendations. rewrite Hr.
    pose proof (section_entry_floor (8 * cm) y ltac:(units; lia)) as Hf.
    destruct (section_entry (8 * cm) y) as [eo y1]. cbn [fst snd] in *.
    rewrite firstn_cons. cbn [recommendations_loop].
    assert (Hb : (y1 - 20 * pt <? 4 * cm) = false)
      by (apply Z.ltb_ge; units; lia).
    rewrite Hb.
    destruct (recommendation_item E x r (y1 - 20 * pt)) as [io y2].
    destruct (recommendations_loop E x (firstn 7 rest) y2) as [lo y3].
    cbn [fst app]. exists (lo ++ [SetFillColor "black"]).
    now rewrite <- !app_assoc.
Qed.

(** The findings of the quarterly report, entered at 5 cm: the page is
    turned, and the first finding follows the heading. *)
Lemma first_item_under_heading_witness :
  exists more,
    fst (stage_findings sample_env quarterly_report (2 * cm) (5 * cm))
    = [ShowPage]
      ++ section_title (2 * cm) page_top "#2C3E50" "Detailed Findings"
      ++ fst (finding_item sample_env (2 * cm) "North grew fastest."
                (page_top - 20 * pt))
      ++ more.
Proof.
  exact (proj1 (proj2 (first_item_under_heading sample_env quarterly_report
                         (2 * cm) (5 * cm)))
           "North grew fastest." ["South is flat."] eq_refl).
Defined.

(** *** The pages of the metric cards *)

Lemma card_content_pages (E : PyEnv) (m : pyitem) (cx cy : Z) :
  count is_show_page (card_content E m cx cy) = 0%nat.
Proof. destruct m as [[|[k v] [|[k2 v2] d]]|]; reflexivity. Qed.

(** The page turns of the cards are those of their placements. *)
Lemma cards_ops_pages (E : PyEnv) (x : Z) (ms : list pyitem) :
  forall i places,
    List.length places = List.length ms ->
    count is_show_page (cards_ops E x i ms places) = breaks_of places.
Proof.
  unfold breaks_of.
  induction ms as [|m rest IH]; intros i [|p places] Hlen;
    try discriminate Hlen; [reflexivity|].
  cbn [cards_ops filter]. unfold card_ops.
  rewrite !count_app, card_content_pages, IH by (cbn in Hlen; lia).
  destruct (place_break p); reflexivity.
Qed.

Lemma plain_places_no_break (sy : Z) (js : list nat) :
  breaks_of (map (plain_place sy) js) = 0%nat.
Proof.
  unfold breaks_of. induction js as [|j js IH]; [reflexivity|].
  cbn [map filter plain_place place_break fst]. exact IH.
Qed.

(** Cards that all fit under [sy] are placed without a break. *)
Lemma card_places_plain (n : nat) :
  forall i sy,
    (forall j, (i <= j < i + n)%nat -> settled j sy) ->
    card_places i n sy = map (plain_place sy) (seq i n).
Proof.
  induction n as [|n IH]; intros i sy Hall; [reflexivity|].
  cbn [card_places seq map].
  rewrite card_place_settled by (apply Hall; lia).
  rewrite IH by (intros j Hj; apply Hall; lia).
  reflexivity.
Qed.

Lemma card_row_le (i j : nat) : (i <= j)%nat -> card_row i <= card_row j.
Proof.
  intros H. unfold card_row, cards_per_row.
  apply Nat2Z.inj_le, Nat.Div0.div_le_mono, H.
Qed.

(** X13.  The pages of the metric cards in the composer.  The metrics
    section turns the page at most once: on entering, when the cursor is
    under 10 cm, and then no card overflows; or, entered higher up, before
    one row of cards.  Up to four metrics, two rows, are never split: they
    are all drawn on the page of the heading. *)
Theorem metrics_stage_pages (E : PyEnv) (report : ReportModel) (x y : Z)
  (Hm : key_metrics report <> []) :
  let ops := fst (stage_metrics E report x y) in
  let n := List.length (key_metrics report) in
  (count is_show_page ops <= 1)%nat
  /\ (y < 10 * cm -> count is_show_page ops = 1%nat)
  /\ ((n <= 4)%nat ->
      count is_show_page ops = (if (y <? 10 * cm)%Z then 1 else 0)%nat).
Proof.
  intros ops n. subst ops. unfold stage_metrics.
  destruct (key_metrics report) as [|m ms] eqn:Hk; [now contradiction Hm|].
  clear Hm.
  assert (Hn : List.length (IDict m :: map IDict ms) = n)
    by (subst n; cbn [List.length]; now rewrite length_map).
  clearbody n.
  assert (He : section_entry (10 * cm) y
               = if y <? 10 * cm then ([ShowPage], page_top)
                 else ([], y - 15 * pt)) by reflexivity.
  destruct (section_entry (10 * cm) y) as [eo y1].
  unfold _draw_metric_cards. cbn [map].
  set (metrics := IDict m :: map IDict ms) in *.
  set (cards := firstn 10 metrics).
  pose proof (cards_loop_places E x cards 0 (y1 - 25 * pt)) as Hl.
  destruct (cards_loop E x 0 cards (y1 - 25 * pt)) as [cops fin].
  cbn [fst] in *.
  assert (Hc : List.length cards = Nat.min 10 n)
    by (unfold cards; now rewrite length_firstn, Hn).
  assert (Hp : count is_show_page cops
               = breaks_of (card_places 0 (List.length cards)
                              (y1 - 25 * pt))).
  { rewrite Hl. apply cards_ops_pages. apply card_places_length. }
  rewrite !count_app, Hp.
  change (count is_show_page
            [SetFont "Helvetica-Bold" 14; SetFillColor "#2C3E50";
             DrawString x y1 "Key Metrics"; SetFillColor "black"])
    with 0%nat.
  assert (Htop : y1 = page_top ->
                 breaks_of (card_places 0 (List.length cards)
                              (y1 - 25 * pt)) = 0%nat).
  { intros ->. rewrite card_places_plain; [apply plain_places_no_break|].
    intros j Hj. assert (Hj10 : (j < 10)%nat) by lia.
    pose proof (card_row_bound j Hj10). lengths. lia. }
  assert (Hfew : (n <= 4)%nat -> 10 * cm - 15 * pt <= y1 ->
                 breaks_of (card_places 0 (List.length cards)
                              (y1 - 25 * pt)) = 0%nat).
  { intros Hn4 Hy1.
    rewrite card_places_plain; [apply plain_places_no_break|].
    intros j Hj. assert (Hj4 : (j <= 3)%nat) by lia.
    pose proof (card_row_le j 3 Hj4) as Hr.
    change (card_row 3) with 1 in Hr.
    assert (H0 : 0 <= card_row j) by (unfold card_row; lia).
    lengths. lia. }
  assert (Hone : (breaks_of (card_places 0 (List.length cards)
                               (y1 - 25 * pt)) <= 1)%nat).
  { destruct (card_places_shape (List.length cards) 0 (y1 - 25 * pt)
                ltac:(lia) (metric_start_settled _))
      as [-> | (k & _ & _ & ->)].
    - rewrite plain_places_no_break. lia.
    - unfold breaks_of. rewrite filter_app, length_app.
      fold (breaks_of (map (plain_place (y1 - 25 * pt)) (seq 0 k))).
      rewrite plain_places_no_break.
      cbn [filter break_place place_break fst List.length].
      fold (breaks_of (map (plain_place page_top)
                         (seq (S (0 + k)) (List.length cards - k - 1)))).
      rewrite plain_places_no_break. lia. }
  destruct (y <? 10 * cm) eqn:Hb.
  - assert (Heo : eo = [ShowPage]) by congruence.
    assert (Hy1 : y1 = page_top) by congruence.
    rewrite Heo, (Htop Hy1).
    change (count is_show_page [ShowPage]) with 1%nat.
    split; [lia|]. split; reflexivity.
  - assert (Heo : eo = []) by congruence.
    assert (Hy1 : y1 = y - 15 * pt) by congruence.
    apply Z.ltb_ge in Hb. rewrite Heo.
    change (count is_show_page []) with 0%nat.
    split; [lia|]. split; [lia|].
    intros Hn4. rewrite Hfew; [reflexivity | exact Hn4 | lia].
Qed.

(** The one metric of the quarterly report, entered at 12 cm: no page is
    turned. *)
Lemma metrics_stage_pages_witness :
  key_metrics quarterly_report <> []
  /\ count is_show_page
       (fst (stage_metrics sample_env quarterly_report (2 * cm) (12 * cm)))
     = 0%nat.
Proof.
  assert (Hm : key_metrics quarterly_report <> []) by discriminate.
  split; [exact Hm|].
  refine (proj2 (proj2 (metrics_stage_pages sample_env quarterly_report
                          (2 * cm) (12 * cm) Hm)) _).
  cbn. lia.
Defined.
(** ** The component: [build_pdf], [build_info], the file name and the
    query data *)


(** X15.  [build_info] beside [build_pdf].  [build_info] fails only on
    query data that is true and has no length.  Whenever [build_pdf] gives
    a summary, [build_info] gives one too, with the same counts of metrics,
    findings and insights; its [data_rows] is the number [build_pdf]
    reports, and 0 where [build_pdf] leaves the key out, so it is positive
    exactly when [has_charts] is true.  [has_query_data] only says that the
    data is not [None]: it is true for an empty list. *)
Theorem build_info_beside_build_pdf (E : PyEnv) (today : string)
  (report : ReportModel) (qd : pydata) (ct : string) :
  (build_info report qd = None <-> qd = QScalar true)
  /\ (forall summary,
         build_pdf E today report qd ct = Some summary ->
         exists i,
           build_info report qd = Some i
           /\ ReportInfo.metrics_count i = metrics_count summary
           /\ ReportInfo.findings_count i = total_findings summary
           /\ ReportInfo.insights_count i = total_insights summary
           /\ ReportInfo.data_rows i
              = match data_rows summary with
                | Some n => n
                | None => 0%nat
                end
           /\ ((0 < ReportInfo.data_rows i)%nat
               <-> has_charts summary = true)
           /\ (ReportInfo.has_query_data i = false <-> qd = QNone)).
Proof.
  split.
  - unfold build_info.
    destruct qd as [|[|r rows]|[|n]|[|]]; cbn [py_not py_len negb Nat.eqb];
      split; congruence || discriminate.
  - unfold build_pdf, build_info.
    destruct (_write_visual_pdf E today report qd ct) as [ops|];
      [| discriminate].
    destruct qd as [|[|r rows]|[|n]|[|]];
      cbn [py_not py_len negb Nat.eqb option_map is_not_none];
      intros summary H; try discriminate H;
      (eexists; split; [reflexivity|]);
      assert (Hs := f_equal (fun o => match o with
                                      | Some s => s
                                      | None => summary
                                      end) H);
      cbv beta iota in Hs; subst summary; cbn;
      repeat split; congruence || lia || discriminate.
Qed.


(** The quarterly report with twenty rows: both summaries, with the same
    count of metrics and 20 rows. *)
Lemma build_info_beside_build_pdf_witness :
  exists summary i,
    build_pdf sample_env "May 01, 2026" quarterly_report (QList twenty_rows)
      "Auto" = Some summary
    /\ build_info quarterly_report (QList twenty_rows) = Some i
    /\ ReportInfo.metrics_count i = metrics_count summary
    /\ ReportInfo.data_rows i = 20%nat.
Proof.
  destruct (build_pdf sample_env "May 01, 2026" quarterly_report
              (QList twenty_rows) "Auto") as [summary|] eqn:Hb;
    [| vm_compute in Hb; discriminate Hb].
  destruct (proj2 (build_info_beside_build_pdf sample_env "May 01, 2026"
                     quarterly_report (QList twenty_rows) "Auto") summary Hb)
    as (i & Hi & Hm & _).
  exists summary, i. split; [reflexivity|]. split; [exact Hi|].
  split; [exact Hm|].
  assert (Hi' : Some i = build_info quarterly_report (QList twenty_rows))
    by (now symmetry).
  vm_compute in Hi'. now inversion Hi'.
Defined.

(** *** The output file name *)

Lemma drop_spaces_clean (l : list ascii) : clean (drop_spaces l).
Proof.
  induction l as [|c l IH]; [exact I|].
  cbn [drop_spaces]. destruct (is_space c) eqn:Hc; [exact IH | exact Hc].
Qed.

Lemma clean_fixed (l : list ascii) : clean l -> drop_spaces l = l.
Proof. destruct l as [|c l]; [reflexivity|]. cbn. now intros ->. Qed.

(** What [lstrip] drops is a prefix. *)
Lemma drop_spaces_suffix (l : list ascii) :
  exists blanks, l = blanks ++ drop_spaces l.
Proof.
  induction l as [|c l [blanks IH]]; [now exists []|].
  cbn [drop_spaces]. destruct (is_space c).
  - exists (c :: blanks). cbn. now rewrite <- IH.
  - now exists [].
Qed.

Lemma clean_prefix (l m : list ascii) : clean (l ++ m) -> l <> [] -> clean l.
Proof. destruct l as [|c l]; [now intros _ H | now intros H _]. Qed.

(** A text [strip] leaves alone starts and ends with no blank. *)
Lemma strip_chars_clean (l : list ascii) :
  clean (strip_chars l) /\ clean (rev (strip_chars l)).
Proof.
  unfold strip_chars. rewrite rev_involutive. split.
  - destruct (drop_spaces_suffix (rev (drop_spaces l))) as [blanks Hb].
    pose proof (drop_spaces_clean l) as Hc.
    apply (f_equal (@rev ascii)) in Hb.
    rewrite rev_involutive, rev_app_distr in Hb. rewrite Hb in Hc.
    destruct (rev (drop_spaces (rev (drop_spaces l)))) as [|c r] eqn:Hr;
      [exact I|].
    now apply (clean_prefix (c :: r) (rev blanks)).
  - apply drop_spaces_clean.
Qed.

Lemma strip_chars_fixed (l : list ascii) :
  clean l -> clean (rev l) -> strip_chars l = l.
Proof.
  intros H1 H2. unfold strip_chars.
  now rewrite (clean_fixed l H1), (clean_fixed _ H2), rev_involutive.
Qed.

Lemma starts_with_app (p l : list ascii) : starts_with p (p ++ l) = true.
Proof.
  induction p as [|c p IH]; [reflexivity|].
  cbn [app starts_with]. now rewrite Ascii.eqb_refl, IH.
Qed.

Lemma str_of_chars (s : string) :
  string_of_list_ascii (list_ascii_of_string s) = s.
Proof. apply string_of_list_ascii_of_string. Qed.

Lemma endswith_pdf_appended (name : string) :
  py_endswith (py_lower (name ++ ".pdf")) ".pdf" = true.
Proof.
  unfold py_endswith, py_lower.
  rewrite chars_of_list, chars_app, map_app, rev_app_distr.
  apply starts_with_app.
Qed.

Lemma or_default_some (t : string) :
  or_default (Some t) = if String.eqb t "" then "report.pdf" else t.
Proof. reflexivity. Qed.

(** The name before the suffix is looked at: the stripped text, or
    ["report.pdf"] for a blank one. *)
Lemma stem_clean (file_name : option string) :
  let name := or_default (Some (py_strip (or_default file_name))) in
  name <> ""
  /\ clean (list_ascii_of_string name)
  /\ clean (rev (list_ascii_of_string name)).
Proof.
  cbv zeta. rewrite or_default_some.
  destruct (String.eqb (py_strip (or_default file_name)) "") eqn:He.
  - split; [intros H; discriminate H|]. split; reflexivity.
  - apply String.eqb_neq in He. split; [exact He|].
    unfold py_strip. rewrite chars_of_list. apply strip_chars_clean.
Qed.

(** X16.  The output file name.  Whatever the input holds, the name the
    PDF is written under ends with [".pdf"] in some spelling of upper and
    lower case, starts and ends with no blank, and is a name the function
    keeps as it is; a missing, empty or blank input gives
    ["report.pdf"]. *)
Theorem output_file_name_pdf (file_name : option string) :
  let name := output_file_name file_name in
  py_endswith (py_lower name) ".pdf" = true
  /\ py_strip name = name
  /\ output_file_name (Some name) = name
  /\ (py_strip (or_default file_name) = "" -> name = "report.pdf").
Proof.
  cbv zeta.
  destruct (stem_clean file_name) as (Hne & Hc1 & Hc2). cbv zeta in *.
  set (stem := or_default (Some (py_strip (or_default file_name)))) in *.
  assert (Hdef : output_file_name file_name
                 = if py_endswith (py_lower stem) ".pdf" then stem
                   else (stem ++ ".pdf")%string) by reflexivity.
  assert (Hblank : py_strip (or_default file_name) = "" -> stem = "report.pdf").
  { intros H. subst stem. now rewrite H. }
  clearbody stem. rewrite Hdef. clear Hdef.
  set (name := if py_endswith (py_lower stem) ".pdf" then stem
               else (stem ++ ".pdf")%string).
  assert (Hend : py_endswith (py_lower name) ".pdf" = true).
  { subst name. destruct (py_endswith (py_lower stem) ".pdf") eqn:He;
      [exact He | apply endswith_pdf_appended]. }
  assert (Hclean : clean (list_ascii_of_string name)
                   /\ clean (rev (list_ascii_of_string name))).
  { subst name. destruct (py_endswith (py_lower stem) ".pdf"); [now split|].
    rewrite chars_app, rev_app_distr. split; [| reflexivity].
    destruct (list_ascii_of_string stem); [reflexivity | exact Hc1]. }
  assert (Hstrip : py_strip name = name).
  { unfold py_strip.
    rewrite (strip_chars_fixed _ (proj1 Hclean) (proj2 Hclean)).
    apply str_of_chars. }
  assert (Hsome : name <> "").
  { subst name. destruct (py_endswith (py_lower stem) ".pdf"); [exact Hne|].
    destruct stem; discriminate. }
  split; [exact Hend|]. split; [exact Hstrip|]. split.
  - unfold output_file_name.
    rewrite (or_default_some name), (eqb_empty_false name Hsome), Hstrip,
      (or_default_some name), (eqb_empty_false name Hsome), Hend.
    reflexivity.
  - intros H. subst name. now rewrite (Hblank H).
Qed.

(** A name given in capitals with blanks around it is kept without the
    blanks; a name without the suffix gets it. *)
Lemma output_file_name_pdf_witness :
  output_file_name (Some "  Sales Q3.PDF ") = "Sales Q3.PDF"
  /\ output_file_name (Some "sales") = "sales.pdf"
  /\ output_file_name (Some (output_file_name (Some "sales"))) = "sales.pdf"
  /\ output_file_name (Some "   ") = "report.pdf".
Proof.
  split; [reflexivity|]. split; [reflexivity|]. split.
  - exact (proj1 (proj2 (proj2 (output_file_name_pdf (Some "sales"))))).
  - exact (proj2 (proj2 (proj2 (output_file_name_pdf (Some "   ")))) eq_refl).
Defined.

(** *** The query data *)

Lemma rows_of_json_holds (json_loads : string -> option payload) (s : string)
  (rows : list pyitem) :
  rows_of_json json_loads s = QList rows
  <-> exists parsed, json_loads s = Some parsed /\ holds rows parsed.
Proof.
  unfold rows_of_json, holds. split.
  - destruct (json_loads s) as [[[results|]|l|t|]|]; cbn [rows_of_parsed];
      intros H; try discriminate H.
    + eexists. split; [reflexivity|]. right. now rewrite H.
    + eexists. split; [reflexivity|]. left. congruence.
  - intros (parsed & -> & [-> | ->]); reflexivity.
Qed.

(** Rows that are delivered, and are not an empty bare list, are what
    [_get_query_data] returns. *)
Lemma delivered_rows (json_loads : string -> option payload)
  (q : query_input) (rows : list pyitem) :
  delivers json_loads rows q -> q <> InBare (PayList []) ->
  _get_query_data json_loads q = QList rows.
Proof.
  intros [ | | | s parsed Hs Hj Hh | s parsed Hj Hh] Hq;
    cbn [_get_query_data]; try reflexivity.
  - destruct rows; [now contradiction Hq | reflexivity].
  - rewrite (eqb_empty_false s Hs). apply rows_of_json_holds. now exists parsed.
  - apply rows_of_json_holds. now exists parsed.
Qed.

(** X17.  Which inputs give which rows.  [_get_query_data] returns the
    list [rows] exactly when [query_results] hands it over in one of these
    ways: as the list itself, bare or in a [Data]; in a [Data], as a dict
    with the list under ['results']; or as JSON text that decodes to the
    list or to such a dict, bare or in a [Data].  The one exception is a
    bare empty list, which is false to Python and gives [None]; a bare dict
    is never looked into. *)
Theorem query_data_rows (json_loads : string -> option payload)
  (q : query_input) (rows : list pyitem) :
  _get_query_data json_loads q = QList rows
  <-> delivers json_loads rows q /\ q <> InBare (PayList []).
Proof.
  split; [| intros [Hd Hq]; now apply delivered_rows].
  destruct q as [|[[results|]|l|s|]|[[results|]|l|s|]];
    cbn [_get_query_data]; intros H; try discriminate H.
  - rewrite H. split; [constructor | discriminate].
  - assert (l = rows) by congruence. subst l.
    split; [constructor | discriminate].
  - apply rows_of_json_holds in H as (parsed & Hj & Hh).
    split; [now apply (by_text _ _ s parsed) | discriminate].
  - destruct l as [|r l]; [discriminate H|].
    assert (r :: l = rows) by congruence. subst rows.
    split; [constructor | discriminate].
  - destruct (String.eqb s "") eqn:Hs; [discriminate H|].
    apply String.eqb_neq in Hs.
    apply rows_of_json_holds in H as (parsed & Hj & Hh).
    split; [now apply (by_text_bare _ _ s parsed) | discriminate].
Qed.


(** ** The batched inserts of [create_database] *)

Lemma waiting_next (i : Z) :
  0 <= i ->
  ((i mod 10000 =? 0) && (0 <? i) = true ->
   waiting (i + 1) = 0
   /\ waiting i + 1 = (if i <=? 10000 then 10001 else 10000))
  /\ ((i mod 10000 =? 0) && (0 <? i) = false ->
      waiting (i + 1) = waiting i + 1 /\ waiting (i + 1) <= 10000).
Proof.
  intros Hi. unfold waiting.
  pose proof (Z.mod_pos_bound i 10000 ltac:(lia)) as Hm.
  pose proof (Z.mod_pos_bound (i - 1) 10000 ltac:(lia)) as Hm1.
  pose proof (Z.div_mod i 10000 ltac:(lia)) as Hd.
  pose proof (Z.div_mod (i - 1) 10000 ltac:(lia)) as Hd1.
  replace (i + 1 - 1) with i by lia.
  split.
  - intros H. apply andb_prop in H as [H0 Hpos].
    apply Z.eqb_eq in H0. apply Z.ltb_lt in Hpos.
    destruct (i <=? 10000) eqn:Hle;
      [apply Z.leb_le in Hle | apply Z.leb_gt in Hle].
    + assert (i = 10000) by nia. subst i.
      destruct (10000 + 1 <=? 10000) eqn:H'; [apply Z.leb_le in H'; lia|].
      split; [reflexivity | lia].
    + destruct (i + 1 <=? 10000) eqn:H'; [apply Z.leb_le in H'; lia|].
      split; [exact H0|]. nia.
  - intros H. apply andb_false_iff in H.
    assert (Hcase : i = 0 \/ i mod 10000 <> 0).
    { destruct H as [H | H]; [right; now apply Z.eqb_neq in H|].
      left. apply Z.ltb_ge in H. lia. }
    clear H.
    destruct (i <=? 10000) eqn:Hle;
      [apply Z.leb_le in Hle | apply Z.leb_gt in Hle];
      (destruct (i + 1 <=? 10000) eqn:H';
       [apply Z.leb_le in H' | apply Z.leb_gt in H']); try lia.
    all: destruct Hcase as [H | H]; [lia|].
    all: try (assert (i = 10000) by lia; subst i; now contradiction H).
    all: nia.
Qed.

Lemma waiting_bound (i : Z) : 0 <= i -> 0 <= waiting i <= 10000.
Proof.
  intros Hi. unfold waiting.
  pose proof (Z.mod_pos_bound (i - 1) 10000 ltac:(lia)).
  destruct (i <=? 10000) eqn:Hle; [apply Z.leb_le in Hle|]; lia.
Qed.

(** The loop from any index on inserts the waiting rows and the rows to
    come, in order, in batches of the right sizes. *)
Lemma insert_batches_inv {A : Type} (rows : list A) :
  forall (i : Z) (data : list A),
    0 <= i -> Z.of_nat (List.length data) = waiting i ->
    List.concat (insert_batches i rows data) = data ++ rows
    /\ batch_sizes_ok (if i <=? 10000 then 10001 else 10000)
         (insert_batches i rows data).
Proof.
  induction rows as [|row rest IH]; intros i data Hi Hw.
  - cbn [insert_batches]. pose proof (waiting_bound i Hi) as Hb.
    destruct data as [|a data].
    + split; [reflexivity | exact I].
    + cbn [List.concat]. split; [now rewrite !app_nil_r|].
      cbn [batch_sizes_ok]. split; [| constructor].
      destruct (i <=? 10000); cbn [List.length] in *; lia.
  - cbn [insert_batches].
    destruct (waiting_next i Hi) as [Hflush Hkeep].
    destruct ((i mod 10000 =? 0) && (0 <? i)) eqn:Hc.
    + destruct (Hflush eq_refl) as [Hw0 Hsize].
      destruct (IH (i + 1) [] ltac:(lia) ltac:(now rewrite Hw0))
        as [Hcat Hok].
      cbn [List.concat]. rewrite Hcat. cbn [app].
      split; [now rewrite <- app_assoc|].
      cbn [batch_sizes_ok]. split.
      * rewrite length_app. cbn [List.length].
        destruct (i <=? 10000); lia.
      * assert (Hi1 : (i + 1 <=? 10000) = false).
        { apply Z.leb_gt. apply andb_prop in Hc as [H0 Hpos].
          apply Z.eqb_eq in H0. apply Z.ltb_lt in Hpos.
          pose proof (Z.div_mod i 10000 ltac:(lia)). nia. }
        rewrite Hi1 in Hok.
        destruct (insert_batches (i + 1) rest []) as [|b bs];
          [constructor|].
        destruct Hok as [Hb Hbs]. now constructor.
    + destruct (Hkeep eq_refl) as [Hw1 Hle].
      destruct (IH (i + 1) (data ++ [row]) ltac:(lia)) as [Hcat Hok].
      { rewrite length_app. cbn [List.length]. lia. }
      split; [now rewrite Hcat, <- app_assoc|].
      destruct (insert_batches (i + 1) rest (data ++ [row])) as [|b bs];
        [exact I|].
      destruct Hok as [Hb Hbs]. cbn [batch_sizes_ok]. split; [| exact Hbs].
      destruct (i <=? 10000) eqn:H1; destruct (i + 1 <=? 10000) eqn:H2;
        lia.
Qed.

(** The first flush comes with row 10000, the 10001st. *)
Lemma first_batch_waits {A : Type} (rows : list A) :
  forall (i : Z) (data : list A),
    0 <= i -> Z.of_nat (List.length data) = i ->
    i + Z.of_nat (List.length rows) <= 10000 ->
    insert_batches i rows data
    = match data ++ rows with
      | [] => []
      | _ :: _ => [data ++ rows]
      end.
Proof.
  induction rows as [|row rest IH]; intros i data Hi Hd Hn.
  - cbn [insert_batches]. rewrite app_nil_r. reflexivity.
  - cbn [insert_batches].
    assert (Hc : (i mod 10000 =? 0) && (0 <? i) = false).
    { apply andb_false_iff.
      destruct (Z.eq_dec i 0) as [-> | Hne]; [now right|]. left.
      apply Z.eqb_neq. rewrite Z.mod_small; cbn [List.length] in Hn; lia. }
    rewrite Hc, IH; cbn [List.length] in *;
      rewrite ?length_app; cbn [List.length]; try lia.
    now rewrite <- app_assoc.
Qed.

(** X19.  The batched inserts of [create_database].  Whatever rows the
    loop generates, they are inserted in the order they are generated, each
    exactly once, by calls that each insert at least one row.  The batches
    are not all of 10000 rows: up to 10000 rows go in one call; with more,
    the first call waits for the row of index 10000 and so takes the first
    10001 rows, and every later call takes at most 10000. *)
Theorem batched_inserts {A : Type} (rows : list A) :
  List.concat (insert_all rows) = rows
  /\ batch_sizes_ok 10001 (insert_all rows)
  /\ (Z.of_nat (List.length rows) <= 10000 ->
      insert_all rows = match rows with [] => [] | _ :: _ => [rows] end)
  /\ (10000 < Z.of_nat (List.length rows) ->
      exists later,
        insert_all rows = firstn (Z.to_nat 10001) rows :: later
        /\ List.concat later = skipn (Z.to_nat 10001) rows).
Proof.
  unfold insert_all.
  destruct (insert_batches_inv rows 0 [] ltac:(lia) eq_refl) as [Hcat Hok].
  split; [exact Hcat|]. split; [exact Hok|]. split.
  - intros Hn. apply (first_batch_waits rows 0 []); cbn [List.length]; lia.
  - intros Hn. set (n := Z.to_nat 10000).
    assert (Hn1 : Z.to_nat 10001 = (1 + n)%nat) by (subst n; lia).
    assert (Hnz : Z.of_nat n = 10000) by (subst n; lia).
    clearbody n. rewrite Hn1.
    assert (Hlen : List.length (firstn n rows) = n)
      by (rewrite length_firstn; lia).
    destruct (skipn n rows) as [|row rest] eqn:Hs.
    { apply (f_equal (@List.length A)) in Hs. rewrite length_skipn in Hs.
      cbn [List.length] in Hs. lia. }
    assert (Hsplit : forall (pre : list A) (i : Z) (data more : list A),
               0 <= i -> Z.of_nat (List.length data) = i ->
               i + Z.of_nat (List.length pre) = 10000 ->
               insert_batches i (pre ++ row :: more) data
               = (data ++ pre ++ [row]) :: insert_batches 10001 more []).
    { induction pre as [|a pre IHp]; intros i data more Hi Hd Hp.
      - cbn [app insert_batches List.length] in *.
        assert (Hi0 : i = 10000) by lia. rewrite Hi0. reflexivity.
      - cbn [app insert_batches].
        assert (Hc : (i mod 10000 =? 0) && (0 <? i) = false).
        { apply andb_false_iff.
          destruct (Z.eq_dec i 0) as [-> | Hne]; [now right|]. left.
          apply Z.eqb_neq. rewrite Z.mod_small; cbn [List.length] in Hp; lia. }
        rewrite Hc, IHp; cbn [List.length] in *;
          rewrite ?length_app; cbn [List.length]; try lia.
        now rewrite <- !app_assoc. }
    assert (Hrows : rows = firstn n rows ++ row :: rest)
      by (rewrite <- Hs; symmetry; apply firstn_skipn).
    assert (Hfirst : firstn (1 + n) (firstn n rows ++ row :: rest)
                     = firstn n rows ++ [row]).
    { rewrite firstn_app, Hlen.
      replace (1 + n - n)%nat with 1%nat by lia.
      rewrite firstn_all2 by (rewrite Hlen; lia).
      reflexivity. }
    rewrite <- Hrows in Hfirst.
    exists (insert_batches 10001 rest []). split.
    { transitivity (insert_batches 0 (firstn n rows ++ row :: rest) []);
        [now rewrite <- Hrows|].
      rewrite (Hsplit (firstn n rows) 0 [] rest); cbn [List.length];
        try lia.
      cbn [app]. now rewrite Hfirst. }
    destruct (insert_batches_inv rest 10001 [] ltac:(lia) eq_refl)
      as [Hcat' _].
    rewrite Hcat'. cbn [app].
    rewrite <- skipn_skipn, Hs. reflexivity.
Qed.
(** ** The template parser *)

Lemma lazy_group_some (l : list ascii) :
  l <> [] -> exists g, lazy_group l = Some g.
Proof.
  induction l as [|c rest IH]; [now intros H|]. intros _.
  cbn [lazy_group]. destruct (value_ends rest) eqn:He; [now eexists|].
  destruct rest as [|d rest']; [discriminate He|].
  destruct (IH ltac:(discriminate)) as [g ->]. now eexists.
Qed.

Lemma blanks_then_group_some (l : list ascii) :
  l <> [] -> exists g, blanks_then_group l = Some g.
Proof.
  destruct l as [|c rest]; [now intros H|]. intros _.
  cbn [blanks_then_group].
  destruct (lazy_group_some (c :: rest) ltac:(discriminate)) as [g Hg].
  destruct (is_space c); [| now exists g].
  destruct (blanks_then_group rest) as [g'|]; [now exists g' | now exists g].
Qed.

(** The group is a prefix of the text, and holds no line that starts with
    a capital letter after its first character. *)
Lemma lazy_group_cut (l : list ascii) :
  forall g,
    lazy_group l = Some g ->
    (exists c g' more, g = c :: g' /\ l = c :: g' ++ more
                       /\ value_ends more = true
                       /\ capital_line_inside g' = false).
Proof.
  induction l as [|c rest IH]; intros g H; [discriminate H|].
  cbn [lazy_group] in H. destruct (value_ends rest) eqn:He.
  - assert (g = [c]) by congruence. subst g.
    exists c, [], rest. now repeat split.
  - destruct (lazy_group rest) as [g0|] eqn:Hg; [| discriminate H].
    cbn [option_map] in H. assert (g = c :: g0) by congruence. subst g.
    destruct (IH g0 eq_refl) as (d & g' & more & -> & Hrest & Hmore & Hin).
    exists c, (d :: g'), more.
    split; [reflexivity|]. split; [now rewrite Hrest|].
    split; [exact Hmore|].
    cbn [capital_line_inside]. rewrite Hin, orb_false_r.
    rewrite Hrest in He. cbn [value_ends] in He.
    destruct g' as [|e g'']; [apply andb_false_r | exact He].
Qed.

Lemma newline_is_space : is_space newline = true.
Proof. reflexivity. Qed.

Lemma not_space_not_newline (c : ascii) :
  is_space c = false -> Ascii.eqb c newline = false.
Proof.
  intros H. destruct (Ascii.eqb_spec c newline) as [-> | _]; [| reflexivity].
  now rewrite newline_is_space in H.
Qed.

Lemma blanks_then_group_cut (l : list ascii) :
  forall g, blanks_then_group l = Some g -> capital_line_inside g = false.
Proof.
  induction l as [|c rest IH]; intros g H; [discriminate H|].
  cbn [blanks_then_group] in H.
  destruct (is_space c) eqn:Hc.
  - destruct (blanks_then_group rest) as [g'|] eqn:Hb.
    + assert (g = g') by congruence. subst g'. now apply IH.
    + destruct rest as [|d rest'].
      * cbn in H. assert (g = [c]) by congruence. subst g.
        cbn. now rewrite andb_false_r.
      * destruct (blanks_then_group_some (d :: rest') ltac:(discriminate))
          as [g' Hg']. congruence.
  - destruct (lazy_group_cut _ _ H) as (d & g' & more & -> & Hl & _ & Hin).
    assert (d = c) by congruence. subst d.
    cbn [capital_line_inside].
    now rewrite Hin, (not_space_not_newline c Hc).
Qed.

Lemma search_from_group (label : list ascii) (l : list ascii) :
  forall b g,
    search_from label b l = Some g ->
    exists l', blanks_then_group l' = Some g.
Proof.
  induction l as [|c rest IH]; intros b g H; cbn [search_from] in H.
  - destruct (b && starts_with label []); [| discriminate H].
    destruct (blanks_then_group (skipn (List.length label) [])) eqn:Hb;
      [| discriminate H].
    eexists. rewrite Hb. exact H.
  - destruct (b && starts_with label (c :: rest)).
    + destruct (blanks_then_group (skipn (List.length label) (c :: rest)))
        eqn:Hb.
      * eexists. rewrite Hb. exact H.
      * now apply IH in H.
    + now apply IH in H.
Qed.

Lemma capital_line_inside_app (a b : list ascii) :
  capital_line_inside (a ++ b) = false ->
  capital_line_inside a = false /\ capital_line_inside b = false.
Proof.
  induction a as [|c a IH]; [now split|].
  cbn [app capital_line_inside]. intros H.
  apply orb_false_iff in H as [Hhead Hrest].
  destruct (IH Hrest) as [Ha Hb]. split; [| exact Hb].
  rewrite Ha, orb_false_r.
  destruct a as [|d a']; [apply andb_false_r | exact Hhead].
Qed.

(** [strip] keeps a stretch of the text. *)
Lemma strip_chars_inside (l : list ascii) :
  exists before after, l = before ++ strip_chars l ++ after.
Proof.
  unfold strip_chars.
  destruct (drop_spaces_suffix l) as [before Hb].
  destruct (drop_spaces_suffix (rev (drop_spaces l))) as [blanks Ha].
  apply (f_equal (@rev ascii)) in Ha.
  rewrite rev_involutive, rev_app_distr in Ha.
  exists before, (rev blanks). now rewrite <- Ha.
Qed.

(** Keys set at most once each, in the order of the patterns. *)
Lemma found_keys {V : Type} (f : string * string -> option V)
  (ps : list (string * string)) (k : string) :
  In k (map fst (flat_map (fun p => match f p with
                                    | Some v => [(fst p, v)]
                                    | None => []
                                    end) ps)) ->
  In k (map fst ps).
Proof.
  induction ps as [|p ps IH]; [now intros H|].
  cbn [flat_map map]. rewrite map_app, in_app_iff.
  intros [H | H]; [| right; now apply IH].
  destruct (f p); [| destruct H]. destruct H as [H | []]. now left.
Qed.

Lemma found_keys_nodup {V : Type} (f : string * string -> option V)
  (ps : list (string * string)) :
  NoDup (map fst ps) ->
  NoDup (map fst (flat_map (fun p => match f p with
                                     | Some v => [(fst p, v)]
                                     | None => []
                                     end) ps)).
Proof.
  induction ps as [|p ps IH]; [constructor|].
  cbn [flat_map map]. intros H. inversion H as [|k ks Hnot Hnd]; subst.
  rewrite map_app. destruct (f p); cbn [map app]; [| now apply IH].
  constructor; [| now apply IH].
  intros Hin. apply Hnot. now apply found_keys in Hin.
Qed.

(** X20.  What a parsed text field can hold.  Every text value in the
    result of [_parse_template_format] starts and ends with no blank, does
    not start with a bracket, and holds no line break that is directly
    followed by a capital letter: the value of a field stops at the first
    line that starts with a capital, whether or not that line is another
    field.  Every key of the result is a field of the patterns, and no key
    comes twice. *)
Theorem parsed_text_is_cut (literal : Type)
  (literal_eval : string -> option literal) (empty_list : literal)
  (text : string) :
  let result := _parse_template_format literal literal_eval empty_list text in
  (forall field s,
      In (field, FText literal s) result ->
      let l := list_ascii_of_string s in
      clean l /\ clean (rev l)
      /\ starts_with ["["%char] l = false
      /\ capital_line_inside l = false)
  /\ (forall field v, In (field, v) result -> In field (map fst patterns))
  /\ NoDup (map fst result).
Proof.
  cbv zeta.
  assert (Hfield : forall label s,
             parse_field literal literal_eval empty_list text label
             = Some (FText literal s) ->
             clean (list_ascii_of_string s)
             /\ clean (rev (list_ascii_of_string s))
             /\ starts_with ["["%char] (list_ascii_of_string s) = false
             /\ capital_line_inside (list_ascii_of_string s) = false).
  { intros label s. unfold parse_field.
    destruct (search_from _ true _) as [g|] eqn:Hs; [| discriminate].
    destruct (starts_with ["["%char] (strip_chars g)) eqn:Hbr.
    { destruct (literal_eval _); discriminate. }
    intros H. assert (Hs' : s = string_of_list_ascii (strip_chars g))
      by congruence.
    subst s. rewrite chars_of_list.
    destruct (strip_chars_clean g) as [Hc1 Hc2].
    split; [exact Hc1|]. split; [exact Hc2|]. split; [exact Hbr|].
    apply search_from_group in Hs as [l' Hl'].
    apply blanks_then_group_cut in Hl'.
    destruct (strip_chars_inside g) as (before & after & Hg).
    rewrite Hg in Hl'.
    apply capital_line_inside_app in Hl' as [_ Hl'].
    now apply capital_line_inside_app in Hl' as [Hl' _]. }
  unfold _parse_template_format.
  split; [| split].
  - intros field s Hin. apply in_flat_map in Hin as ([f label] & _ & Hin).
    cbn [fst snd] in Hin.
    destruct (parse_field literal literal_eval empty_list text label)
      as [v|] eqn:Hp; [| destruct Hin].
    destruct Hin as [Heq | []].
    assert (v = FText literal s) by congruence. subst v.
    now apply (Hfield label).
  - intros field v Hin. apply in_flat_map in Hin as ([f label] & Hp & Hin).
    cbn [fst snd] in Hin.
    destruct (parse_field literal literal_eval empty_list text label);
      [| destruct Hin].
    destruct Hin as [Heq | []]. assert (f = field) by congruence. subst f.
    now apply (in_map fst) in Hp.
  - apply found_keys_nodup. unfold patterns. cbn [map fst].
    repeat (constructor; [cbn; intuition discriminate|]).
    constructor.
Qed.

(** *** A template read back *)

Lemma search_skips_line (label : list ascii) (m rest : list ascii) :
  no_newline m = true ->
  search_from label false (m ++ newline :: rest) = search_from label true rest.
Proof.
  induction m as [|c m IH]; intros Hm.
  - cbn [app search_from andb]. now rewrite Ascii.eqb_refl.
  - cbn [no_newline forallb] in Hm. apply andb_prop in Hm as [Hc Hm].
    apply negb_true_iff in Hc.
    cbn [app search_from andb]. rewrite Hc. now apply IH.
Qed.

(** A line that does not start with the label is passed over. *)
Lemma search_passes_line (label : list ascii) (c : ascii) (m rest : list ascii) :
  no_newline (c :: m) = true ->
  starts_with label (c :: m ++ newline :: rest) = false ->
  search_from label true (c :: m ++ newline :: rest)
  = search_from label true rest.
Proof.
  intros Hm Hs. cbn [search_from]. rewrite Hs. cbn [andb].
  cbn [no_newline forallb] in Hm. apply andb_prop in Hm as [Hc Hm].
  apply negb_true_iff in Hc. rewrite Hc. now apply search_skips_line.
Qed.

(** The group on a line: up to the line break when a capital follows it,
    further otherwise. *)
Lemma lazy_group_cons (c : ascii) (rest : list ascii) :
  lazy_group (c :: rest)
  = if value_ends rest then Some [c]
    else option_map (cons c) (lazy_group rest).
Proof. reflexivity. Qed.

Lemma lazy_group_line (v rest : list ascii) :
  v <> [] -> no_newline v = true ->
  lazy_group (v ++ newline :: rest)
  = if value_ends (newline :: rest) then Some v
    else option_map (app v) (lazy_group (newline :: rest)).
Proof.
  set (tail := newline :: rest).
  induction v as [|c v IH]; [now intros H|]. intros _ Hv.
  cbn [no_newline forallb] in Hv. apply andb_prop in Hv as [_ Hv].
  destruct v as [|d v'].
  - cbn [app]. rewrite lazy_group_cons.
    destruct (value_ends tail); [reflexivity|].
    destruct (lazy_group tail); reflexivity.
  - specialize (IH ltac:(discriminate) Hv).
    change ((c :: d :: v') ++ tail) with (c :: (d :: v') ++ tail).
    rewrite lazy_group_cons.
    assert (Hd : value_ends ((d :: v') ++ tail) = false).
    { cbn [no_newline forallb] in Hv. apply andb_prop in Hv as [Hd _].
      apply negb_true_iff in Hd. cbn [app value_ends]. now rewrite Hd. }
    rewrite Hd, IH.
    destruct (value_ends tail); [reflexivity|].
    destruct (lazy_group tail); reflexivity.
Qed.

Lemma strip_line_end (v : list ascii) :
  v <> [] -> clean v -> clean (rev v) -> strip_chars (v ++ [newline]) = v.
Proof.
  intros Hne H1 H2. unfold strip_chars.
  assert (Hhead : clean (v ++ [newline])) by (destruct v; [easy | exact H1]).
  rewrite (clean_fixed _ Hhead), rev_app_distr. cbn [rev app drop_spaces].
  rewrite newline_is_space, (clean_fixed _ H2). apply rev_involutive.
Qed.

Lemma label_facts (label : string) :
  In label labels ->
  exists c l,
    list_ascii_of_string label = c :: l
    /\ is_capital c = true
    /\ no_newline (c :: l) = true.
Proof.
  unfold labels, patterns. cbn [map snd].
  intros H.
  repeat (destruct H as [<- | H]; [eexists _, _; now repeat split|]).
  destruct H.
Qed.

(** No label starts another. *)
Lemma labels_apart (a b : string) (rest : list ascii) :
  In a labels -> In b labels -> a <> b ->
  starts_with (list_ascii_of_string a) (list_ascii_of_string b ++ rest)
  = false.
Proof.
  unfold labels, patterns. cbn [map snd].
  intros Ha Hb Hne.
  repeat (destruct Ha as [<- | Ha]; [| try (now destruct Ha)]);
    repeat (destruct Hb as [<- | Hb]; [| try (now destruct Hb)]);
    try reflexivity; now contradiction Hne.
Qed.

Lemma template_chars (f : string * string) (rest : list (string * string)) :
  list_ascii_of_string (template (f :: rest))
  = list_ascii_of_string (fst f)
    ++ " "%char :: list_ascii_of_string (snd f)
    ++ newline :: list_ascii_of_string (template rest).
Proof.
  cbn [template]. unfold template_line.
  rewrite !chars_app. cbn [list_ascii_of_string app].
  rewrite <- app_assoc. cbn [app]. now rewrite <- app_assoc.
Qed.

(** What follows a line of a template: nothing, or a capital letter. *)
Lemma template_head (fields : list (string * string)) :
  Forall (fun f => In (fst f) labels) fields ->
  value_ends (newline :: list_ascii_of_string (template fields))
  = match fields with [] => false | _ :: _ => true end.
Proof.
  intros H. destruct fields as [|f rest]; [reflexivity|].
  inversion H as [|f' rest' Hf _]; subst.
  destruct (label_facts (fst f) Hf) as (c & l & Hl & Hc & _).
  rewrite template_chars, Hl. cbn [app value_ends].
  now rewrite Ascii.eqb_refl, Hc.
Qed.

Lemma search_from_here (label l : list ascii) (g : list ascii) :
  starts_with label l = true ->
  blanks_then_group (skipn (List.length label) l) = Some g ->
  search_from label true l = Some g.
Proof.
  intros Hs Hg. destruct l as [|c rest]; cbn [search_from andb];
    now rewrite Hs, Hg.
Qed.

(** The search on a template finds the value of the first line with the
    label, up to the blanks [strip] removes. *)
Lemma search_template (label : string) (fields : list (string * string)) :
  In label labels ->
  Forall (fun f => In (fst f) labels) fields ->
  Forall (fun f => plain_value (snd f)) fields ->
  option_map strip_chars
    (search_from (list_ascii_of_string label) true
       (list_ascii_of_string (template fields)))
  = option_map list_ascii_of_string (str_dict_get fields label).
Proof.
  intros Hlabel Hl Hv.
  destruct (label_facts label Hlabel) as (c0 & l0 & Hchars & _ & _).
  induction fields as [|[lab v] rest IH].
  - cbn [template list_ascii_of_string search_from str_dict_get option_map].
    rewrite Hchars. reflexivity.
  - inversion Hl as [|f' r' Hlab Hl']; subst.
    inversion Hv as [|f' r' Hplain Hv']; subst.
    cbn [fst snd] in Hlab, Hplain.
    specialize (IH Hl' Hv').
    destruct Hplain as (Hne & Hnl & Hc1 & Hc2 & _).
    rewrite template_chars. cbn [fst snd str_dict_get].
    destruct (String.eqb_spec lab label) as [-> | Hdiff].
    + set (tail := newline :: list_ascii_of_string (template rest)).
      assert (Hgroup : blanks_then_group
                         (" "%char :: list_ascii_of_string v ++ tail)
                       = lazy_group (list_ascii_of_string v ++ tail)).
      { destruct (list_ascii_of_string v) as [|c l]; [now contradiction Hne|].
        destruct (lazy_group_some ((c :: l) ++ tail) ltac:(discriminate))
          as [g Hg].
        cbn [app blanks_then_group]. change (is_space " ") with true.
        cbn [clean] in Hc1. rewrite Hc1. cbv iota.
        cbn [app] in Hg. now rewrite Hg. }
      assert (Hfound : exists g,
                 lazy_group (list_ascii_of_string v ++ tail) = Some g
                 /\ strip_chars g = list_ascii_of_string v).
      { unfold tail. rewrite (lazy_group_line _ _ Hne Hnl).
        rewrite (template_head rest Hl').
        destruct rest as [|f rest'].
        - cbn [template list_ascii_of_string]. rewrite lazy_group_cons.
          cbn [value_ends option_map]. eexists. split; [reflexivity|].
          now apply strip_line_end.
        - eexists. split; [reflexivity|]. now apply strip_chars_fixed. }
      destruct Hfound as (g & Hg & Hstrip).
      rewrite (search_from_here _ _ g).
      * cbn [option_map]. now rewrite Hstrip.
      * apply starts_with_app.
      * rewrite skipn_app, Nat.sub_diag, skipn_all. cbn [skipn app].
        now rewrite Hgroup.
    + destruct (label_facts lab Hlab) as (c & l & Hlc & _ & Hlnl).
      rewrite Hlc. cbn [app].
      replace (l ++ " "%char :: list_ascii_of_string v
               ++ newline :: list_ascii_of_string (template rest))
        with ((l ++ " "%char :: list_ascii_of_string v)
              ++ newline :: list_ascii_of_string (template rest))
        by (now rewrite <- app_assoc).
      rewrite search_passes_line; [exact IH | |].
      * cbn [no_newline forallb] in *. apply andb_prop in Hlnl as [Hc Hl0].
        rewrite Hc. cbn [andb]. rewrite forallb_app, Hl0. cbn [forallb andb].
        exact Hnl.
      * rewrite <- app_assoc. cbn [app].
        change (c :: l ++ " "%char :: list_ascii_of_string v
                ++ newline :: list_ascii_of_string (template rest))
          with ((c :: l) ++ " "%char :: list_ascii_of_string v
                ++ newline :: list_ascii_of_string (template rest)).
        rewrite <- Hlc. apply labels_apart; [exact Hlabel | exact Hlab|].
        congruence.
Qed.

Lemma flat_map_agree {A B : Type} (f g : A -> list B) (l : list A) :
  (forall a, In a l -> f a = g a) -> flat_map f l = flat_map g l.
Proof.
  induction l as [|a l IH]; [reflexivity|]. intros H. cbn [flat_map].
  rewrite (H a (or_introl eq_refl)), IH; [reflexivity|].
  intros b Hb. apply H. now right.
Qed.

(** X21.  A template read back.  When a text is made of lines
    ["<Label>: <value>"], each label one of the ten the parser knows and
    each value written on one line, not empty, with no blank at either end
    and no bracket at its start, then [_parse_template_format] gives back
    exactly these values as texts: one key for each label that has a line,
    in the order of the patterns whatever the order of the lines, with the
    value of the first line when a label comes twice. *)
Theorem template_read_back (literal : Type)
  (literal_eval : string -> option literal) (empty_list : literal)
  (fields : list (string * string))
  (Hl : Forall (fun f => In (fst f) labels) fields)
  (Hv : Forall (fun f => plain_value (snd f)) fields) :
  _parse_template_format literal literal_eval empty_list (template fields)
  = fields_found fields.
Proof.
  unfold _parse_template_format, fields_found.
  apply flat_map_agree. intros [field label] Hin. cbn [fst snd].
  assert (Hlabel : In label labels) by (now apply (in_map snd) in Hin).
  pose proof (search_template label fields Hlabel Hl Hv) as Hs.
  unfold parse_field.
  destruct (search_from _ true _) as [g|];
    destruct (str_dict_get fields label) as [v|] eqn:Hget;
    cbn [option_map] in Hs; try discriminate Hs; [| reflexivity].
  assert (Hg : strip_chars g = list_ascii_of_string v) by congruence.
  rewrite Hg, str_of_chars.
  assert (Hplain : plain_value v).
  { clear Hs Hg Hin. induction fields as [|[lab w] rest IH];
      [discriminate Hget|].
    inversion Hl; inversion Hv; subst. cbn [str_dict_get] in Hget.
    destruct (String.eqb lab label); [| now apply IH].
    assert (w = v) by congruence. now subst w. }
  destruct Hplain as (_ & _ & _ & _ & Hbr). now rewrite Hbr.
Qed.

(** Three lines in another order than the patterns'. *)
Lemma template_read_back_witness :
  _parse_template_format unit (fun _ => None) tt
    (template [("Findings:", "none so far"); ("Title:", "Sales in Q3");
               ("Timeframe:", "Q3")])
  = [("title", FText unit "Sales in Q3"); ("timeframe", FText unit "Q3");
     ("findings", FText unit "none so far")].
Proof.
  apply (template_read_back unit (fun _ => None) tt
           [("Findings:", "none so far"); ("Title:", "Sales in Q3");
            ("Timeframe:", "Q3")]).
  - repeat constructor; cbn; tauto.
  - repeat constructor; cbn; discriminate.
Defined.

Lemma blanks_skipped (blanks rest : list ascii) :
  forallb is_space blanks = true -> rest <> [] ->
  blanks_then_group (blanks ++ rest) = blanks_then_group rest.
Proof.
  intros Hb Hr. induction blanks as [|c blanks IH]; [reflexivity|].
  cbn [forallb] in Hb. apply andb_prop in Hb as [Hc Hb].
  cbn [app blanks_then_group]. rewrite Hc, (IH Hb).
  now destruct (blanks_then_group_some rest Hr) as [g ->].
Qed.

(** X22.  Blanks after a label.  Between the label and the value any run
    of blanks is skipped, line breaks among them: the text after them is
    read as if it followed the label directly.  So the value may start on a
    later line, and a label with nothing after it on its line takes what
    comes next as its value, be it the line of another field. *)
Theorem blanks_after_label (literal : Type)
  (literal_eval : string -> option literal) (empty_list : literal)
  (label : string) (blanks : list ascii) (rest : string)
  (Hb : forallb is_space blanks = true) (Hr : rest <> "") :
  parse_field literal literal_eval empty_list
    (label ++ string_of_list_ascii blanks ++ rest) label
  = parse_field literal literal_eval empty_list (label ++ rest) label.
Proof.
  unfold parse_field.
  rewrite !chars_app, chars_of_list.
  assert (Hrest : list_ascii_of_string rest <> []).
  { destruct rest; [now contradiction Hr | discriminate]. }
  assert (Hhere : forall tail,
             tail <> [] ->
             search_from (list_ascii_of_string label) true
               (list_ascii_of_string label ++ tail)
             = blanks_then_group tail).
  { intros tail Ht.
    destruct (blanks_then_group_some tail Ht) as [g Hg].
    rewrite Hg. apply search_from_here; [apply starts_with_app|].
    rewrite skipn_app, Nat.sub_diag, skipn_all. cbn [skipn app].
    exact Hg. }
  rewrite (Hhere (blanks ++ list_ascii_of_string rest)), (Hhere _ Hrest),
    (blanks_skipped _ _ Hb Hrest); [reflexivity|].
  intros H. apply app_eq_nil in H as [_ H]. now contradiction Hrest.
Qed.

(** A title left empty takes the line of the findings as its value. *)
Lemma blanks_after_label_witness :
  parse_field unit (fun _ => None) tt
    ("Title:" ++ string_of_list_ascii [newline] ++ "Findings: none") "Title:"
  = Some (FText unit "Findings: none").
Proof.
  rewrite (blanks_after_label unit (fun _ => None) tt "Title:" [newline]
             "Findings: none" eq_refl ltac:(discriminate)).
  reflexivity.
Defined.
